(** * Quantization recipe resolution, tensor materialization and
      QUANTIZE_TENSOR graph edit of the AI Edge Quantizer

    Shallow embedding of
    - [recipe_manager.py] (class [RecipeManager]),
    - [algorithms/utils/min_max_quantize_utils.py],
    - [algorithms/uniform_quantize/naive_min_max_quantize.py],
    - [transformations/quantize_tensor.py],
    - [utils/tfl_flatbuffer_utils.py], in its two versions,
    followed by the properties established about them.

    Conventions.  Python exceptions are values of [exn] carried by the
    [result] monad.  A Python [dict] keyed by tensor names is a [gmap string];
    the [OrderedDict] of the recipe manager is an association list, because
    its iteration order is observable.  List subscripts follow Python: a
    negative index counts from the end of the list.  numpy arrays, floats and
    the routines of [uniform_quantize_tensor] are parameters of the
    development. *)

From Stdlib Require Import ZArith QArith List String Bool Lia.
From stdpp Require Import base option list gmap strings pretty.

Import ListNotations.
Local Open Scope Z_scope.

(* ===================================================================== *)
(** * Exceptions and the result monad *)
(* ===================================================================== *)

Inductive exn : Type :=
| ValueError (msg : string)
| KeyError (key : string)
| IndexError
| AttributeError (attr : string)
| LibraryError (what : string).

Inductive result (A : Type) : Type :=
| Ok (a : A)
| Err (e : exn).
Arguments Ok {A} a.
Arguments Err {A} e.

Definition result_bind {A B} (f : A -> result B) (r : result A) : result B :=
  match r with
  | Ok a => f a
  | Err e => Err e
  end.

#[global] Instance result_ret : MRet result := fun _ a => Ok a.
#[global] Instance result_mbind : MBind result := fun _ _ f r => result_bind f r.

Definition is_ok {A} (r : result A) : bool :=
  match r with Ok _ => true | Err _ => false end.

(** [for x in xs: acc = f(acc, x)] where the body may raise. *)
Fixpoint foldM {A B} (f : A -> B -> result A) (acc : A) (xs : list B)
  : result A :=
  match xs with
  | [] => Ok acc
  | x :: xs' => acc' ← f acc x; foldM f acc' xs'
  end.

(** [[f(x) for x in xs]] where [f] may raise; evaluation is left to right. *)
Fixpoint mapM_result {A B} (f : A -> result B) (xs : list A) : result (list B) :=
  match xs with
  | [] => Ok []
  | x :: xs' => y ← f x; ys ← mapM_result f xs'; Ok (y :: ys)
  end.

(** Python subscript [l[i]]: negative indices count from the end. *)
Definition py_index {A} (l : list A) (i : Z) : result A :=
  let n := Z.of_nat (length l) in
  let j := if i <? 0 then i + n else i in
  if (0 <=? j) && (j <? n)
  then match l !! Z.to_nat j with
       | Some x => Ok x
       | None => Err IndexError
       end
  else Err IndexError.

(* ===================================================================== *)
(** * qtyping: enumerations and configuration records *)
(* ===================================================================== *)

Module QTyping.

(** [TFLOperationName]; [ALL] is the wildcard ["*"]. *)
Inductive TFLOperationName : Type :=
| ALL
| INPUT
| OUTPUT
| FULLY_CONNECTED
| BATCH_MATMUL
| CONV_2D
| DEPTHWISE_CONV_2D
| TRANSPOSE_CONV
| EMBEDDING_LOOKUP
| SOFTMAX
| AVERAGE_POOL_2D
| RESHAPE
| TANH
| TRANSPOSE
| GELU
| ADD
| SUB
| MUL
| CUSTOM_OP.

#[global] Instance TFLOperationName_eq_dec : EqDecision TFLOperationName.
Proof. solve_decision. Defined.

Inductive OpExecutionMode : Type :=
| WEIGHT_ONLY
| DRQ
| SRQ.

#[global] Instance OpExecutionMode_eq_dec : EqDecision OpExecutionMode.
Proof. solve_decision. Defined.

Inductive QuantTransformation : Type :=
| NO_QUANTIZE
| ADD_QUANTIZE
| ADD_DEQUANTIZE
| QUANTIZE_TENSOR.

#[global] Instance QuantTransformation_eq_dec : EqDecision QuantTransformation.
Proof. solve_decision. Defined.

Inductive TensorDataType : Type :=
| FLOAT
| INT.

#[global] Instance TensorDataType_eq_dec : EqDecision TensorDataType.
Proof. solve_decision. Defined.

Record TensorQuantizationConfig : Type := {
  num_bits : Z;
  symmetric : bool;
  channel_wise : bool;
  dtype : TensorDataType
}.

#[global] Instance TensorQuantizationConfig_eq_dec :
  EqDecision TensorQuantizationConfig.
Proof. solve_decision. Defined.

(** The weight configuration is dereferenced without a [None] test by
    [check_drq_config], [check_srq_config] and [init_tensor_min_max]; only
    the activation configuration is optional. *)
Record OpQuantizationConfig : Type := {
  activation_tensor_config : option TensorQuantizationConfig;
  weight_tensor_config : TensorQuantizationConfig;
  execution_mode : OpExecutionMode
}.

#[global] Instance OpQuantizationConfig_eq_dec :
  EqDecision OpQuantizationConfig.
Proof. solve_decision. Defined.

(** [TransformationInfo(op_id, num_ops_added, output_tensor_id)]. *)
Record TransformationInfo : Type := {
  op_id : Z;
  num_ops_added : Z;
  output_tensor_id : Z
}.

End QTyping.
Import QTyping.

(* ===================================================================== *)
(** * min_max_quantize_utils.get_tensor_transformations *)
(* ===================================================================== *)

(** The function starts from [transformations = []] and overwrites it in the
    branch selected by the execution mode. *)
Definition get_tensor_transformations (op_quant_config : OpQuantizationConfig)
    (is_inbounding_tensor is_constant : bool) : list QuantTransformation :=
  let transformations := [] in
  if decide (execution_mode op_quant_config = SRQ) then
    if is_inbounding_tensor then
      let transformations := [ADD_QUANTIZE] in
      if is_constant then [QUANTIZE_TENSOR] else transformations
    else [ADD_DEQUANTIZE]
  else if decide (execution_mode op_quant_config = DRQ) then
    if is_inbounding_tensor && is_constant then [QUANTIZE_TENSOR]
    else [NO_QUANTIZE]
  else if decide (execution_mode op_quant_config = WEIGHT_ONLY) then
    if is_inbounding_tensor && is_constant then [ADD_DEQUANTIZE]
    else [NO_QUANTIZE]
  else transformations.

(** The mode table of the specification, read row by row:
    columns are inbound-and-constant, inbound-and-activation, outbound. *)
Definition mode_table (mode : OpExecutionMode) (inbound constant : bool)
  : QuantTransformation :=
  match mode, inbound, constant with
  | SRQ, true, true => QUANTIZE_TENSOR
  | SRQ, true, false => ADD_QUANTIZE
  | SRQ, false, _ => ADD_DEQUANTIZE
  | DRQ, true, true => QUANTIZE_TENSOR
  | DRQ, _, _ => NO_QUANTIZE
  | WEIGHT_ONLY, true, true => ADD_DEQUANTIZE
  | WEIGHT_ONLY, _, _ => NO_QUANTIZE
  end.

(* ===================================================================== *)
(** * recipe_manager.RecipeManager *)
(* ===================================================================== *)

Module RecipeManager.

Record OpQuantizationRecipe : Type := {
  regex : string;
  operation : TFLOperationName;
  algorithm_key : string;
  op_config : OpQuantizationConfig;
  override_algorithm : bool
}.

#[global] Instance OpQuantizationRecipe_eq_dec : EqDecision OpQuantizationRecipe.
Proof. solve_decision. Defined.

(** [self._scope_configs]: an [OrderedDict] from scope regex to the rules
    of that scope, iterated in insertion order. *)
Definition scope_configs : Type := list (string * list OpQuantizationRecipe).

(** [d[k]] of an ordered dictionary, as [option]. *)
Fixpoint od_get {V} (k : string) (d : list (string * V)) : option V :=
  match d with
  | [] => None
  | (k', v) :: d' => if decide (k' = k) then Some v else od_get k d'
  end.

(** [d[k] = v]: an existing key keeps its position, a new key goes last. *)
Fixpoint od_set {V} (k : string) (v : V) (d : list (string * V))
  : list (string * V) :=
  match d with
  | [] => [(k, v)]
  | (k', v') :: d' =>
      if decide (k' = k) then (k, v) :: d' else (k', v') :: od_set k v d'
  end.

(** One dictionary of the serialized recipe ([ModelQuantizationRecipe]);
    ['op_config'] holds [op_config.to_dict()]. *)
Record recipe_dict (D : Type) : Type := {
  d_regex : string;
  d_operation : TFLOperationName;
  d_algorithm_key : string;
  d_op_config : D;
  d_override_algorithm : bool
}.
Arguments d_regex {D} _.
Arguments d_operation {D} _.
Arguments d_algorithm_key {D} _.
Arguments d_op_config {D} _.
Arguments d_override_algorithm {D} _.

Section Manager.

(** [algorithm_manager.NO_QUANT], [algorithm_manager.is_op_registered],
the default [OpQuantizationConfig()] and [re.search] (for patterns that
compile) come from other modules and are parameters. *)
Variable NO_QUANT : string.
Variable is_op_registered : string -> TFLOperationName -> bool.
Variable default_op_config : OpQuantizationConfig.
Variable re_search : string -> string -> bool.

(** The loop of [add_quantization_config] that rebuilds the rule list of
    an existing scope: state is [(configs, is_new_op)]. *)
Definition rebuild_step (config : OpQuantizationRecipe)
    (st : list OpQuantizationRecipe * bool)
    (existing_config : OpQuantizationRecipe)
  : list OpQuantizationRecipe * bool :=
  let '(configs, is_new_op) := st in
  if decide (operation existing_config = operation config)
  then (configs ++ [config], false)
  else (configs ++ [existing_config], is_new_op).

Definition add_quantization_config (self : scope_configs)
    (rx : string) (operation_name : TFLOperationName)
    (op_cfg : option OpQuantizationConfig)
    (alg_key : string) (override : bool) : result scope_configs :=
  let op_cfg := match op_cfg with
                | None => default_op_config
                | Some c => c
                end in
  let config := {| regex := rx; operation := operation_name;
                   algorithm_key := alg_key; op_config := op_cfg;
                   override_algorithm := override |} in
  if decide (operation config = ALL) then
    Ok (od_set rx [config] self)
  else if negb (bool_decide (alg_key = NO_QUANT))
          && negb (is_op_registered alg_key operation_name) then
    Err (ValueError "Unsupported operation for algorithm. Please check and update algorithm manager.")
  else
    match od_get rx self with
    | None => Ok (od_set rx [config] self)
    | Some existing =>
        let '(configs, is_new_op) :=
          fold_left (rebuild_step config) existing ([], true) in
        let configs := if is_new_op then configs ++ [config] else configs in
        Ok (od_set rx configs self)
    end.

(** Body of the inner loop of [get_quantization_configs]; the two
    [continue] statements return the running result unchanged. *)
Definition resolve_recipe (target_op_name : TFLOperationName)
    (res : string * OpQuantizationConfig) (recipe : OpQuantizationRecipe)
  : string * OpQuantizationConfig :=
  let '(result_key, result_config) := res in
  if bool_decide (operation recipe <> ALL)
     && bool_decide (operation recipe <> target_op_name)
  then res
  else if bool_decide (result_key <> algorithm_key recipe) then
    if override_algorithm recipe
    then (algorithm_key recipe, op_config recipe)
    else res
  else (result_key, op_config recipe).

Definition get_quantization_configs (self : scope_configs)
    (target_op_name : TFLOperationName) (scope_name : string)
  : string * OpQuantizationConfig :=
  fold_left
    (fun res '(scope_regex, recipes) =>
       if re_search scope_regex scope_name
       then fold_left (resolve_recipe target_op_name) recipes res
       else res)
    self (NO_QUANT, default_op_config).

Section Serialization.

(** [OpQuantizationConfig.to_dict] and [.from_dict]. *)
Variable D : Type.
Variable to_dict : OpQuantizationConfig -> D.
Variable from_dict : D -> OpQuantizationConfig.

Definition get_quantization_recipe (self : scope_configs)
  : list (recipe_dict D) :=
  flat_map
    (fun '(_, scope_config) =>
       map (fun quant_config =>
              {| d_regex := regex quant_config;
                 d_operation := operation quant_config;
                 d_algorithm_key := algorithm_key quant_config;
                 d_op_config := to_dict (op_config quant_config);
                 d_override_algorithm :=
                   override_algorithm quant_config |})
           scope_config)
    self.

(** [load_quantization_recipe] first resets [self._scope_configs], so
    the previous state is irrelevant; a failing
    [add_quantization_config] aborts the load. *)
Definition load_quantization_recipe
    (quantization_recipe : list (recipe_dict D)) : result scope_configs :=
  foldM
    (fun self config =>
       add_quantization_config self (d_regex config)
         (d_operation config)
         (Some (from_dict (d_op_config config)))
         (d_algorithm_key config)
         (d_override_algorithm config))
    [] quantization_recipe.

End Serialization.

(** States a manager can be in: the empty one, and those obtained by a
    call of [add_quantization_config] that did not raise. *)
Inductive reachable : scope_configs -> Prop :=
| reachable_init : reachable []
| reachable_add self rx op cfg alg ov self' :
    reachable self ->
    add_quantization_config self rx op cfg alg ov = Ok self' ->
    reachable self'.

(** The resolution procedure in the words of the specification: the
    rules that apply to a query, in scan order, ... *)
Definition applicable_rules (self : scope_configs)
    (target : TFLOperationName) (scope_name : string)
  : list OpQuantizationRecipe :=
  flat_map
    (fun '(scope_regex, recipes) =>
       if re_search scope_regex scope_name
       then filter (fun r => operation r = ALL \/ operation r = target)
                   recipes
       else [])
    self.

(** ... and what one applicable rule does to the running result. *)
Definition apply_rule (res : string * OpQuantizationConfig)
    (r : OpQuantizationRecipe) : string * OpQuantizationConfig :=
  if decide (algorithm_key r = fst res)
  then (fst res, op_config r)
  else if override_algorithm r then (algorithm_key r, op_config r)
  else res.

Definition resolve_spec (self : scope_configs)
    (target : TFLOperationName) (scope_name : string)
  : string * OpQuantizationConfig :=
  fold_left apply_rule (applicable_rules self target scope_name)
    (NO_QUANT, default_op_config).

End Manager.

Arguments get_quantization_recipe {D} to_dict self.
Arguments load_quantization_recipe NO_QUANT is_op_registered default_op_config
{D} from_dict quantization_recipe.

End RecipeManager.

(* ===================================================================== *)
(** * The flatbuffer object API (schema_py_generated) *)
(* ===================================================================== *)

Module Schema.

(** [TensorType]: the 18 element types counted by [NUM_TFL_DATATYPES]. *)
Inductive TensorType : Type :=
| FLOAT32 | FLOAT16 | INT32 | UINT8 | INT64 | STRING | BOOL | INT16
| COMPLEX64 | INT8 | FLOAT64 | COMPLEX128 | UINT64 | RESOURCE | VARIANT
| UINT32 | UINT16 | INT4.

#[global] Instance TensorType_eq_dec : EqDecision TensorType.
Proof. solve_decision. Defined.

(** [QuantizationParametersT]; [F] is the element type of [scale]. *)
Record QuantizationParametersT (F : Type) : Type := {
  scale : option (list F);
  zeroPoint : option (list Z);
  quantizedDimension : Z
}.
Arguments scale {F} _.
Arguments zeroPoint {F} _.
Arguments quantizedDimension {F} _.

(** [TensorT]; [name] stands for [tensor.name.decode("utf-8")]. *)
Record TensorT (F : Type) : Type := {
  name : string;
  shape : list Z;
  type : TensorType;
  buffer : Z;
  quantization : option (QuantizationParametersT F)
}.
Arguments name {F} _.
Arguments shape {F} _.
Arguments type {F} _.
Arguments buffer {F} _.
Arguments quantization {F} _.

(** [BufferT]: [data] is [None] for a tensor without embedded content;
    [offset] and [size] locate the content of a large model in the whole
    model buffer. *)
Record BufferT : Type := {
  data : option (list Byte.byte);
  offset : nat;
  size : nat
}.

(** [OperatorT]; [adjY] is [op.builtinOptions.adjY], [None] when the builtin
    options have no such attribute. *)
Record OperatorT : Type := {
  inputs : list Z;
  outputs : list Z;
  adjY : option bool
}.

Record SubGraphT (F : Type) : Type := {
  tensors : list (TensorT F);
  operators : list OperatorT
}.
Arguments tensors {F} _.
Arguments operators {F} _.

(** [ModelT], as far as the utilities read it. *)
Record ModelT (F : Type) : Type := {
  subgraphs : list (SubGraphT F);
  buffers : list BufferT
}.
Arguments subgraphs {F} _.
Arguments buffers {F} _.

End Schema.

(* ===================================================================== *)
(** * numpy, as far as the quantizer uses it *)
(* ===================================================================== *)

(** numpy is an external library: arrays and the operations on them are an
    interface.  Operations that can raise return a [result]. *)
Class Numpy : Type := {
  ndarray : Type;
  float32 : Type;
  (** [==] on the elements of a scale list *)
  float32_eqb : float32 -> float32 -> bool;
  (** [arr.shape] *)
  np_shape : ndarray -> list Z;
  (** [np.reshape(np.frombuffer(data, dtype=...), shape)] *)
  np_frombuffer : list Byte.byte -> Schema.TensorType -> list Z -> result ndarray;
  (** [np.min(arr, axis=dims, keepdims=True)], [np.max] likewise *)
  np_min : ndarray -> option (list Z) -> result ndarray;
  np_max : ndarray -> option (list Z) -> result ndarray;
  (** [np.broadcast_to(value, shape)] for a scalar value *)
  np_broadcast_to : Q -> list Z -> result ndarray;
  (** [np.frombuffer(arr.tobytes(), dtype=np.uint8).flatten()] *)
  np_tobytes : ndarray -> list Byte.byte;
  (** [list(arr.flatten().astype(np.float32))] *)
  np_flatten_float32 : ndarray -> list float32;
  (** [list(arr.flatten().astype(np.int32))] *)
  np_flatten_int32 : ndarray -> list Z
}.

(** [qtyping.UniformQuantParams]. *)
Module UQP.
Record t `{Numpy} : Type := {
  num_bits : Z;
  quantized_dimension : option Z;
  scale : ndarray;
  zero_point : ndarray;
  symmetric : bool;
  quantized_data : option ndarray
}.
End UQP.
Abbreviation UniformQuantParams := UQP.t.

(** The routines of [uniform_quantize_tensor] the materializer calls.  Python
    passes whatever the caller holds, so the bias routine receives optional
    arguments. *)
Class UniformQuantizeTensor `{Numpy} : Type := {
  (** returns [(zp, scale)] *)
  tensor_zp_scale_from_min_max :
    ndarray -> ndarray -> Z -> bool -> result (ndarray * ndarray);
  uniform_quantize : ndarray -> UniformQuantParams -> result ndarray;
  symmetric_quantize_bias_tensor :
    option ndarray -> option UniformQuantParams -> option UniformQuantParams ->
    result UniformQuantParams
}.

Abbreviation Tensor := (Schema.TensorT float32).
Abbreviation SubGraph := (Schema.SubGraphT float32).
Abbreviation QuantizationParameters := (Schema.QuantizationParametersT float32).

Section Flatbuffer.
Context `{Numpy}.

(* ===================================================================== *)
(** * utils/tfl_flatbuffer_utils.py *)
(* ===================================================================== *)

(** The first loop of the toolkit's [read_model]: a buffer with a non-zero
    offset receives its bytes from the whole model buffer and loses offset
    and size.  The calls that read the file and the loop over the custom
    options of operators are outside the model. *)
Definition read_model_buffers (model_buffer : list Byte.byte)
    (buffers : list Schema.BufferT) : list Schema.BufferT :=
  map (fun buffer =>
         if bool_decide (Schema.offset buffer <> 0%nat) then
           {| Schema.data :=
                Some (take (Schema.size buffer)
                        (drop (Schema.offset buffer) model_buffer));
              Schema.offset := 0;
              Schema.size := 0 |}
         else buffer)
      buffers.

(** [parse_op_tensors]: outputs first, then inputs; the index [-1] marks an
    absent tensor. *)
Definition parse_op_tensors (op : Schema.OperatorT)
    (subgraph_tensors : list Tensor) : result (list Tensor) :=
  foldM
    (fun tensors tensor_idx =>
       if bool_decide (tensor_idx <> -1) then
         tensor ← py_index subgraph_tensors tensor_idx;
         Ok (tensors ++ [tensor])
       else Ok tensors)
    [] (Schema.outputs op ++ Schema.inputs op).

(** One round of the innermost loop of [buffer_to_tensors]: the key is
    created with an empty list when missing, then the tensor is appended. *)
Definition buffer_to_tensors_step (buffer_to_tensor_map : gmap Z (list Tensor))
    (tensor : Tensor) : gmap Z (list Tensor) :=
  let buffer_to_tensor_map :=
    if decide (buffer_to_tensor_map !! Schema.buffer tensor = None)
    then <[Schema.buffer tensor := []]> buffer_to_tensor_map
    else buffer_to_tensor_map in
  alter (fun l => l ++ [tensor]) (Schema.buffer tensor) buffer_to_tensor_map.

Definition buffer_to_tensors (flatbuffer_model : Schema.ModelT float32)
  : result (gmap Z (list Tensor)) :=
  foldM
    (fun buffer_to_tensor_map subgraph =>
       foldM
         (fun buffer_to_tensor_map op =>
            tensors ← parse_op_tensors op (Schema.tensors subgraph);
            Ok (fold_left buffer_to_tensors_step tensors buffer_to_tensor_map))
         buffer_to_tensor_map (Schema.operators subgraph))
    ∅ (Schema.subgraphs flatbuffer_model).

Definition get_tensor_name (tensor : Tensor) : string := Schema.name tensor.

(** [get_tensor_data(tensor, buffers)] of ai_edge_quantizer. *)
Definition get_tensor_data (tensor : Tensor) (buffers : list Schema.BufferT)
  : result (option ndarray) :=
  tensor_buffer ← py_index buffers (Schema.buffer tensor);
  match Schema.data tensor_buffer with
  | None => Ok None
  | Some buffer_data =>
      data ← np_frombuffer buffer_data (Schema.type tensor) (Schema.shape tensor);
      Ok (Some data)
  end.

(** [get_tensor_data(tensor, buffers, model_buffer)] of the toolkit version,
    which reads the content of a buffer with an offset from the whole model
    buffer; a Python slice never raises. *)
Definition get_tensor_data_from_model (tensor : Tensor)
    (buffers : list Schema.BufferT) (model_buffer : list Byte.byte)
  : result (option ndarray) :=
  tensor_buffer ← py_index buffers (Schema.buffer tensor);
  let buffer_data :=
    if (1 <? Schema.offset tensor_buffer)%nat
    then Some (take (Schema.size tensor_buffer)
                 (drop (Schema.offset tensor_buffer) model_buffer))
    else Schema.data tensor_buffer in
  match buffer_data with
  | None => Ok None
  | Some buffer_data =>
      data ← np_frombuffer buffer_data (Schema.type tensor) (Schema.shape tensor);
      Ok (Some data)
  end.

(** [TFL_OP_TO_WEIGHT_QUANTIZED_DIM] *)
Definition TFL_OP_TO_WEIGHT_QUANTIZED_DIM (op : TFLOperationName) : option Z :=
  match op with
  | FULLY_CONNECTED => Some 0
  | DEPTHWISE_CONV_2D => Some 3
  | CONV_2D => Some 0
  | EMBEDDING_LOOKUP => Some 0
  | _ => None
  end.

(** [subgraph_tensors[op.inputs[index]]] *)
Definition tensor_at (subgraph_tensors : list Tensor) (indices : list Z)
    (index : Z) : result Tensor :=
  tensor_index ← py_index indices index;
  py_index subgraph_tensors tensor_index.

Definition parse_fc_bmm_conv_tensors (op : Schema.OperatorT)
    (subgraph_tensors : list Tensor)
  : result (Tensor * Tensor * option Tensor * Tensor) :=
  let input_index := 0 in
  let weight_index := 1 in
  let bias_index := 2 in
  let output_index := 0 in
  input_tensor ← tensor_at subgraph_tensors (Schema.inputs op) input_index;
  weight_tensor ← tensor_at subgraph_tensors (Schema.inputs op) weight_index;
  bias_tensor ←
    (if bias_index <? Z.of_nat (length (Schema.inputs op)) then
       bias_tensor_index ← py_index (Schema.inputs op) bias_index;
       if bool_decide (bias_tensor_index <> -1) then
         bias_tensor ← py_index subgraph_tensors bias_tensor_index;
         Ok (Some bias_tensor)
       else Ok None
     else Ok None);
  output_tensor ← tensor_at subgraph_tensors (Schema.outputs op) output_index;
  Ok (input_tensor, weight_tensor, bias_tensor, output_tensor).

(** Tuple comparison [to_tuple(a) == to_tuple(b)]. *)
Definition to_tuple {A} (val : option (list A)) : list A :=
  match val with
  | None => []
  | Some v => v
  end.

Fixpoint tuple_eqb {A} (eqb : A -> A -> bool) (xs ys : list A) : bool :=
  match xs, ys with
  | [], [] => true
  | x :: xs', y :: ys' => eqb x y && tuple_eqb eqb xs' ys'
  | _, _ => false
  end.

(** [obj.field] where [obj] may be [None]. *)
Definition attr_of {A} (obj : option A) (field : string) : result A :=
  match obj with
  | Some a => Ok a
  | None => Err (AttributeError field)
  end.

(** The second [if] reads [tensor1.quantization.scale] before anything of
    [tensor2]; [and] does not evaluate its right operand when the left one is
    false. *)
Definition has_same_quantization (tensor1 tensor2 : Tensor) : result bool :=
  let same_type := bool_decide (Schema.type tensor1 = Schema.type tensor2) in
  match Schema.quantization tensor1, Schema.quantization tensor2 with
  | None, None => Ok true
  | _, _ =>
      q1 ← attr_of (Schema.quantization tensor1) "scale";
      both_unscaled ←
        match Schema.scale q1 with
        | None =>
            q2 ← attr_of (Schema.quantization tensor2) "scale";
            Ok (bool_decide (Schema.scale q2 = None))
        | Some _ => Ok false
        end;
      if both_unscaled : bool then Ok true
      else
        q2 ← attr_of (Schema.quantization tensor2) "scale";
        let same_scale :=
          tuple_eqb float32_eqb (to_tuple (Schema.scale q1))
            (to_tuple (Schema.scale q2)) in
        let same_zero_point :=
          tuple_eqb Z.eqb (to_tuple (Schema.zeroPoint q1))
            (to_tuple (Schema.zeroPoint q2)) in
        let same_quantized_dimension :=
          Schema.quantizedDimension q1 =? Schema.quantizedDimension q2 in
        Ok (same_type && same_scale && same_zero_point
            && same_quantized_dimension)
  end.

(** [has_same_quantization] of the toolkit version, which has no test for
    absent quantization metadata and reads [tensor1.quantization.scale]
    first. *)
Definition has_same_quantization_toolkit (tensor1 tensor2 : Tensor)
  : result bool :=
  q1 ← attr_of (Schema.quantization tensor1) "scale";
  both_unscaled ←
    match Schema.scale q1 with
    | None =>
        q2 ← attr_of (Schema.quantization tensor2) "scale";
        Ok (bool_decide (Schema.scale q2 = None))
    | Some _ => Ok false
    end;
  if both_unscaled : bool then Ok true
  else
    let same_type := bool_decide (Schema.type tensor1 = Schema.type tensor2) in
    q2 ← attr_of (Schema.quantization tensor2) "scale";
    let same_scale :=
      tuple_eqb float32_eqb (to_tuple (Schema.scale q1))
        (to_tuple (Schema.scale q2)) in
    let same_zero_point :=
      tuple_eqb Z.eqb (to_tuple (Schema.zeroPoint q1))
        (to_tuple (Schema.zeroPoint q2)) in
    let same_quantized_dimension :=
      Schema.quantizedDimension q1 =? Schema.quantizedDimension q2 in
    Ok (same_type && same_scale && same_zero_point
        && same_quantized_dimension).

(* ===================================================================== *)
(** * transformations/quantize_tensor.py *)
(* ===================================================================== *)

Definition quant_params_to_tflite_type (bitwidth : Z)
  : result Schema.TensorType :=
  if bitwidth <=? 8 then Ok Schema.INT8
  else if bitwidth =? 16 then Ok Schema.INT16
  else if bitwidth =? 32 then Ok Schema.INT32
  else if bitwidth =? 64 then Ok Schema.INT64
  else Err (ValueError "Unsupported quant params").

(** The numpy integer types [quant_params_to_np_type] chooses from. *)
Inductive NpIntType : Type :=
| np_int8
| np_int16
| np_int32
| np_int64.

Definition quant_params_to_np_type (bitwidth : Z) : result NpIntType :=
  if bitwidth <=? 8 then Ok np_int8
  else if bitwidth =? 16 then Ok np_int16
  else if bitwidth =? 32 then Ok np_int32
  else if bitwidth =? 64 then Ok np_int64
  else Err (ValueError ("Unsupported quant params: " +:+ pretty bitwidth)).

(** Position of subscript [i] in a list of length [n], if in range. *)
Definition py_position (n : nat) (i : Z) : option nat :=
  let j := if i <? 0 then i + Z.of_nat n else i in
  if (0 <=? j) && (j <? Z.of_nat n) then Some (Z.to_nat j) else None.

(** The model state a graph edit works on: [buffers] and [subgraph] are
    mutated in place, so an edit returns the state it leaves behind next to
    its result, also when it raises. *)
Record graph_state : Type := {
  gs_buffers : list Schema.BufferT;
  gs_subgraph : SubGraph
}.

Definition set_tensors (subgraph : SubGraph) (ts : list Tensor) : SubGraph :=
  {| Schema.tensors := ts; Schema.operators := Schema.operators subgraph |}.

(** [quantize_tensor(tensor_id, op_codes, buffers, subgraph, producer,
    consumers, quant_params)]; [op_codes], [producer] and [consumers] are
    deleted on entry.  [fresh] is a new [QuantizationParametersT()]. *)
Definition quantize_tensor (fresh : QuantizationParameters)
    (tensor_id : Z) (st : graph_state) (quant_params : UniformQuantParams)
  : result TransformationInfo * graph_state :=
  let buffers := gs_buffers st in
  let subgraph := gs_subgraph st in
  match py_position (length (Schema.tensors subgraph)) tensor_id with
  | None => (Err IndexError, st)
  | Some pos =>
  match Schema.tensors subgraph !! pos with
  | None => (Err IndexError, st)
  | Some tensor =>
      (* if tensor.buffer: if quant_params.quantized_data is not None: ... *)
      let written : result (list Schema.BufferT) :=
        if bool_decide (Schema.buffer tensor <> 0) then
          match UQP.quantized_data quant_params with
          | Some quantized_data =>
              match py_position (length buffers) (Schema.buffer tensor) with
              | Some bpos =>
                  match buffers !! bpos with
                  | Some b =>
                      Ok (<[bpos := {| Schema.data :=
                                         Some (np_tobytes quantized_data);
                                       Schema.offset := Schema.offset b;
                                       Schema.size := Schema.size b |}]>
                            buffers)
                  | None => Err IndexError
                  end
              | None => Err IndexError
              end
          | None => Ok buffers
          end
        else Ok buffers in
      match written with
      | Err e => (Err e, st)
      | Ok buffers' =>
          let flatbuffer_quantization : QuantizationParameters :=
            {| Schema.scale :=
                 Some (np_flatten_float32 (UQP.scale quant_params));
               Schema.zeroPoint :=
                 Some (np_flatten_int32 (UQP.zero_point quant_params));
               Schema.quantizedDimension :=
                 match UQP.quantized_dimension quant_params with
                 | Some d => d
                 | None => Schema.quantizedDimension fresh
                 end |} in
          (* tensor.quantization = flatbuffer_quantization *)
          let tensor1 : Tensor :=
            {| Schema.name := Schema.name tensor;
               Schema.shape := Schema.shape tensor;
               Schema.type := Schema.type tensor;
               Schema.buffer := Schema.buffer tensor;
               Schema.quantization := Some flatbuffer_quantization |} in
          (* tensor.type = quant_params_to_tflite_type(quant_params.num_bits) *)
          match quant_params_to_tflite_type (UQP.num_bits quant_params) with
          | Err e =>
              (Err e,
               {| gs_buffers := buffers';
                  gs_subgraph :=
                    set_tensors subgraph
                      (<[pos := tensor1]> (Schema.tensors subgraph)) |})
          | Ok ty =>
              let tensor2 : Tensor :=
                {| Schema.name := Schema.name tensor;
                   Schema.shape := Schema.shape tensor;
                   Schema.type := ty;
                   Schema.buffer := Schema.buffer tensor;
                   Schema.quantization := Some flatbuffer_quantization |} in
              (Ok {| op_id := 0; num_ops_added := 0;
                     output_tensor_id := tensor_id |},
               {| gs_buffers := buffers';
                  gs_subgraph :=
                    set_tensors subgraph
                      (<[pos := tensor2]> (Schema.tensors subgraph)) |})
          end
      end
  end
  end.

End Flatbuffer.

(* ===================================================================== *)
(** * qtyping: operator and tensor records of the materializer *)
(* ===================================================================== *)

(** A QSV entry is a dictionary with the keys ["min"] and ["max"];
    [tensor_name_to_qsv] maps tensor names to such entries. *)
Abbreviation QSV := (gmap string ndarray).
Abbreviation QSVMap := (gmap string (gmap string ndarray)).

Section Materializer.
Context `{UniformQuantizeTensor}.

Record GraphInfo : Type := {
  subgraph_tensors : list Tensor;
  buffers : list Schema.BufferT;
  whole_model_buffer : list Byte.byte
}.

Record OpInfo : Type := {
  op : Schema.OperatorT;
  op_name : TFLOperationName;
  subgraph_op_index : Z;
  op_quant_config : OpQuantizationConfig
}.

Record OpToTensorParams : Type := {
  subgraph_op_id : Z;
  transformations : list QuantTransformation;
  parameters : option UniformQuantParams
}.

(** [producer] and [consumers] default to [None]. *)
Record TensorTransformationParams : Type := {
  tensor_name : string;
  producer : option OpToTensorParams;
  consumers : option (list OpToTensorParams)
}.

(* ===================================================================== *)
(** * algorithms/utils/min_max_quantize_utils.py *)
(* ===================================================================== *)

Definition _SUPPORTED_WEIGHT_ONLY_OPS : list TFLOperationName :=
  [FULLY_CONNECTED; CONV_2D; BATCH_MATMUL; EMBEDDING_LOOKUP; DEPTHWISE_CONV_2D].

Definition _SUPPORTED_DRQ_OPS : list TFLOperationName :=
  [FULLY_CONNECTED; CONV_2D; BATCH_MATMUL; EMBEDDING_LOOKUP; DEPTHWISE_CONV_2D].

Definition _INT4_DRQ_SUPPORTED_OPS : list TFLOperationName :=
  [FULLY_CONNECTED].

Definition _SUPPORTED_SRQ_OPS : list TFLOperationName :=
  [FULLY_CONNECTED; CONV_2D; AVERAGE_POOL_2D; RESHAPE; SOFTMAX;
   DEPTHWISE_CONV_2D; TANH; TRANSPOSE; GELU; ADD; SUB; MUL; BATCH_MATMUL].

Definition _INT4_SRQ_SUPPORTED_OPS : list TFLOperationName :=
  [FULLY_CONNECTED; CONV_2D; EMBEDDING_LOOKUP].

Section ConfigChecks.

(** The text an f-string produces for an operation name; [qtyping] fixes
    it. *)
Variable op_repr : TFLOperationName -> string.

Definition check_weight_only_config (op_name : TFLOperationName)
  : result unit :=
  if bool_decide (op_name ∉ _SUPPORTED_WEIGHT_ONLY_OPS) then
    Err (ValueError ("Unsupported op for weight-only quantization: "
                     +:+ op_repr op_name +:+ "."))
  else Ok tt.

Definition check_drq_config (op_name : TFLOperationName)
    (op_quant_config : OpQuantizationConfig) : result unit :=
  let weight_config := weight_tensor_config op_quant_config in
  if bool_decide (op_name ∉ _SUPPORTED_DRQ_OPS) then
    Err (ValueError ("Unsupported op for dynamic range quantization: "
                     +:+ op_repr op_name +:+ " "))
  else if bool_decide (num_bits weight_config ∉ [4; 8])
          || negb (symmetric weight_config) then
    Err (ValueError ("Only int4/int8 symmetric DRQ is supported for op "
                     +:+ op_repr op_name))
  else if bool_decide (num_bits weight_config = 4)
          && bool_decide (op_name ∉ _INT4_DRQ_SUPPORTED_OPS) then
    Err (ValueError ("Int4 DRQ is not supported for op "
                     +:+ op_repr op_name +:+ "."))
  else Ok tt.

Definition check_srq_config (op_name : TFLOperationName)
    (op_quant_config : OpQuantizationConfig) : result unit :=
  let act_config := activation_tensor_config op_quant_config in
  let weight_config := weight_tensor_config op_quant_config in
  if bool_decide (op_name ∉ _SUPPORTED_SRQ_OPS) then
    Err (ValueError ("Unsupported op for static range quantization: "
                     +:+ op_repr op_name +:+ "."))
  else
    match act_config with
    | None => Err (ValueError "activation_tensor_config is required for SRQ.")
    | Some act_config =>
        if bool_decide (dtype act_config <> INT) then
          Err (ValueError "SRQ requires activation tensor to be int type.")
        else if bool_decide (num_bits act_config ∉ [8; 16]) then
          Err (ValueError ("Only int8/int16 activation SRQ is supported for op "
                           +:+ op_repr op_name +:+ "."))
        else if bool_decide (num_bits act_config = 16)
                && negb (symmetric act_config) then
          Err (ValueError "Int16 activation SRQ requires symmetric activation quantization.")
        else if bool_decide (num_bits weight_config ∉ [4; 8])
                || negb (symmetric weight_config) then
          Err (ValueError ("Currently only int4/int8 symmetric weight are supported for op "
                           +:+ op_repr op_name +:+ "."))
        else if bool_decide (num_bits weight_config = 4)
                && bool_decide (op_name ∉ _INT4_SRQ_SUPPORTED_OPS) then
          Err (ValueError ("Int4 weight SRQ is not supported for op "
                           +:+ op_repr op_name +:+ "."))
        else Ok tt
    end.

End ConfigChecks.

Inductive OpQuantConstraint : Type :=
| NO_CONSTRAIN
| SAME_AS_INPUT_SCALE
| SAME_AS_OUTPUT_SCALE.

#[global] Instance OpQuantConstraint_eq_dec : EqDecision OpQuantConstraint.
Proof. solve_decision. Defined.

Definition _get_bmm_weight_quantized_dim (weight_tensor_data : ndarray)
    (adj_y : bool) : Z :=
  let rank := Z.of_nat (length (np_shape weight_tensor_data)) in
  if adj_y then rank - 2 else rank - 1.

Definition _get_reduce_dims (quantized_dim : option Z) (tensor_shape : list Z)
  : option (list Z) :=
  match quantized_dim with
  | None => None
  | Some quantized_dim =>
      Some (filter (fun rank_idx => rank_idx <> quantized_dim)
              (map Z.of_nat (seq 0 (length tensor_shape))))
  end.

Definition min_max_dict (mn mx : ndarray) : QSV :=
  <["max" := mx]> (<["min" := mn]> ∅).

Definition init_tensor_min_max (tensor : Tensor) (graph_info : GraphInfo)
    (op_info : OpInfo) (init_min_val init_max_val : Q) : result QSV :=
  tensor_data ← get_tensor_data tensor (buffers graph_info);
  match tensor_data with
  | None =>
      let min_max_shape := map (fun _ => 1) (Schema.shape tensor) in
      mn ← np_broadcast_to init_min_val min_max_shape;
      mx ← np_broadcast_to init_max_val min_max_shape;
      Ok (min_max_dict mn mx)
  | Some tensor_data =>
      quantized_dim ←
        (if channel_wise (weight_tensor_config (op_quant_config op_info)) then
           if decide (op_name op_info = BATCH_MATMUL) then
             adj_y ← attr_of (Schema.adjY (op op_info)) "adjY";
             Ok (Some (_get_bmm_weight_quantized_dim tensor_data adj_y))
           else Ok (TFL_OP_TO_WEIGHT_QUANTIZED_DIM (op_name op_info))
         else Ok None);
      let reduce_dims := _get_reduce_dims quantized_dim (Schema.shape tensor) in
      mn ← np_min tensor_data reduce_dims;
      mx ← np_max tensor_data reduce_dims;
      Ok (min_max_dict mn mx)
  end.

Definition _get_tensor_quant_params (op_info : OpInfo) (tensor_min_max : QSV)
    (tensor_quant_config : TensorQuantizationConfig)
    (tensor_content : option ndarray) : result UniformQuantParams :=
  match tensor_min_max !! "min", tensor_min_max !! "max" with
  | Some mn, Some mx =>
      '(zp, scale) ← tensor_zp_scale_from_min_max mn mx
                       (num_bits tensor_quant_config)
                       (symmetric tensor_quant_config);
      quantized_dim ←
        (if channel_wise tensor_quant_config then
           if decide (op_name op_info = BATCH_MATMUL) then
             adj_y ← attr_of (Schema.adjY (op op_info)) "adjY";
             weight_tensor_data ← attr_of tensor_content "shape";
             Ok (Some (_get_bmm_weight_quantized_dim weight_tensor_data adj_y))
           else
             match TFL_OP_TO_WEIGHT_QUANTIZED_DIM (op_name op_info) with
             | Some d => Ok (Some d)
             | None => Err (KeyError "op_name")
             end
         else Ok None);
      let quant_params :=
        {| UQP.num_bits := num_bits tensor_quant_config;
           UQP.quantized_dimension := quantized_dim;
           UQP.scale := scale;
           UQP.zero_point := zp;
           UQP.symmetric := symmetric tensor_quant_config;
           UQP.quantized_data := None |} in
      match tensor_content with
      | None => Ok quant_params
      | Some content =>
          quantized_vars ← uniform_quantize content quant_params;
          Ok {| UQP.num_bits := num_bits tensor_quant_config;
                UQP.quantized_dimension := quantized_dim;
                UQP.scale := scale;
                UQP.zero_point := zp;
                UQP.symmetric := symmetric tensor_quant_config;
                UQP.quantized_data := Some quantized_vars |}
      end
  | _, _ =>
      Err (ValueError "min and max must be provided to produce tensor quantization parameters. Check if the correct calibration results are passed into the ParamsGenerator.")
  end.

Definition get_tensor_transformation_params (tensor_name : string)
    (op_info : OpInfo) (is_inbounding_tensor : bool)
    (quant_params : option UniformQuantParams) (is_constant : bool)
  : TensorTransformationParams :=
  let transformations :=
    get_tensor_transformations (op_quant_config op_info)
      is_inbounding_tensor is_constant in
  let op2tensor_params :=
    {| subgraph_op_id := subgraph_op_index op_info;
       transformations := transformations;
       parameters := quant_params |} in
  if is_inbounding_tensor then
    {| tensor_name := tensor_name; producer := None;
       consumers := Some [op2tensor_params] |}
  else
    {| tensor_name := tensor_name; producer := Some op2tensor_params;
       consumers := None |}.

(** The error raised for an activation without calibration statistics. *)
Definition missing_qsv_error (tensor_name : string) : exn :=
  ValueError ("Tensor " +:+ tensor_name +:+ " not found in tensor_name_to_qsv. Check if the correct calibration results are passed into the ParamsGenerator.").

Definition _get_tensor_transformation_params_wrapper (tensor : Tensor)
    (is_inbounding_tensor : bool) (op_info : OpInfo) (graph_info : GraphInfo)
    (tensor_name_to_qsv : QSVMap) (quant_params : option UniformQuantParams)
  : result TensorTransformationParams :=
  let tensor_name := get_tensor_name tensor in
  tensor_data ← get_tensor_data tensor (buffers graph_info);
  let tensor_quant_config :=
    activation_tensor_config (op_quant_config op_info) in
  let is_constant := bool_decide (tensor_data <> None) in
  let tensor_quant_config :=
    if is_constant
       && bool_decide (op_name op_info
                       ∈ _SUPPORTED_WEIGHT_ONLY_OPS ++ _SUPPORTED_DRQ_OPS)
    then Some (weight_tensor_config (op_quant_config op_info))
    else tensor_quant_config in
  quant_params ←
    match quant_params, tensor_quant_config with
    | None, Some tensor_quant_config =>
        tensor_min_max ←
          match tensor_name_to_qsv !! tensor_name with
          | None =>
              if is_constant
              then init_tensor_min_max tensor graph_info op_info 0 6
              else Err (missing_qsv_error tensor_name)
          | Some qsv => Ok qsv
          end;
        quant_params ← _get_tensor_quant_params op_info tensor_min_max
                          tensor_quant_config tensor_data;
        Ok (Some quant_params)
    | _, _ => Ok quant_params
    end;
  Ok (get_tensor_transformation_params tensor_name op_info
        is_inbounding_tensor quant_params is_constant).

(** Appends the parameters of [op_tensors] to [op_tensor_params]. *)
Definition _materialize_op_tensors
    (op_tensor_params : list TensorTransformationParams)
    (op_tensors : list Tensor) (is_inbounding_tensor : bool)
    (op_info : OpInfo) (graph_info : GraphInfo) (tensor_name_to_qsv : QSVMap)
    (quant_params : option UniformQuantParams)
  : result (list TensorTransformationParams) :=
  foldM
    (fun op_tensor_params tensor =>
       tensor_params ← _get_tensor_transformation_params_wrapper tensor
                         is_inbounding_tensor op_info graph_info
                         tensor_name_to_qsv quant_params;
       Ok (op_tensor_params ++ [tensor_params]))
    op_tensor_params op_tensors.

Definition single_tensor_error : exn :=
  ValueError "Trying to get a single tensor params with a list of multiple tensor.".

Definition _get_single_tensor_params (tensors : list Tensor)
    (is_inbounding_tensor : bool) (op_info : OpInfo) (graph_info : GraphInfo)
    (tensor_name_to_qsv : QSVMap) : result TensorTransformationParams :=
  match tensors with
  | [tensor] =>
      _get_tensor_transformation_params_wrapper tensor is_inbounding_tensor
        op_info graph_info tensor_name_to_qsv None
  | _ => Err single_tensor_error
  end.

(** [params.consumers[0]] *)
Definition first_consumer (params : TensorTransformationParams)
  : result OpToTensorParams :=
  match consumers params with
  | None => Err (LibraryError "TypeError: 'NoneType' object is not subscriptable")
  | Some [] => Err IndexError
  | Some (c :: _) => Ok c
  end.

(** The only materializer that writes to [tensor_name_to_qsv]; it does so
    after every step that can raise, so the updated map is part of the
    successful result. *)
Definition _materialize_standard_op_with_same_as_input_scale
    (input_tensors output_tensors : list Tensor) (op_info : OpInfo)
    (graph_info : GraphInfo) (tensor_name_to_qsv : QSVMap)
  : result (list TensorTransformationParams * QSVMap) :=
  let op_tensor_params := [] in
  input_tensor_params ← _get_single_tensor_params input_tensors true op_info
                          graph_info tensor_name_to_qsv;
  let op_tensor_params := op_tensor_params ++ [input_tensor_params] in
  input_consumer ← first_consumer input_tensor_params;
  op_tensor_params ← _materialize_op_tensors op_tensor_params output_tensors
                       false op_info graph_info tensor_name_to_qsv
                       (parameters input_consumer);
  match tensor_name_to_qsv !! tensor_name input_tensor_params with
  | None => Err (KeyError (tensor_name input_tensor_params))
  | Some input_tensor_qsv =>
      Ok (op_tensor_params,
          fold_left
            (fun qsv output_tensor =>
               <[get_tensor_name output_tensor := input_tensor_qsv]> qsv)
            output_tensors tensor_name_to_qsv)
  end.

Definition _materialize_standard_op_with_same_as_output_scale
    (input_tensors output_tensors : list Tensor) (op_info : OpInfo)
    (graph_info : GraphInfo) (tensor_name_to_qsv : QSVMap)
  : result (list TensorTransformationParams * QSVMap) :=
  let op_tensor_params := [] in
  output_tensor_params ← _get_single_tensor_params output_tensors false
                           op_info graph_info tensor_name_to_qsv;
  let quant_params :=
    match producer output_tensor_params with
    | None => None
    | Some p => parameters p
    end in
  op_tensor_params ← _materialize_op_tensors op_tensor_params input_tensors
                       true op_info graph_info tensor_name_to_qsv quant_params;
  Ok (op_tensor_params ++ [output_tensor_params], tensor_name_to_qsv).

Definition _materialize_standard_op_no_constraint
    (input_tensors output_tensors : list Tensor) (op_info : OpInfo)
    (graph_info : GraphInfo) (tensor_name_to_qsv : QSVMap)
  : result (list TensorTransformationParams * QSVMap) :=
  let op_tensor_params := [] in
  op_tensor_params ← _materialize_op_tensors op_tensor_params input_tensors
                       true op_info graph_info tensor_name_to_qsv None;
  op_tensor_params ← _materialize_op_tensors op_tensor_params output_tensors
                       false op_info graph_info tensor_name_to_qsv None;
  Ok (op_tensor_params, tensor_name_to_qsv).

(** The loop [for i, tensor_index in enumerate(indices)] that collects the
    tensors that are neither ignored nor absent; [i] is the position. *)
Fixpoint select_tensors (subgraph_tensors : list Tensor) (to_ignore : list Z)
    (i : Z) (indices : list Z) (acc : list Tensor) : result (list Tensor) :=
  match indices with
  | [] => Ok acc
  | tensor_index :: rest =>
      if bool_decide (i ∉ to_ignore) && (0 <=? tensor_index) then
        tensor ← py_index subgraph_tensors tensor_index;
        select_tensors subgraph_tensors to_ignore (i + 1) rest (acc ++ [tensor])
      else select_tensors subgraph_tensors to_ignore (i + 1) rest acc
  end.

Definition materialize_standard_op (op_info : OpInfo) (graph_info : GraphInfo)
    (tensor_name_to_qsv : QSVMap) (constraint : OpQuantConstraint)
    (inputs_to_ignore outputs_to_ignore : list Z)
  : result (list TensorTransformationParams * QSVMap) :=
  input_tensors ← select_tensors (subgraph_tensors graph_info)
                    inputs_to_ignore 0 (Schema.inputs (op op_info)) [];
  output_tensors ← select_tensors (subgraph_tensors graph_info)
                     outputs_to_ignore 0 (Schema.outputs (op op_info)) [];
  if decide (constraint = SAME_AS_INPUT_SCALE) then
    _materialize_standard_op_with_same_as_input_scale input_tensors
      output_tensors op_info graph_info tensor_name_to_qsv
  else if decide (constraint = SAME_AS_OUTPUT_SCALE) then
    _materialize_standard_op_with_same_as_output_scale input_tensors
      output_tensors op_info graph_info tensor_name_to_qsv
  else
    _materialize_standard_op_no_constraint input_tensors output_tensors
      op_info graph_info tensor_name_to_qsv.

(** [output_tensor_params] is the last object of [tensor_params]; assigning
    its [producer] changes that element of the returned list. *)
Definition materialize_op_with_output_activation_constraint
    (op_info : OpInfo) (graph_info : GraphInfo) (tensor_name_to_qsv : QSVMap)
    (output_activation_constraints : gmap Z UniformQuantParams)
  : result (list TensorTransformationParams * QSVMap) :=
  if bool_decide (length (Schema.outputs (op op_info)) <> 1%nat) then
    Err (ValueError "Materialize op with output activation constraint only supports ops with a single output tensor.")
  else
    '(tensor_params, tensor_name_to_qsv) ←
      materialize_standard_op op_info graph_info tensor_name_to_qsv
        NO_CONSTRAIN [] [];
    output_tensor_params ← py_index tensor_params (-1);
    match activation_tensor_config (op_quant_config op_info),
          producer output_tensor_params with
    | Some activation_tensor_config, Some output_producer =>
        let activation_num_bits := num_bits activation_tensor_config in
        match output_activation_constraints !! activation_num_bits with
        | None =>
            Err (ValueError ("Output activation constraints dictionary does not contain entity for activation num bits "
                             +:+ pretty activation_num_bits +:+ "."))
        | Some constraint_params =>
            let op_tensor_params :=
              {| subgraph_op_id := subgraph_op_id output_producer;
                 transformations := transformations output_producer;
                 parameters := Some constraint_params |} in
            let output_tensor_params :=
              {| tensor_name := tensor_name output_tensor_params;
                 producer := Some op_tensor_params;
                 consumers := consumers output_tensor_params |} in
            Ok (<[pred (length tensor_params) := output_tensor_params]>
                  tensor_params,
                tensor_name_to_qsv)
        end
    | _, _ => Ok (tensor_params, tensor_name_to_qsv)
    end.

(* ===================================================================== *)
(** * algorithms/uniform_quantize/naive_min_max_quantize.py *)
(* ===================================================================== *)

Definition materialize_batch_matmul (op_info : OpInfo)
    (graph_info : GraphInfo) (tensor_name_to_qsv : QSVMap)
  : result (list TensorTransformationParams * QSVMap) :=
  materialize_standard_op op_info graph_info tensor_name_to_qsv
    NO_CONSTRAIN [] [].

(** The shape tensor (input 1) does not need to be quantized. *)
Definition materialize_reshape (op_info : OpInfo) (graph_info : GraphInfo)
    (tensor_name_to_qsv : QSVMap)
  : result (list TensorTransformationParams * QSVMap) :=
  materialize_standard_op op_info graph_info tensor_name_to_qsv
    SAME_AS_INPUT_SCALE [1] [].

Definition materialize_average_pool_2d (op_info : OpInfo)
    (graph_info : GraphInfo) (tensor_name_to_qsv : QSVMap)
  : result (list TensorTransformationParams * QSVMap) :=
  materialize_standard_op op_info graph_info tensor_name_to_qsv
    SAME_AS_INPUT_SCALE [] [].

(** [op_tensor_params[i].consumers[0].parameters] *)
Definition consumer_parameters_at
    (op_tensor_params : list TensorTransformationParams) (i : Z)
  : result (option UniformQuantParams) :=
  params ← py_index op_tensor_params i;
  c ← first_consumer params;
  Ok (parameters c).

Definition materialize_fc_conv (op_info : OpInfo) (graph_info : GraphInfo)
    (tensor_name_to_qsv : QSVMap)
  : result (list TensorTransformationParams * QSVMap) :=
  '(op_tensor_params, tensor_name_to_qsv) ←
    materialize_standard_op op_info graph_info tensor_name_to_qsv
      NO_CONSTRAIN [2] [];
  '(_, _, bias_tensor, _) ←
    parse_fc_bmm_conv_tensors (op op_info) (subgraph_tensors graph_info);
  match bias_tensor with
  | None => Ok (op_tensor_params, tensor_name_to_qsv)
  | Some bias_tensor =>
      bias_quant_params ←
        (if decide (execution_mode (op_quant_config op_info) = SRQ) then
           bias_content ← get_tensor_data_from_model bias_tensor
                            (buffers graph_info)
                            (whole_model_buffer graph_info);
           input_params ← consumer_parameters_at op_tensor_params 0;
           weight_params ← consumer_parameters_at op_tensor_params 1;
           bias_quant_params ← symmetric_quantize_bias_tensor bias_content
                                 input_params weight_params;
           Ok (Some bias_quant_params)
         else Ok None);
      let is_constant :=
        bool_decide (execution_mode (op_quant_config op_info) = SRQ) in
      let bias_params :=
        get_tensor_transformation_params (get_tensor_name bias_tensor)
          op_info true bias_quant_params is_constant in
      Ok (op_tensor_params ++ [bias_params], tensor_name_to_qsv)
  end.

(** The loop [for i, tensor_idx in enumerate(indices)] of [init_qsvs] and
    [min_max_calibrate], which runs [body] on every index that is not [-1]
    and whose position is not ignored. *)
Fixpoint for_each_tensor_idx {S : Type} (body : S -> Z -> result S)
    (to_ignore : list Z) (i : Z) (indices : list Z) (s : S) : result S :=
  match indices with
  | [] => Ok s
  | tensor_idx :: rest =>
      if bool_decide (tensor_idx <> -1) && bool_decide (i ∉ to_ignore) then
        s' ← body s tensor_idx;
        for_each_tensor_idx body to_ignore (i + 1) rest s'
      else for_each_tensor_idx body to_ignore (i + 1) rest s
  end.

(** [init_qsvs]: the initial range is [0.0, 6.0]. *)
Definition init_qsvs (op_info : OpInfo) (graph_info : GraphInfo)
    (inputs_to_ignore outputs_to_ignore : list Z) : result QSVMap :=
  let init_min_val := 0%Q in
  let init_max_val := 6%Q in
  let body (op_qsvs : QSVMap) (tensor_idx : Z) : result QSVMap :=
    tensor ← py_index (subgraph_tensors graph_info) tensor_idx;
    let tensor_name := get_tensor_name tensor in
    qsv ← init_tensor_min_max tensor graph_info op_info init_min_val
            init_max_val;
    Ok (<[tensor_name := qsv]> op_qsvs) in
  op_qsvs ← for_each_tensor_idx body inputs_to_ignore 0
              (Schema.inputs (op op_info)) ∅;
  for_each_tensor_idx body outputs_to_ignore 0
    (Schema.outputs (op op_info)) op_qsvs.

(** The local function of [min_max_calibrate]; it returns without a change
    for a constant tensor. *)
Definition _collect_activation_tensor_min_max (graph_info : GraphInfo)
    (tensor_content_map : gmap string ndarray) (op_qsvs : QSVMap)
    (tensor_idx : Z) : result QSVMap :=
  tensor ← py_index (subgraph_tensors graph_info) tensor_idx;
  tensor_data ← get_tensor_data_from_model tensor (buffers graph_info)
                  (whole_model_buffer graph_info);
  match tensor_data with
  | Some _ => Ok op_qsvs
  | None =>
      let tensor_name := get_tensor_name tensor in
      match tensor_content_map !! tensor_name with
      | None => Err (KeyError tensor_name)
      | Some tensor_content =>
          mn ← np_min tensor_content None;
          mx ← np_max tensor_content None;
          Ok (<[tensor_name := min_max_dict mn mx]> op_qsvs)
      end
  end.

Definition min_max_calibrate (tfl_op : Schema.OperatorT)
    (graph_info : GraphInfo) (tensor_content_map : gmap string ndarray)
    (inputs_to_ignore outputs_to_ignore : list Z) : result QSVMap :=
  op_qsvs ← for_each_tensor_idx
              (_collect_activation_tensor_min_max graph_info
                 tensor_content_map)
              inputs_to_ignore 0 (Schema.inputs tfl_op) ∅;
  for_each_tensor_idx
    (_collect_activation_tensor_min_max graph_info tensor_content_map)
    outputs_to_ignore 0 (Schema.outputs tfl_op) op_qsvs.

End Materializer.

(* ===================================================================== *)
(** * uniform_quantize_tensor.symmetric_quantize_bias_tensor *)
(* ===================================================================== *)

Section BiasQuantization.

(** The scalars of scale arrays with their product, the integers of
    zero-point arrays, and [quantize] of the numeric codec. *)
Variable scalar : Type.
Variable scalar_mul : scalar -> scalar -> scalar.
Variable content : Type.

Record BiasQuantParams : Type := {
  bq_scale : list scalar;
  bq_zero_point : list Z;
  bq_num_bits : Z;
  bq_symmetric : bool;
  bq_quantized_dimension : option Z;
  bq_quantized_data : option content
}.

Variable quantize : content -> BiasQuantParams -> content.

(** Modelled from the spec: [symmetric_quantize_bias_tensor] lives in
    [uniform_quantize_tensor.py], which is not among the sources (only its
    test is).  Section 4.1 of the specification: always symmetric, zero-point
    0; effective scale = input scale * weight scale (outer product when the
    weight is per-channel, scalar otherwise); bit-width 32 when the input
    bit-width is 8, else 64; quantized values computed via [quantize].
    The test [test_quantize_bias_tensor] adds that scale and zero-point are
    one-dimensional and that the quantized dimension is absent for a single
    channel and 0 otherwise. *)
Definition quantizeBias (biasValues : content)
    (inputParams weightParams : BiasQuantParams) : BiasQuantParams :=
  let effective_scale :=
    flat_map (fun s_in => map (scalar_mul s_in) (bq_scale weightParams))
      (bq_scale inputParams) in
  let params :=
    {| bq_scale := effective_scale;
       bq_zero_point := map (fun _ => 0) effective_scale;
       bq_num_bits := if bq_num_bits inputParams =? 8 then 32 else 64;
       bq_symmetric := true;
       bq_quantized_dimension :=
         if bool_decide (length effective_scale = 1%nat) then None
         else Some 0;
       bq_quantized_data := None |} in
  {| bq_scale := bq_scale params;
     bq_zero_point := bq_zero_point params;
     bq_num_bits := bq_num_bits params;
     bq_symmetric := bq_symmetric params;
     bq_quantized_dimension := bq_quantized_dimension params;
     bq_quantized_data := Some (quantize biasValues params) |}.

End BiasQuantization.

(* ===================================================================== *)
(** * Vocabulary of the statements *)
(* ===================================================================== *)

(** ** Recipe manager: stored rules and the invariant of reachable states *)

Module RecipeInvariant.
Import RecipeManager.

Section Invariant.
Variable NO_QUANT : string.
Variable is_op_registered : string -> TFLOperationName -> bool.
Variable default_op_config : OpQuantizationConfig.

(** What the rebuilding loop puts in the place of an existing rule [e]. *)
Definition replace_op (config e : OpQuantizationRecipe) : OpQuantizationRecipe :=
  if decide (operation e = operation config) then config else e.

(** What [add_quantization_config] stores, without the loop. *)
Definition new_rule (rx : string) (op : TFLOperationName)
    (cfg : option OpQuantizationConfig) (alg : string) (ov : bool)
  : OpQuantizationRecipe :=
  {| regex := rx; operation := op; algorithm_key := alg;
     op_config := default default_op_config cfg;
     override_algorithm := ov |}.

(** A rule stored under scope [k]: it carries that regex, and unless it is
    an ALL rule it passed the registration check. *)
Definition rule_ok (k : string) (r : OpQuantizationRecipe) : Prop :=
  regex r = k /\
  (operation r <> ALL ->
   algorithm_key r = NO_QUANT \/
   is_op_registered (algorithm_key r) (operation r) = true).

(** A scope of a reachable state: a non-empty rule list with pairwise
    distinct operations, in which only the first rule can be an ALL rule. *)
Definition scope_ok (kv : string * list OpQuantizationRecipe) : Prop :=
  kv.2 <> [] /\
  NoDup (map operation kv.2) /\
  Forall (rule_ok kv.1) kv.2 /\
  Forall (fun r => operation r <> ALL) (tail kv.2).

(** The invariant: dictionary keys are unique and every scope is in order. *)
Definition well_formed (self : scope_configs) : Prop :=
  NoDup (map fst self) /\ Forall scope_ok self.

Section Reload.
Variable D : Type.
Variable to_dict : OpQuantizationConfig -> D.
Variable from_dict : D -> OpQuantizationConfig.

(** The dictionary [get_quantization_recipe] emits for a rule, and the call
    [load_quantization_recipe] makes for a dictionary. *)
Definition rule_to_dict (r : OpQuantizationRecipe) : recipe_dict D :=
  {| d_regex := regex r; d_operation := operation r;
     d_algorithm_key := algorithm_key r;
     d_op_config := to_dict (op_config r);
     d_override_algorithm := override_algorithm r |}.

Definition add_dict (self : scope_configs) (config : recipe_dict D)
  : result scope_configs :=
  add_quantization_config NO_QUANT is_op_registered default_op_config self
    (d_regex config) (d_operation config)
    (Some (from_dict (d_op_config config)))
    (d_algorithm_key config) (d_override_algorithm config).

End Reload.

End Invariant.

Arguments rule_to_dict {D} to_dict r.
Arguments add_dict NO_QUANT is_op_registered default_op_config {D} from_dict
  self config.

End RecipeInvariant.

(** ** Flatbuffer tensors and the QUANTIZE_TENSOR edit *)

(** A tensor that differs from [t] in its declared element type only. *)
Definition with_type `{Numpy} (ty : Schema.TensorType) (t : Tensor) : Tensor :=
  {| Schema.name := Schema.name t;
     Schema.shape := Schema.shape t;
     Schema.type := ty;
     Schema.buffer := Schema.buffer t;
     Schema.quantization := Schema.quantization t |}.

(** Both tensors lack quantization metadata, or both carry metadata whose
    scale list is null. *)
Definition both_unscaled `{Numpy} (t1 t2 : Tensor) : Prop :=
  (Schema.quantization t1 = None /\ Schema.quantization t2 = None)
  \/ (exists q1 q2,
        Schema.quantization t1 = Some q1 /\ Schema.quantization t2 = Some q2
        /\ Schema.scale q1 = None /\ Schema.scale q2 = None).

Section StatementVocabulary.
Context `{UniformQuantizeTensor}.

(** The tensor entry [quantize_tensor] leaves at the edited position. *)
Definition quantized_tensor (fresh : QuantizationParameters)
    (tensor : Tensor) (ty : Schema.TensorType)
    (quant_params : UniformQuantParams) : Tensor :=
  {| Schema.name := Schema.name tensor;
     Schema.shape := Schema.shape tensor;
     Schema.type := ty;
     Schema.buffer := Schema.buffer tensor;
     Schema.quantization :=
       Some {| Schema.scale :=
                 Some (np_flatten_float32 (UQP.scale quant_params));
               Schema.zeroPoint :=
                 Some (np_flatten_int32 (UQP.zero_point quant_params));
               Schema.quantizedDimension :=
                 match UQP.quantized_dimension quant_params with
                 | Some d => d
                 | None => Schema.quantizedDimension fresh
                 end |} |}.

(** What happens to the buffer list: the backing buffer of a tensor with a
    non-zero buffer index receives the quantized bytes when quantized data is
    provided; every other buffer, and every buffer otherwise, is untouched. *)
Definition buffers_after (buffers buffers' : list Schema.BufferT)
    (tensor : Tensor) (quant_params : UniformQuantParams) : Prop :=
  match UQP.quantized_data quant_params with
  | Some quantized_data =>
      if decide (Schema.buffer tensor = 0) then buffers' = buffers
      else exists bpos b,
          py_position (length buffers) (Schema.buffer tensor) = Some bpos
          /\ buffers !! bpos = Some b
          /\ buffers' !! bpos
             = Some {| Schema.data := Some (np_tobytes quantized_data);
                       Schema.offset := Schema.offset b;
                       Schema.size := Schema.size b |}
          /\ length buffers' = length buffers
          /\ forall j, j <> bpos -> buffers' !! j = buffers !! j
  | None => buffers' = buffers
  end.

(** ** The tensor materializer *)

(** The tensor configuration the wrapper selects: the weight configuration
    for a constant of an operator with weight-only or dynamic-range support,
    the activation configuration otherwise. *)
Definition selected_config (op_info : OpInfo) (is_constant : bool)
  : option TensorQuantizationConfig :=
  if is_constant
     && bool_decide (op_name op_info
                     ∈ _SUPPORTED_WEIGHT_ONLY_OPS ++ _SUPPORTED_DRQ_OPS)
  then Some (weight_tensor_config (op_quant_config op_info))
  else activation_tensor_config (op_quant_config op_info).



(** When an output's parameters are the input's: the input has parameters to
    hand on, or the output is an activation, or the operator is outside the
    weight-only and dynamic-range sets, so that no tensor of it falls back on
    the weight configuration. *)
Definition hands_on_parameters (op_info : OpInfo) (graph_info : GraphInfo)
    (input_parameters : option UniformQuantParams) (output : Tensor) : Prop :=
  input_parameters <> None
  \/ get_tensor_data output (buffers graph_info) = Ok None
  \/ op_name op_info ∉ _SUPPORTED_WEIGHT_ONLY_OPS ++ _SUPPORTED_DRQ_OPS.

(** An output entry of the result: it belongs to the output tensor, is a
    producer entry of this operator and carries the parameters of the
    input's consumer entry [c] exactly where parameters are handed on. *)
Definition output_entry_of (op_info : OpInfo) (graph_info : GraphInfo)
    (c : OpToTensorParams) (output : Tensor)
    (entry : TensorTransformationParams) : Prop :=
  tensor_name entry = get_tensor_name output
  /\ consumers entry = None
  /\ exists pr,
      producer entry = Some pr
      /\ subgraph_op_id pr = subgraph_op_index op_info
      /\ (hands_on_parameters op_info graph_info (parameters c) output
          <-> parameters pr = parameters c).

(** The entry [materialize_fc_conv] appends for the bias. *)
Definition bias_entry (op_info : OpInfo) (bias_tensor : Tensor)
    (transformation : QuantTransformation)
    (bias_quant_params : option UniformQuantParams)
  : TensorTransformationParams :=
  {| tensor_name := get_tensor_name bias_tensor;
     producer := None;
     consumers :=
       Some [ {| subgraph_op_id := subgraph_op_index op_info;
                 transformations := [transformation];
                 parameters := bias_quant_params |} ] |}.

End StatementVocabulary.

(* ===================================================================== *)
(** * Example instances *)
(* ===================================================================== *)

Import RecipeManager RecipeInvariant.

(** Concrete instances used to run the manager: the sentinel key, a registry
    that accepts every operation, a default configuration and a matcher that
    knows the pattern [.*] and literal patterns equal to the scope name. *)
Definition example_NO_QUANT : string := "no_quant".

Definition example_is_op_registered (alg : string) (op : TFLOperationName)
  : bool := true.

Definition example_default_op_config : OpQuantizationConfig :=
  {| activation_tensor_config := None;
     weight_tensor_config :=
       {| num_bits := 8; symmetric := true; channel_wise := false;
          dtype := INT |};
     execution_mode := WEIGHT_ONLY |}.

Definition example_drq_config : OpQuantizationConfig :=
  {| activation_tensor_config := None;
     weight_tensor_config :=
       {| num_bits := 4; symmetric := true; channel_wise := true;
          dtype := INT |};
     execution_mode := DRQ |}.

Definition example_srq_config : OpQuantizationConfig :=
  {| activation_tensor_config :=
       Some {| num_bits := 8; symmetric := true; channel_wise := false;
               dtype := INT |};
     weight_tensor_config :=
       {| num_bits := 8; symmetric := true; channel_wise := true;
          dtype := INT |};
     execution_mode := SRQ |}.

Definition example_weight_only_config : OpQuantizationConfig :=
  {| activation_tensor_config := None;
     weight_tensor_config :=
       {| num_bits := 8; symmetric := true; channel_wise := true;
          dtype := INT |};
     execution_mode := WEIGHT_ONLY |}.

Definition example_re_search (scope_regex scope_name : string) : bool :=
  bool_decide (scope_regex = ".*"%string)
  || bool_decide (scope_regex = scope_name).

Definition example_add :=
  add_quantization_config example_NO_QUANT example_is_op_registered
    example_default_op_config.

Definition example_resolve :=
  get_quantization_configs example_NO_QUANT example_default_op_config
    example_re_search.

Definition example_rule_all : OpQuantizationRecipe :=
  {| regex := ".*"; operation := ALL; algorithm_key := "ptq";
     op_config := example_srq_config; override_algorithm := true |}.

Definition example_rule_fc : OpQuantizationRecipe :=
  {| regex := ".*"; operation := FULLY_CONNECTED; algorithm_key := "other";
     op_config := example_drq_config; override_algorithm := false |}.

Definition example_state : scope_configs :=
  [(".*"%string, [example_rule_all; example_rule_fc])].

(** A small executable stand-in for numpy: flat integer arrays. *)
Definition byte_of_Z (z : Z) : Byte.byte :=
  match Byte.of_N (Z.to_N (z mod 256)) with
  | Some b => b
  | None => Byte.x00
  end.

Definition example_numpy : Numpy :=
  {| ndarray := list Z;
     float32 := Z;
     float32_eqb := Z.eqb;
     np_shape := fun a => [Z.of_nat (length a)];
     np_frombuffer := fun bytes _ _ =>
       Ok (map (fun b => Z.of_N (Byte.to_N b)) bytes);
     np_min := fun a _ => Ok [fold_right Z.min (hd 0 a) a];
     np_max := fun a _ => Ok [fold_right Z.max (hd 0 a) a];
     np_broadcast_to := fun q _ => Ok [Qnum q];
     np_tobytes := map byte_of_Z;
     np_flatten_float32 := fun a => a;
     np_flatten_int32 := fun a => a |}.

Definition example_float_tensor : Schema.TensorT (@float32 example_numpy) :=
  {| Schema.name := "a"; Schema.shape := [2]; Schema.type := Schema.FLOAT32;
     Schema.buffer := 0; Schema.quantization := None |}.

Definition example_int_tensor : Schema.TensorT (@float32 example_numpy) :=
  {| Schema.name := "b"; Schema.shape := [2]; Schema.type := Schema.INT8;
     Schema.buffer := 0;
     Schema.quantization :=
       Some {| Schema.scale := None; Schema.zeroPoint := Some [0];
               Schema.quantizedDimension := 0 |} |}.

Definition example_quantized_tensor : Schema.TensorT (@float32 example_numpy) :=
  {| Schema.name := "w"; Schema.shape := [2]; Schema.type := Schema.FLOAT32;
     Schema.buffer := 1; Schema.quantization := None |}.

Definition example_graph_state : @graph_state example_numpy :=
  {| gs_buffers :=
       [ {| Schema.data := None; Schema.offset := 0; Schema.size := 0 |};
         {| Schema.data := Some [Byte.x00; Byte.x00]; Schema.offset := 0;
            Schema.size := 0 |} ];
     gs_subgraph :=
       {| Schema.tensors := [example_quantized_tensor];
          Schema.operators := [] |} |}.

Definition example_quant_params : @UQP.t example_numpy :=
  @UQP.Build_t example_numpy 8 None [2] [0] true (Some [3; -1]).

Definition example_fresh_quantization
  : Schema.QuantizationParametersT (@float32 example_numpy) :=
  {| Schema.scale := None; Schema.zeroPoint := None;
     Schema.quantizedDimension := 0 |}.

(** Executable stand-ins for the numeric routines: symmetric scale from the
    larger magnitude, identity quantization, and a bias routine that needs
    all three of its arguments. *)
Definition example_uniform_quantize_tensor : @UniformQuantizeTensor example_numpy :=
  @Build_UniformQuantizeTensor example_numpy
    (fun mn mx bits sym => Ok (map (fun _ => 0) mx, map Z.abs mx))
    (fun content params => Ok content)
    (fun bias_content input_params weight_params =>
       match bias_content, input_params, weight_params with
       | Some _, Some i, Some w =>
           Ok (@UQP.Build_t example_numpy
                 (if @UQP.num_bits example_numpy i =? 8 then 32 else 64) None
                 (@UQP.scale example_numpy w) [0] true None)
       | _, _, _ => Err (AttributeError "scale")
       end).

Definition example_activation_tensor : Schema.TensorT (@float32 example_numpy) :=
  {| Schema.name := "input"; Schema.shape := [1; 2];
     Schema.type := Schema.FLOAT32; Schema.buffer := 0;
     Schema.quantization := None |}.

Definition example_weight_tensor : Schema.TensorT (@float32 example_numpy) :=
  {| Schema.name := "weight"; Schema.shape := [2];
     Schema.type := Schema.FLOAT32; Schema.buffer := 1;
     Schema.quantization := None |}.

Definition example_bias_tensor : Schema.TensorT (@float32 example_numpy) :=
  {| Schema.name := "bias"; Schema.shape := [2];
     Schema.type := Schema.FLOAT32; Schema.buffer := 2;
     Schema.quantization := None |}.

Definition example_output_tensor : Schema.TensorT (@float32 example_numpy) :=
  {| Schema.name := "output"; Schema.shape := [1; 2];
     Schema.type := Schema.FLOAT32; Schema.buffer := 0;
     Schema.quantization := None |}.

Definition example_graph_info : @GraphInfo example_numpy :=
  @Build_GraphInfo example_numpy
    [example_activation_tensor; example_weight_tensor; example_bias_tensor;
     example_output_tensor]
    [ {| Schema.data := None; Schema.offset := 0; Schema.size := 0 |};
      {| Schema.data := Some [Byte.x03; Byte.x05]; Schema.offset := 0;
         Schema.size := 0 |};
      {| Schema.data := Some [Byte.x01; Byte.x02]; Schema.offset := 0;
         Schema.size := 0 |} ]
    [].

Definition example_fc_op : Schema.OperatorT :=
  {| Schema.inputs := [0; 1; 2]; Schema.outputs := [3];
     Schema.adjY := None |}.

Definition example_fc_op_info (cfg : OpQuantizationConfig) : OpInfo :=
  {| op := example_fc_op; op_name := FULLY_CONNECTED; subgraph_op_index := 0;
     op_quant_config := cfg |}.

Definition example_input_qsv : gmap string (@ndarray example_numpy) :=
  @min_max_dict example_numpy [-10] [8].

Definition example_qsv_map
  : gmap string (gmap string (@ndarray example_numpy)) :=
  <["output"%string := @min_max_dict example_numpy [-1] [1]]>
    (<["input"%string := example_input_qsv]> ∅).

Definition example_pool_op : Schema.OperatorT :=
  {| Schema.inputs := [0]; Schema.outputs := [3]; Schema.adjY := None |}.

Definition example_pool_op_info : OpInfo :=
  {| op := example_pool_op; op_name := AVERAGE_POOL_2D;
     subgraph_op_index := 0; op_quant_config := example_srq_config |}.

Definition example_input_parameters : @UQP.t example_numpy :=
  @UQP.Build_t example_numpy 8 None [8] [0] true None.

Definition example_input_consumer : @OpToTensorParams example_numpy :=
  @Build_OpToTensorParams example_numpy 0 [ADD_QUANTIZE]
    (Some example_input_parameters).

Definition example_input_entry : @TensorTransformationParams example_numpy :=
  @Build_TensorTransformationParams example_numpy "input" None
    (Some [example_input_consumer]).



Definition example_constant_output_op : Schema.OperatorT :=
  {| Schema.inputs := [0]; Schema.outputs := [1]; Schema.adjY := None |}.

Definition example_constant_output_op_info : OpInfo :=
  {| op := example_constant_output_op; op_name := FULLY_CONNECTED;
     subgraph_op_index := 0; op_quant_config := example_weight_only_config |}.

(* ===================================================================== *)
(** * Vocabulary of the further properties *)
(* ===================================================================== *)

(** A stored rule that applies to a query: its scope regex matches the
    scope name and its operation is the wildcard or the target. *)
Definition applies_to (re_search : string -> string -> bool)
    (self : scope_configs) (target : TFLOperationName) (scope_name : string)
    (r : OpQuantizationRecipe) : Prop :=
  exists rx rules,
    (rx, rules) ∈ self /\ r ∈ rules /\ re_search rx scope_name = true
    /\ (operation r = ALL \/ operation r = target).

(** A dictionary of a recipe that the registration check of
    [add_quantization_config] rejects. *)
Definition unregistered (NO_QUANT : string)
    (is_op_registered : string -> TFLOperationName -> bool) {D : Type}
    (config : recipe_dict D) : Prop :=
  d_operation config <> ALL
  /\ d_algorithm_key config <> NO_QUANT
  /\ is_op_registered (d_algorithm_key config) (d_operation config) = false.

Section FlatbufferVocabulary.
Context `{Numpy}.

(** The tensors of all operators of a model, in the order
    [buffer_to_tensors] meets them. *)
Definition model_op_tensors (flatbuffer_model : Schema.ModelT float32)
  : result (list Tensor) :=
  foldM
    (fun acc subgraph =>
       foldM
         (fun acc op =>
            tensors ← parse_op_tensors op (Schema.tensors subgraph);
            Ok (acc ++ tensors))
         acc (Schema.operators subgraph))
    [] (Schema.subgraphs flatbuffer_model).

(** The tensors of a list that use buffer [b]. *)
Definition tensors_of_buffer (b : Z) (tensors : list Tensor) : list Tensor :=
  filter (fun tensor => Schema.buffer tensor = b) tensors.

End FlatbufferVocabulary.

(** The flatbuffer tensor type that corresponds to a numpy integer type. *)
Definition tflite_type_of_np (ty : NpIntType) : Schema.TensorType :=
  match ty with
  | np_int8 => Schema.INT8
  | np_int16 => Schema.INT16
  | np_int32 => Schema.INT32
  | np_int64 => Schema.INT64
  end.

Section FurtherVocabulary.
Context `{UniformQuantizeTensor}.

(** An entry of a materialization result for an input of the operator:
    named after the tensor, without a producer, with this operator as its
    only consumer. *)
Definition inbound_entry (op_info : OpInfo) (tensor : Tensor)
    (entry : TensorTransformationParams) : Prop :=
  tensor_name entry = get_tensor_name tensor
  /\ producer entry = None
  /\ exists c,
      consumers entry = Some [c]
      /\ subgraph_op_id c = subgraph_op_index op_info.

(** An entry for an output of the operator: named after the tensor, produced
    by this operator, without consumers. *)
Definition outbound_entry (op_info : OpInfo) (tensor : Tensor)
    (entry : TensorTransformationParams) : Prop :=
  tensor_name entry = get_tensor_name tensor
  /\ consumers entry = None
  /\ exists p,
      producer entry = Some p
      /\ subgraph_op_id p = subgraph_op_index op_info.

(** The parameters an inbound entry carries. *)
Definition inbound_parameters (entry : TensorTransformationParams)
  : option UniformQuantParams :=
  match consumers entry with
  | Some [c] => parameters c
  | _ => None
  end.

(** The parameters an entry carries: those of its producer, or of its only
    consumer when it has no producer. *)
Definition entry_parameters (entry : TensorTransformationParams)
  : option UniformQuantParams :=
  match producer entry with
  | Some p => parameters p
  | None => inbound_parameters entry
  end.

(** The output entry after [materialize_op_with_output_activation_constraint]
    has replaced the parameters of its producer [pr] by the constraint [c]. *)
Definition constrained_output (out : TensorTransformationParams)
    (pr : OpToTensorParams) (c : UniformQuantParams)
  : TensorTransformationParams :=
  {| tensor_name := tensor_name out;
     producer := Some {| subgraph_op_id := subgraph_op_id pr;
                         transformations := transformations pr;
                         parameters := Some c |};
     consumers := consumers out |}.

(** A statistics entry that holds both a minimum and a maximum. *)
Definition has_min_max (e : QSV) : Prop :=
  is_Some (e !! "min"%string) /\ is_Some (e !! "max"%string).

(** What [min_max_calibrate] records for a tensor: the minimum and the
    maximum over all axes of the content given under the tensor's name,
    and only for a tensor without constant data. *)
Definition calibrated_entry (graph_info : GraphInfo)
    (tensor_content_map : gmap string ndarray) (tensor : Tensor) (e : QSV)
  : Prop :=
  get_tensor_data_from_model tensor (buffers graph_info)
    (whole_model_buffer graph_info) = Ok None
  /\ exists content mn mx,
      tensor_content_map !! get_tensor_name tensor = Some content
      /\ np_min content None = Ok mn
      /\ np_max content None = Ok mx
      /\ e = min_max_dict mn mx.

(** The body of [_collect_activation_tensor_min_max] once the tensor is
    known. *)
Definition collect_tensor (graph_info : GraphInfo)
    (tensor_content_map : gmap string ndarray) (op_qsvs : QSVMap)
    (tensor : Tensor) : result QSVMap :=
  tensor_data ← get_tensor_data_from_model tensor (buffers graph_info)
                  (whole_model_buffer graph_info);
  match tensor_data with
  | Some _ => Ok op_qsvs
  | None =>
      match tensor_content_map !! get_tensor_name tensor with
      | None => Err (KeyError (get_tensor_name tensor))
      | Some tensor_content =>
          mn ← np_min tensor_content None;
          mx ← np_max tensor_content None;
          Ok (<[get_tensor_name tensor := min_max_dict mn mx]> op_qsvs)
      end
  end.

(** The operator information with the input indices of the operator
    replaced. *)
Definition with_inputs (op_info : OpInfo) (inputs : list Z) : OpInfo :=
  {| op := {| Schema.inputs := inputs;
              Schema.outputs := Schema.outputs (op op_info);
              Schema.adjY := Schema.adjY (op op_info) |};
     op_name := op_name op_info;
     subgraph_op_index := subgraph_op_index op_info;
     op_quant_config := op_quant_config op_info |}.

(** Quantization parameters with the quantized data taken out. *)
Definition without_quantized_data (p : UniformQuantParams)
  : UniformQuantParams :=
  {| UQP.num_bits := UQP.num_bits p;
     UQP.quantized_dimension := UQP.quantized_dimension p;
     UQP.scale := UQP.scale p;
     UQP.zero_point := UQP.zero_point p;
     UQP.symmetric := UQP.symmetric p;
     UQP.quantized_data := None |}.

End FurtherVocabulary.

(* ===================================================================== *)
(** * Further example instances *)
(* ===================================================================== *)

(** Further instances: a reshape operator whose shape operand is tensor 1,
    constraints for 8-bit activations, parameters with an unsupported
    bit-width, calibration content for the two activations, a model with two
    operators that share tensor 3, and a buffer list whose second buffer
    lives in the whole model buffer. *)
Definition example_reshape_op_info : OpInfo :=
  {| op := {| Schema.inputs := [0; 1]; Schema.outputs := [3];
              Schema.adjY := None |};
     op_name := RESHAPE; subgraph_op_index := 0;
     op_quant_config := example_srq_config |}.

Definition example_constraints : gmap Z (@UQP.t example_numpy) :=
  <[8 := example_input_parameters]> ∅.

Definition example_unsupported_quant_params : @UQP.t example_numpy :=
  @UQP.Build_t example_numpy 12 None [2] [0] true (Some [3; -1]).

Definition example_content_map : gmap string (@ndarray example_numpy) :=
  <["output"%string := [0; 1]]> (<["input"%string := [-4; 9]]> ∅).

Definition example_model : Schema.ModelT (@float32 example_numpy) :=
  {| Schema.subgraphs :=
       [ {| Schema.tensors := @subgraph_tensors example_numpy example_graph_info;
            Schema.operators :=
              [ example_fc_op;
                {| Schema.inputs := [3]; Schema.outputs := [-1];
                   Schema.adjY := None |} ] |} ];
     Schema.buffers := @buffers example_numpy example_graph_info |}.

Definition example_offset_buffers : list Schema.BufferT :=
  [ {| Schema.data := None; Schema.offset := 0; Schema.size := 0 |};
    {| Schema.data := None; Schema.offset := 2; Schema.size := 2 |} ].

Definition example_model_buffer : list Byte.byte :=
  [Byte.x00; Byte.x00; Byte.x07; Byte.x09; Byte.x00].

(* ===================================================================== *)
(** * Properties *)
(* ===================================================================== *)

(** C1.  For every operator quantization config and every tensor, the
    transformation sequence is the one-element list given by the mode table:
    SRQ maps an inbound constant to QUANTIZE_TENSOR, an inbound activation to
    ADD_QUANTIZE and an outbound tensor to ADD_DEQUANTIZE; DRQ maps an inbound
    constant to QUANTIZE_TENSOR and everything else to NO_QUANTIZE;
    WEIGHT_ONLY maps an inbound constant to ADD_DEQUANTIZE and everything
    else to NO_QUANTIZE. *)
Theorem get_tensor_transformations_mode_table :
  forall (cfg : OpQuantizationConfig) (is_inbounding_tensor is_constant : bool),
    get_tensor_transformations cfg is_inbounding_tensor is_constant
    = [mode_table (execution_mode cfg) is_inbounding_tensor is_constant].
Proof.
  intros [act w mode] inb cst.
  unfold get_tensor_transformations; simpl.
  destruct mode, inb, cst; reflexivity.
Qed.

(* ===================================================================== *)
(** ** The recipe manager *)
(* ===================================================================== *)

(** Forget the section variables a statement does not mention, so that
    automation cannot pick them up. *)
Ltac drop_context := repeat match goal with H : _ |- _ => clear H end.

Module RecipeManagerFacts.
Import RecipeManager RecipeInvariant.

Section OrderedDict.
Context {V : Type}.
Implicit Types (k : string) (v : V) (d : list (string * V)).

Lemma od_get_app_fresh k d d' :
  k ∉ map fst d -> od_get k (d ++ d') = od_get k d'.
Proof using Type.
  induction d as [|[k' v'] d IH]; simpl; [done|].
  intros Hk. apply not_elem_of_cons in Hk as [Hne Hk].
  case_decide; [congruence | auto].
Qed.

Lemma od_get_fresh k d : k ∉ map fst d -> od_get k d = None.
Proof using Type.
  intros Hk. rewrite <- (app_nil_r d). by rewrite od_get_app_fresh.
Qed.

Lemma od_set_app_fresh k v d d' :
  k ∉ map fst d -> od_set k v (d ++ d') = d ++ od_set k v d'.
Proof using Type.
  induction d as [|[k' v'] d IH]; simpl; [done|].
  intros Hk. apply not_elem_of_cons in Hk as [Hne Hk].
  case_decide; [congruence | by rewrite IH].
Qed.

Lemma od_get_set_eq k v d : od_get k (od_set k v d) = Some v.
Proof using Type.
  induction d as [|[k' v'] d IH]; simpl.
  - by destruct (decide (k = k)).
  - destruct (decide (k' = k)) as [->|Hne]; simpl.
    + by destruct (decide (k = k)).
    + by destruct (decide (k' = k)).
Qed.

Lemma od_get_set_ne k k' v d :
  k <> k' -> od_get k' (od_set k v d) = od_get k' d.
Proof using Type.
  intros Hne. induction d as [|[k0 v0] d IH]; simpl.
  - by destruct (decide (k = k')).
  - destruct (decide (k0 = k)) as [->|Hk]; simpl.
    + by destruct (decide (k = k')).
    + destruct (decide (k0 = k')); [done | apply IH].
Qed.

Lemma od_set_keys k v d :
  map fst (od_set k v d)
  = if decide (k ∈ map fst d) then map fst d else map fst d ++ [k].
Proof using Type.
  induction d as [|[k' v'] d IH]; cbn [od_set map fst app].
  - destruct (decide (k ∈ [])) as [[]%elem_of_nil|]; done.
  - destruct (decide (k' = k)) as [->|Hk]; cbn [map fst].
    + destruct (decide (k ∈ k :: map fst d)) as [|Hn]; [done|].
      exfalso. apply Hn, elem_of_cons; auto.
    + rewrite IH. destruct (decide (k ∈ map fst d)) as [Hin|Hin];
        destruct (decide (k ∈ k' :: map fst d)) as [Hin'|Hin']; try done.
      * exfalso. apply Hin', elem_of_cons; auto.
      * apply elem_of_cons in Hin' as [->|?]; congruence.
Qed.

Lemma od_set_keys_NoDup k v d : NoDup (map fst d) -> NoDup (map fst (od_set k v d)).
Proof using Type.
  intros Hnd. rewrite od_set_keys. case_decide; [done|].
  apply NoDup_app. split; [done|]. split.
  - intros x Hx [->|[]%elem_of_nil]%elem_of_cons. done.
  - apply NoDup_singleton.
Qed.

Lemma od_get_elem k v d : od_get k d = Some v -> (k, v) ∈ d.
Proof using Type.
  induction d as [|[k' v'] d IH]; simpl; [done|].
  case_decide.
  - intros [= ->]. subst. apply elem_of_cons; auto.
  - intros H'. apply elem_of_cons; auto.
Qed.

Lemma od_set_elem k v d x :
  x ∈ od_set k v d -> x = (k, v) \/ x ∈ d.
Proof using Type.
  induction d as [|[k' v'] d IH]; simpl.
  - intros [->|[]%elem_of_nil]%elem_of_cons. auto.
  - case_decide.
    + intros [->|?]%elem_of_cons; [auto|]. right. apply elem_of_cons; auto.
    + intros [->|?]%elem_of_cons.
      * right. apply elem_of_cons; auto.
      * destruct IH as [?|?]; [done|auto|]. right. apply elem_of_cons; auto.
Qed.

End OrderedDict.

Section Manager.
Variable NO_QUANT : string.
Variable is_op_registered : string -> TFLOperationName -> bool.
Variable default_op_config : OpQuantizationConfig.
Variable re_search : string -> string -> bool.

Local Abbreviation add :=
  (add_quantization_config NO_QUANT is_op_registered default_op_config).
Local Abbreviation resolve :=
  (get_quantization_configs NO_QUANT default_op_config re_search).
Local Abbreviation reachable :=
  (RecipeManager.reachable NO_QUANT is_op_registered default_op_config).
Local Abbreviation new_rule := (RecipeInvariant.new_rule default_op_config).
Local Abbreviation rule_ok :=
  (RecipeInvariant.rule_ok NO_QUANT is_op_registered).
Local Abbreviation scope_ok :=
  (RecipeInvariant.scope_ok NO_QUANT is_op_registered).
Local Abbreviation well_formed :=
  (RecipeInvariant.well_formed NO_QUANT is_op_registered).

(** *** Resolution *)

Lemma resolve_recipe_apply_rule target res r :
  resolve_recipe target res r
  = if decide (operation r = ALL \/ operation r = target)
    then apply_rule res r else res.
Proof using Type.
  drop_context.
  unfold resolve_recipe, apply_rule. destruct res as [key cfg]; simpl.
  destruct (decide (operation r = ALL)) as [Ha|Ha];
    destruct (decide (operation r = target)) as [Ht|Ht];
    repeat first [ rewrite (bool_decide_eq_true_2 _ Ha)
                 | rewrite (bool_decide_eq_true_2 _ Ht)
                 | rewrite (bool_decide_eq_false_2 (operation r <> ALL)) by tauto
                 | rewrite (bool_decide_eq_false_2 (operation r <> target)) by tauto
                 | rewrite (bool_decide_eq_true_2 (operation r <> ALL)) by tauto
                 | rewrite (bool_decide_eq_true_2 (operation r <> target)) by tauto ];
    simpl;
    try (rewrite decide_True by tauto);
    try (rewrite decide_False by tauto);
    try reflexivity;
    destruct (decide (algorithm_key r = key)) as [Hk|Hk];
    try (rewrite (bool_decide_eq_false_2 (key <> algorithm_key r)) by (intros ?; congruence));
    try (rewrite (bool_decide_eq_true_2 (key <> algorithm_key r)) by congruence);
    reflexivity.
Qed.

Lemma fold_resolve_recipe_filter target rs res :
  fold_left (resolve_recipe target) rs res
  = fold_left apply_rule
      (filter (fun r => operation r = ALL \/ operation r = target) rs) res.
Proof using Type.
  revert res. induction rs as [|r rs IH]; intros res; simpl; [done|].
  rewrite resolve_recipe_apply_rule, IH.
  rewrite filter_cons. case_decide; reflexivity.
Qed.

Lemma resolve_from self target scope_name res :
  fold_left
    (fun res '(scope_regex, recipes) =>
       if re_search scope_regex scope_name
       then fold_left (resolve_recipe target) recipes res
       else res) self res
  = fold_left apply_rule (applicable_rules re_search self target scope_name) res.
Proof using Type.
  revert res. induction self as [|[rx rs] self IH]; intros res; simpl; [done|].
  rewrite fold_left_app, IH.
  destruct (re_search rx scope_name); simpl; [|done].
  by rewrite fold_resolve_recipe_filter.
Qed.

Lemma get_quantization_configs_spec self target scope_name :
  resolve self target scope_name
  = resolve_spec NO_QUANT default_op_config re_search self target scope_name.
Proof using Type. apply resolve_from. Qed.

Lemma apply_rule_override res r :
  override_algorithm r = true ->
  apply_rule res r = (algorithm_key r, op_config r).
Proof using Type.
  intros Hov. unfold apply_rule. rewrite Hov.
  case_decide as Hk; [by rewrite <- Hk | done].
Qed.

Lemma apply_rule_skip res r :
  algorithm_key r <> fst res -> override_algorithm r = false ->
  apply_rule res r = res.
Proof using Type.
  intros Hk Hov. unfold apply_rule. rewrite Hov. by rewrite decide_False.
Qed.

Lemma apply_rule_same res r :
  algorithm_key r = fst res -> apply_rule res r = (fst res, op_config r).
Proof using Type. intros Hk. unfold apply_rule. by rewrite decide_True. Qed.

(** *** Adding rules *)

Lemma rebuild_step_eq config acc b e :
  rebuild_step config (acc, b) e
  = (acc ++ [replace_op config e],
     b && bool_decide (operation e <> operation config)).
Proof using Type.
  drop_context.
  unfold rebuild_step, replace_op.
  destruct (decide (operation e = operation config)) as [He|He].
  - rewrite bool_decide_eq_false_2 by tauto. by rewrite andb_false_r.
  - rewrite bool_decide_eq_true_2 by done. by rewrite andb_true_r.
Qed.

Lemma rebuild_fold config existing acc b :
  fold_left (rebuild_step config) existing (acc, b)
  = (acc ++ map (replace_op config) existing,
     b && bool_decide (operation config ∉ map operation existing)).
Proof using Type.
  drop_context.
  revert acc b. induction existing as [|e es IH]; intros acc b.
  - cbn [fold_left map]. rewrite app_nil_r.
    rewrite bool_decide_eq_true_2 by apply not_elem_of_nil.
    by rewrite andb_true_r.
  - cbn [fold_left map]. rewrite rebuild_step_eq, IH, <- app_assoc.
    cbn [app]. f_equal. rewrite <- andb_assoc. f_equal.
    destruct (decide (operation e = operation config)) as [He|He].
    + rewrite (bool_decide_eq_false_2 (operation e <> _)) by tauto.
      cbn [andb]. symmetry. apply bool_decide_eq_false_2.
      intros Hn. apply Hn, elem_of_cons. auto.
    + rewrite (bool_decide_eq_true_2 (operation e <> _)) by done.
      cbn [andb]. apply bool_decide_ext.
      rewrite not_elem_of_cons. split; [split; [congruence|done] | by intros [_ ?]].
Qed.

Lemma map_replace_op_absent config existing :
  operation config ∉ map operation existing ->
  map (replace_op config) existing = existing.
Proof using Type.
  induction existing as [|e es IH]; cbn [map]; [done|].
  intros [Hne Hn]%not_elem_of_cons. unfold replace_op at 1.
  rewrite decide_False by congruence. by rewrite IH.
Qed.

Lemma map_operation_replace_op config existing :
  map operation (map (replace_op config) existing) = map operation existing.
Proof using Type.
  induction existing as [|e es IH]; cbn [map]; [done|].
  rewrite IH. f_equal. unfold replace_op. by case_decide.
Qed.


Lemma add_unfold self rx op cfg alg ov :
  add self rx op cfg alg ov
  = let config := new_rule rx op cfg alg ov in
    if decide (op = ALL) then Ok (od_set rx [config] self)
    else if negb (bool_decide (alg = NO_QUANT)) && negb (is_op_registered alg op)
    then Err (ValueError "Unsupported operation for algorithm. Please check and update algorithm manager.")
    else match od_get rx self with
         | None => Ok (od_set rx [config] self)
         | Some existing =>
             Ok (od_set rx
                   (if decide (op ∈ map operation existing)
                    then map (replace_op config) existing
                    else existing ++ [config]) self)
         end.
Proof using Type.
  drop_context.
  unfold add_quantization_config, new_rule.
  replace (match cfg with Some c => c | None => default_op_config end)
    with (default default_op_config cfg) by (by destruct cfg).
  cbn [operation]. cbv zeta.
  destruct (decide (op = ALL)); [done|].
  destruct (negb _ && negb _); [done|].
  destruct (od_get rx self) as [existing|]; [|done].
  rewrite rebuild_fold. cbn [app operation andb].
  destruct (decide (op ∈ map operation existing)) as [Hin|Hin].
  - rewrite bool_decide_eq_false_2 by tauto. done.
  - rewrite bool_decide_eq_true_2 by done.
    by rewrite map_replace_op_absent.
Qed.

(** *** The invariant of reachable states *)

Lemma scope_ok_singleton rx r : rule_ok rx r -> scope_ok (rx, [r]).
Proof using Type.
  intros Hr. repeat split; cbn; try done.
  - apply NoDup_singleton.
  - by apply Forall_singleton.
Qed.

Lemma well_formed_set self rx rules :
  well_formed self -> scope_ok (rx, rules) ->
  well_formed (od_set rx rules self).
Proof using Type.
  intros [Hk Hs] Hok. split; [by apply od_set_keys_NoDup|].
  apply Forall_forall. intros x [->|Hx]%od_set_elem; [done|].
  rewrite Forall_forall in Hs. auto.
Qed.

Lemma well_formed_get self rx rules :
  well_formed self -> od_get rx self = Some rules -> scope_ok (rx, rules).
Proof using Type.
  intros [_ Hs] Hget. apply od_get_elem in Hget.
  rewrite Forall_forall in Hs. auto.
Qed.

Lemma add_well_formed self rx op cfg alg ov self' :
  well_formed self -> add self rx op cfg alg ov = Ok self' ->
  well_formed self'.
Proof using Type.
  intros Hwf. rewrite add_unfold. cbv zeta.
  set (config := new_rule rx op cfg alg ov).
  destruct (decide (op = ALL)) as [Hall|Hall].
  { intros [= <-]. apply well_formed_set; [done|].
    apply scope_ok_singleton. split; [done|]. by intros []. }
  destruct (negb _ && negb _) eqn:Hreg; [done|].
  assert (rule_ok rx config) as Hcfg.
  { split; [done|]. intros _. cbn.
    apply andb_false_iff in Hreg as [Hreg|Hreg].
    - left. apply negb_false_iff, bool_decide_eq_true in Hreg. done.
    - right. by apply negb_false_iff in Hreg. }
  destruct (od_get rx self) as [existing|] eqn:Hget.
  2:{ intros [= <-]. apply well_formed_set; [done|].
      by apply scope_ok_singleton. }
  intros [= <-]. apply well_formed_set; [done|].
  destruct (well_formed_get _ _ _ Hwf Hget) as (Hne & Hnd & Hall' & Htl).
  cbn [fst snd] in *.
  destruct (decide (op ∈ map operation existing)) as [Hin|Hin];
    repeat split; cbn [fst snd].
  - destruct existing; [done|]. done.
  - by rewrite map_operation_replace_op.
  - apply Forall_forall. intros r [e [-> He]]%list_elem_of_fmap.
    unfold replace_op.
    destruct (decide (operation e = operation config)); [exact Hcfg|].
    rewrite Forall_forall in Hall'. auto.
  - destruct existing as [|e es]; [done|]. cbn [map tail] in *.
    apply Forall_forall. intros r [e' [-> He]]%list_elem_of_fmap.
    unfold replace_op.
    destruct (decide (operation e' = operation config)); [exact Hall|].
    rewrite Forall_forall in Htl. auto.
  - by destruct existing.
  - rewrite map_app. apply NoDup_app. split; [done|]. split.
    + intros x Hx [->|[]%elem_of_nil]%elem_of_cons. done.
    + apply NoDup_singleton.
  - apply Forall_app. split; [done|]. by apply Forall_singleton.
  - destruct existing as [|e es]; [done|]. cbn [app tail] in *.
    apply Forall_app. split; [done|]. by apply Forall_singleton.
Qed.

Lemma reachable_well_formed self : reachable self -> well_formed self.
Proof using Type.
  induction 1 as [|self rx op cfg alg ov self' _ IH Hadd].
  - split; [apply NoDup_nil_2 | apply Forall_nil_2].
  - by eapply add_well_formed.
Qed.

(** *** Saving and reloading *)

Section Reload.
Variable D : Type.
Variable to_dict : OpQuantizationConfig -> D.
Variable from_dict : D -> OpQuantizationConfig.
Hypothesis from_dict_to_dict : forall c, from_dict (to_dict c) = c.

Local Abbreviation rule_to_dict := (RecipeInvariant.rule_to_dict to_dict).
Local Abbreviation add_dict :=
  (RecipeInvariant.add_dict NO_QUANT is_op_registered default_op_config
     from_dict).

Lemma foldM_app {A B} (f : A -> B -> result A) a xs ys :
  foldM f a (xs ++ ys) = (a' ← foldM f a xs; foldM f a' ys).
Proof using Type.
  revert a. induction xs as [|x xs IH]; intros a; cbn; [done|].
  destruct (f a x) as [a'|e]; cbn; [apply IH | done].
Qed.

Lemma get_quantization_recipe_cons k rules rest :
  get_quantization_recipe to_dict ((k, rules) :: rest)
  = map rule_to_dict rules ++ get_quantization_recipe to_dict rest.
Proof using Type. reflexivity. Qed.

Lemma new_rule_of_dict k r :
  regex r = k ->
  new_rule k (operation r) (Some (from_dict (to_dict (op_config r))))
    (algorithm_key r) (override_algorithm r) = r.
Proof using from_dict_to_dict.
  intros <-. unfold new_rule. cbn. rewrite from_dict_to_dict. by destruct r.
Qed.

Lemma registered_check_passes k r :
  rule_ok k r -> operation r <> ALL ->
  negb (bool_decide (algorithm_key r = NO_QUANT))
  && negb (is_op_registered (algorithm_key r) (operation r)) = false.
Proof using Type.
  intros [_ Hreg] Hop. destruct (Hreg Hop) as [Hq|Hq].
  - by rewrite (bool_decide_eq_true_2 _ Hq).
  - rewrite Hq. apply andb_false_r.
Qed.

Lemma add_dict_first pre k r :
  k ∉ map fst pre -> rule_ok k r ->
  add_dict pre (rule_to_dict r) = Ok (pre ++ [(k, [r])]).
Proof using from_dict_to_dict.
  intros Hk Hr. unfold add_dict, rule_to_dict. cbn.
  rewrite add_unfold. cbv zeta. destruct Hr as [Hrx Hreg].
  rewrite Hrx, (new_rule_of_dict k r Hrx).
  assert (od_set k [r] pre = pre ++ [(k, [r])]) as Hset.
  { rewrite <- (app_nil_r pre) at 1. by rewrite od_set_app_fresh. }
  destruct (decide (operation r = ALL)); [by rewrite Hset|].
  rewrite (registered_check_passes k r) by done.
  rewrite od_get_fresh by done. by rewrite Hset.
Qed.

Lemma add_dict_next pre k done r :
  k ∉ map fst pre -> rule_ok k r -> operation r <> ALL ->
  operation r ∉ map operation done ->
  add_dict (pre ++ [(k, done)]) (rule_to_dict r)
  = Ok (pre ++ [(k, done ++ [r])]).
Proof using from_dict_to_dict.
  intros Hk Hr Hop Hfresh. unfold add_dict, rule_to_dict. cbn.
  rewrite add_unfold. cbv zeta. pose proof Hr as [Hrx _].
  rewrite Hrx, (new_rule_of_dict k r Hrx).
  rewrite decide_False by done.
  rewrite (registered_check_passes k r) by done.
  rewrite od_get_app_fresh by done. cbn [od_get].
  rewrite decide_True by done. rewrite decide_False by done.
  rewrite od_set_app_fresh by done. cbn [od_set].
  by rewrite decide_True.
Qed.

Lemma load_scope_tail pre k done todo :
  k ∉ map fst pre ->
  NoDup (map operation (done ++ todo)) ->
  Forall (rule_ok k) todo ->
  Forall (fun r => operation r <> ALL) todo ->
  foldM add_dict (pre ++ [(k, done)]) (map rule_to_dict todo)
  = Ok (pre ++ [(k, done ++ todo)]).
Proof using from_dict_to_dict.
  intros Hk. revert done.
  induction todo as [|r todo IH]; intros done Hnd Hok Hall.
  - cbn. by rewrite app_nil_r.
  - cbn [map foldM]. apply Forall_cons in Hok as [Hr Hok].
    apply Forall_cons in Hall as [Hop Hall].
    rewrite add_dict_next; try done.
    + cbn. rewrite IH; try done.
      * by rewrite <- app_assoc.
      * by rewrite <- app_assoc.
    + rewrite map_app in Hnd. apply NoDup_app in Hnd as (_ & Hdis & _).
      intros Hin. apply (Hdis _ Hin). cbn. apply elem_of_cons. auto.
Qed.

Lemma load_from pre rest :
  well_formed (pre ++ rest) ->
  foldM add_dict pre (get_quantization_recipe to_dict rest) = Ok (pre ++ rest).
Proof using from_dict_to_dict.
  revert pre. induction rest as [|[k rules] rest IH]; intros pre Hwf.
  - cbn. by rewrite app_nil_r.
  - rewrite get_quantization_recipe_cons, foldM_app.
    destruct Hwf as [Hkeys Hscopes].
    rewrite map_app in Hkeys. cbn [map fst] in Hkeys.
    assert (k ∉ map fst pre) as Hk.
    { apply NoDup_app in Hkeys as (_ & Hdis & _).
      intros Hin. apply (Hdis _ Hin), elem_of_cons. auto. }
    apply Forall_app in Hscopes as [Hpre Hrest].
    apply Forall_cons in Hrest as [(Hne & Hnd & Hok & Htl) Hrest].
    cbn [fst snd] in *.
    destruct rules as [|r tl]; [done|]. cbn [tail] in Htl.
    apply Forall_cons in Hok as [Hr Hok].
    cbn [map foldM]. rewrite (add_dict_first pre k r) by done. cbn.
    rewrite (load_scope_tail pre k [r] tl) by done. cbn.
    rewrite IH; [by rewrite <- app_assoc|].
    rewrite <- app_assoc. cbn. split.
    + rewrite map_app. done.
    + apply Forall_app. split; [done|].
      apply Forall_cons. split; [|done].
      repeat split; cbn; try done. by apply Forall_cons.
Qed.

Lemma load_get_quantization_recipe self :
  reachable self ->
  load_quantization_recipe NO_QUANT is_op_registered default_op_config
    from_dict (get_quantization_recipe to_dict self) = Ok self.
Proof using from_dict_to_dict.
  intros Hr. apply reachable_well_formed in Hr.
  apply (load_from [] self Hr).
Qed.

End Reload.

End Manager.
End RecipeManagerFacts.

Import RecipeManager RecipeManagerFacts.

(** C2 (as amended).  Resolution is the left-to-right application, to the
    sentinel pair, of the rules that apply to the query: scopes in insertion
    order, each scope whose regex is found in the scope name contributing its
    rules for ALL or for the queried operator, in list order.  A rule whose
    algorithm differs from the running one is adopted when its override flag
    is true and skipped, leaving algorithm and config untouched, when it is
    false; a rule with the running algorithm always replaces the config.  In
    particular, when the applicable rules end with a rule [r1] whose override
    flag is true followed by a rule [r2] with another algorithm and
    override=false, the result is [r1]'s algorithm and config. *)
Theorem get_quantization_configs_resolution :
  forall (NO_QUANT : string) (default_op_config : OpQuantizationConfig)
         (re_search : string -> string -> bool)
         (self : scope_configs) (target : TFLOperationName)
         (scope_name : string),
    get_quantization_configs NO_QUANT default_op_config re_search
      self target scope_name
    = fold_left apply_rule (applicable_rules re_search self target scope_name)
        (NO_QUANT, default_op_config)
    /\ (forall res r,
          algorithm_key r <> fst res ->
          apply_rule res r
          = if override_algorithm r then (algorithm_key r, op_config r)
            else res)
    /\ (forall res r,
          algorithm_key r = fst res ->
          apply_rule res r = (fst res, op_config r))
    /\ (forall pre r1 r2,
          applicable_rules re_search self target scope_name = pre ++ [r1; r2] ->
          override_algorithm r1 = true ->
          algorithm_key r1 <> algorithm_key r2 ->
          override_algorithm r2 = false ->
          get_quantization_configs NO_QUANT default_op_config re_search
            self target scope_name
          = (algorithm_key r1, op_config r1)).
Proof.
  intros NO_QUANT default_op_config re_search self target scope_name.
  split; [apply get_quantization_configs_spec|].
  split.
  { intros res r Hk. destruct (override_algorithm r) eqn:Hov.
    - by apply apply_rule_override.
    - by apply apply_rule_skip. }
  split; [intros res r; apply apply_rule_same|].
  intros pre r1 r2 Happ Hov1 Hne Hov2.
  rewrite get_quantization_configs_spec. unfold resolve_spec.
  rewrite Happ, fold_left_app. cbn [fold_left].
  rewrite (apply_rule_override _ r1 Hov1).
  apply apply_rule_skip; [|done]. cbn. congruence.
Qed.

Lemma get_quantization_configs_resolution_witness :
  example_resolve [(".*"%string, [example_rule_all; example_rule_fc])]
    FULLY_CONNECTED "model/dense"
  = ("ptq"%string, example_srq_config).
Proof.
  apply (proj2 (proj2 (proj2
    (get_quantization_configs_resolution example_NO_QUANT
       example_default_op_config example_re_search
       [(".*"%string, [example_rule_all; example_rule_fc])]
       FULLY_CONNECTED "model/dense")))
    [] example_rule_all example_rule_fc).
  - reflexivity.
  - reflexivity.
  - cbn. discriminate.
  - reflexivity.
Defined.

(** C2, as stated, fails.  (a) Two rules added for the same scope regex and
    the same operator never coexist: the second call replaces the first rule,
    and with override=false and a non-sentinel algorithm the lone second rule
    is skipped, so the query yields the sentinel pair, not the first rule.
    (b) With two stored rules that both apply, the first is itself skipped
    when its own override flag is false, and the result is again the sentinel
    pair. *)
Lemma resolve_two_rules_not_first :
  (exists self1 self2,
      example_add [] ".*" FULLY_CONNECTED (Some example_srq_config)
        "ptq" true = Ok self1
      /\ example_add self1 ".*" FULLY_CONNECTED (Some example_drq_config)
           "other" false = Ok self2
      /\ self2 = [(".*"%string, [example_rule_fc])]
      /\ example_resolve self2 FULLY_CONNECTED "model/dense"
         = (example_NO_QUANT, example_default_op_config)
      /\ example_resolve self2 FULLY_CONNECTED "model/dense"
         <> ("ptq"%string, example_srq_config))
  /\ (exists self1 self2,
        example_add [] "model/dense" FULLY_CONNECTED (Some example_srq_config)
          "ptq" false = Ok self1
        /\ example_add self1 ".*" FULLY_CONNECTED
             (Some example_drq_config) "other" false = Ok self2
        /\ length self2 = 2%nat
        /\ example_resolve self2 FULLY_CONNECTED "model/dense"
           = (example_NO_QUANT, example_default_op_config)
        /\ example_resolve self2 FULLY_CONNECTED "model/dense"
           <> ("ptq"%string, example_srq_config)).
Proof.
  split.
  - eexists _, _. split; [reflexivity|]. split; [reflexivity|].
    split; [reflexivity|]. split; [reflexivity|]. discriminate.
  - eexists _, _. split; [reflexivity|]. split; [reflexivity|].
    split; [reflexivity|]. split; [reflexivity|]. discriminate.
Qed.

Lemma example_state_reachable :
  reachable example_NO_QUANT example_is_op_registered
    example_default_op_config example_state.
Proof.
  apply (reachable_add _ _ _ [(".*"%string, [example_rule_all])]
           ".*" FULLY_CONNECTED (Some example_drq_config) "other" false).
  - apply (reachable_add _ _ _ [] ".*" ALL (Some example_srq_config)
             "ptq" true).
    + apply reachable_init.
    + reflexivity.
  - reflexivity.
Qed.



(** C9.  Saving and reloading is a round trip.  For every reachable manager
    state, provided that [from_dict] undoes [to_dict] on operator configs,
    loading the saved recipe succeeds and yields a manager that answers every
    query (target operator, scope name) with the same (algorithm key, op
    config) pair; the reloaded rule table is in fact the original one. *)
Theorem recipe_save_load_round_trip :
  forall (NO_QUANT : string)
         (is_op_registered : string -> TFLOperationName -> bool)
         (default_op_config : OpQuantizationConfig)
         (re_search : string -> string -> bool)
         (D : Type) (to_dict : OpQuantizationConfig -> D)
         (from_dict : D -> OpQuantizationConfig),
    (forall c, from_dict (to_dict c) = c) ->
    forall self : scope_configs,
      reachable NO_QUANT is_op_registered default_op_config self ->
      exists self',
        load_quantization_recipe NO_QUANT is_op_registered default_op_config
          from_dict (get_quantization_recipe to_dict self) = Ok self'
        /\ self' = self
        /\ forall target scope_name,
            get_quantization_configs NO_QUANT default_op_config re_search
              self' target scope_name
            = get_quantization_configs NO_QUANT default_op_config re_search
                self target scope_name.
Proof.
  intros NO_QUANT is_op_registered default_op_config re_search D to_dict
    from_dict Hinv self Hreach.
  exists self. split; [|done].
  by apply load_get_quantization_recipe.
Qed.

Lemma recipe_save_load_round_trip_witness :
  exists self',
    load_quantization_recipe example_NO_QUANT example_is_op_registered
      example_default_op_config (fun d => d)
      (get_quantization_recipe (fun c => c) example_state) = Ok self'
    /\ self' = example_state
    /\ forall target scope_name,
        example_resolve self' target scope_name
        = example_resolve example_state target scope_name.
Proof.
  apply (recipe_save_load_round_trip example_NO_QUANT
           example_is_op_registered example_default_op_config
           example_re_search OpQuantizationConfig (fun c => c) (fun d => d)).
  - reflexivity.
  - apply example_state_reachable.
Defined.

(* ===================================================================== *)
(** ** Flatbuffer utilities and the QUANTIZE_TENSOR edit *)
(* ===================================================================== *)

(** C10.  When both tensors have null quantization metadata, or both have
    metadata with a null scale list, [has_same_quantization] returns true
    whatever the two declared element types are; conversely, changing the
    declared types can change the outcome only if at least one of the tensors
    carries a non-null scale. *)
Theorem has_same_quantization_ignores_type_when_unscaled :
  forall (NP : Numpy) (tensor1 tensor2 : Tensor),
    (both_unscaled tensor1 tensor2 ->
     forall ty1 ty2,
       has_same_quantization (with_type ty1 tensor1) (with_type ty2 tensor2)
       = Ok true)
    /\ (forall ty1 ty2,
          has_same_quantization (with_type ty1 tensor1) (with_type ty2 tensor2)
          <> has_same_quantization tensor1 tensor2 ->
          exists q s,
            (Schema.quantization tensor1 = Some q
             \/ Schema.quantization tensor2 = Some q)
            /\ Schema.scale q = Some s).
Proof.
  intros NP [n1 sh1 ty1' b1 q1] [n2 sh2 ty2' b2 q2]. split.
  - intros [[Hq1 Hq2]|(q1' & q2' & Hq1 & Hq2 & Hs1 & Hs2)] ty1 ty2;
      cbn in *; subst.
    + reflexivity.
    + unfold has_same_quantization, with_type; cbn.
      rewrite Hs1; cbn. rewrite Hs2; cbn. reflexivity.
  - intros ty1 ty2 Hdiff.
    unfold has_same_quantization, with_type in Hdiff; cbn in Hdiff.
    destruct q1 as [[[s1|] zp1 qd1]|], q2 as [[[s2|] zp2 qd2]|];
      cbn in Hdiff; try congruence;
      first [ by eexists _, _; split; [left; reflexivity | reflexivity]
            | by eexists _, _; split; [right; reflexivity | reflexivity] ].
Qed.

Lemma has_same_quantization_ignores_type_when_unscaled_witness :
  @has_same_quantization example_numpy
    (@with_type example_numpy Schema.FLOAT32 example_int_tensor)
    (@with_type example_numpy Schema.INT8 example_int_tensor)
  = Ok true.
Proof.
  apply (proj1 (has_same_quantization_ignores_type_when_unscaled
                  example_numpy example_int_tensor example_int_tensor)).
  right. eexists _, _. repeat split; reflexivity.
Defined.

Lemma quant_params_to_tflite_type_ok bitwidth ty :
  quant_params_to_tflite_type bitwidth = Ok ty
  <-> (bitwidth <= 8 /\ ty = Schema.INT8)
      \/ (bitwidth = 16 /\ ty = Schema.INT16)
      \/ (bitwidth = 32 /\ ty = Schema.INT32)
      \/ (bitwidth = 64 /\ ty = Schema.INT64).
Proof.
  unfold quant_params_to_tflite_type.
  destruct (Z.leb_spec bitwidth 8) as [H8|H8].
  { split; [intros [= <-]; tauto|].
    intros [[_ ->]|[[? _]|[[? _]|[? _]]]]; [done|lia..]. }
  destruct (Z.eqb_spec bitwidth 16) as [H16|H16].
  { split; [intros [= <-]; tauto|].
    intros [[? _]|[[_ ->]|[[? _]|[? _]]]]; [lia|done|lia..]. }
  destruct (Z.eqb_spec bitwidth 32) as [H32|H32].
  { split; [intros [= <-]; tauto|].
    intros [[? _]|[[? _]|[[_ ->]|[? _]]]]; [lia|lia|done|lia]. }
  destruct (Z.eqb_spec bitwidth 64) as [H64|H64].
  { split; [intros [= <-]; tauto|].
    intros [[? _]|[[? _]|[[? _]|[_ ->]]]]; [lia|lia|lia|done]. }
  split; [done|]. intros [[? _]|[[? _]|[[? _]|[? _]]]]; lia.
Qed.

Section QuantizeTensorFacts.
Context `{Numpy}.

Lemma py_position_lt n i pos : py_position n i = Some pos -> (pos < n)%nat.
Proof.
  unfold py_position.
  destruct (i <? 0) eqn:Hneg; destruct (_ && _) eqn:Hin; try discriminate;
    intros [= <-]; apply andb_true_iff in Hin as [Hlo Hhi]; lia.
Qed.

Lemma quantize_tensor_operators fresh tensor_id st quant_params :
  Schema.operators (gs_subgraph (quantize_tensor fresh tensor_id st quant_params).2)
  = Schema.operators (gs_subgraph st).
Proof.
  unfold quantize_tensor.
  destruct (py_position _ tensor_id) as [pos|]; [|done].
  destruct (Schema.tensors (gs_subgraph st) !! pos) as [tensor|]; [|done].
  destruct (bool_decide _); [destruct (UQP.quantized_data quant_params)|].
  - destruct (py_position _ (Schema.buffer tensor)) as [bpos|]; [|done].
    destruct (gs_buffers st !! bpos); [|done].
    by destruct (quant_params_to_tflite_type _).
  - by destruct (quant_params_to_tflite_type _).
  - by destruct (quant_params_to_tflite_type _).
Qed.

Lemma quantize_tensor_ok fresh tensor_id st quant_params info st' :
  quantize_tensor fresh tensor_id st quant_params = (Ok info, st') ->
  info = {| op_id := 0; num_ops_added := 0; output_tensor_id := tensor_id |}
  /\ exists pos tensor ty,
      py_position (length (Schema.tensors (gs_subgraph st))) tensor_id = Some pos
      /\ Schema.tensors (gs_subgraph st) !! pos = Some tensor
      /\ quant_params_to_tflite_type (UQP.num_bits quant_params) = Ok ty
      /\ Schema.tensors (gs_subgraph st')
         = <[pos := quantized_tensor fresh tensor ty quant_params]>
             (Schema.tensors (gs_subgraph st))
      /\ buffers_after (gs_buffers st) (gs_buffers st') tensor quant_params.
Proof.
  unfold quantize_tensor.
  destruct (py_position _ tensor_id) as [pos|] eqn:Hpos; [|done].
  destruct (Schema.tensors (gs_subgraph st) !! pos) as [tensor|] eqn:Ht;
    [|done].
  destruct (bool_decide (Schema.buffer tensor <> 0)) eqn:Hb.
  - apply bool_decide_eq_true in Hb.
    destruct (UQP.quantized_data quant_params) as [qd|] eqn:Hqd.
    + destruct (py_position _ (Schema.buffer tensor)) as [bpos|] eqn:Hbpos;
        [|done].
      destruct (gs_buffers st !! bpos) as [b|] eqn:Hbuf; [|done].
      destruct (quant_params_to_tflite_type _) as [ty|] eqn:Hty; [|done].
      intros [= <- <-]. split; [done|]. exists pos, tensor, ty.
      repeat split; try done. unfold buffers_after. rewrite Hqd.
      destruct (decide (Schema.buffer tensor = 0)); [done|]. cbn.
      exists bpos, b. repeat split; try done.
      * apply list_lookup_insert_eq. by apply py_position_lt in Hbpos.
      * apply length_insert.
      * intros j Hj. by apply list_lookup_insert_ne.
    + destruct (quant_params_to_tflite_type _) as [ty|] eqn:Hty; [|done].
      intros [= <- <-]. split; [done|]. exists pos, tensor, ty.
      repeat split; try done. unfold buffers_after. by rewrite Hqd.
  - apply bool_decide_eq_false in Hb.
    destruct (quant_params_to_tflite_type _) as [ty|] eqn:Hty; [|done].
    intros [= <- <-]. split; [done|]. exists pos, tensor, ty.
    repeat split; try done. unfold buffers_after.
    destruct (UQP.quantized_data quant_params); [|done].
    destruct (decide (Schema.buffer tensor = 0)); [done|]. tauto.
Qed.

Lemma quantize_tensor_succeeds fresh tensor_id st quant_params pos tensor ty :
  py_position (length (Schema.tensors (gs_subgraph st))) tensor_id = Some pos ->
  Schema.tensors (gs_subgraph st) !! pos = Some tensor ->
  quant_params_to_tflite_type (UQP.num_bits quant_params) = Ok ty ->
  (Schema.buffer tensor = 0
   \/ UQP.quantized_data quant_params = None
   \/ is_Some (py_position (length (gs_buffers st)) (Schema.buffer tensor))) ->
  exists st',
    quantize_tensor fresh tensor_id st quant_params
    = (Ok {| op_id := 0; num_ops_added := 0; output_tensor_id := tensor_id |},
       st').
Proof.
  intros Hpos Ht Hty Hbuf. unfold quantize_tensor. rewrite Hpos, Ht, Hty.
  destruct (decide (Schema.buffer tensor = 0)) as [Hb|Hb].
  { rewrite bool_decide_eq_false_2 by tauto. by eexists. }
  rewrite bool_decide_eq_true_2 by done.
  destruct (UQP.quantized_data quant_params) as [qd|]; [|by eexists].
  destruct Hbuf as [?|[?|[bpos Hbpos]]]; [done|done|].
  rewrite Hbpos. pose proof (py_position_lt _ _ _ Hbpos) as Hlt.
  destruct (lookup_lt_is_Some_2 (gs_buffers st) bpos Hlt) as [b ->].
  by eexists.
Qed.

End QuantizeTensorFacts.

(** C7.  A successful QUANTIZE_TENSOR edit reports no added operator and the
    id of the edited tensor; the tensor list changes at the edited position
    only, where the tensor keeps name, shape and buffer index and receives
    scale, zero-point and quantized-dimension metadata and the integer type
    of the bit-width: INT8 for every width up to 8, INT16, INT32 and INT64
    for the widths 16, 32 and 64; the backing buffer of a tensor with a
    non-zero buffer index is overwritten with the quantized bytes when
    quantized data is provided, and the buffer list is otherwise unchanged;
    the operator list is never touched.  The edit succeeds whenever the
    tensor id is a valid subscript, the bit-width is one of these and the
    buffer to write, if any, exists. *)
Theorem quantize_tensor_edits_one_tensor :
  forall (NP : Numpy) (fresh : QuantizationParameters) (tensor_id : Z)
         (st : graph_state) (quant_params : UniformQuantParams),
    Schema.operators
      (gs_subgraph (quantize_tensor fresh tensor_id st quant_params).2)
    = Schema.operators (gs_subgraph st)
    /\ (forall info st',
          quantize_tensor fresh tensor_id st quant_params = (Ok info, st') ->
          num_ops_added info = 0
          /\ output_tensor_id info = tensor_id
          /\ exists pos tensor ty,
              py_position (length (Schema.tensors (gs_subgraph st))) tensor_id
              = Some pos
              /\ Schema.tensors (gs_subgraph st) !! pos = Some tensor
              /\ quant_params_to_tflite_type (UQP.num_bits quant_params)
                 = Ok ty
              /\ ((UQP.num_bits quant_params <= 8 /\ ty = Schema.INT8)
                  \/ (UQP.num_bits quant_params = 16 /\ ty = Schema.INT16)
                  \/ (UQP.num_bits quant_params = 32 /\ ty = Schema.INT32)
                  \/ (UQP.num_bits quant_params = 64 /\ ty = Schema.INT64))
              /\ Schema.tensors (gs_subgraph st') !! pos
                 = Some (quantized_tensor fresh tensor ty quant_params)
              /\ length (Schema.tensors (gs_subgraph st'))
                 = length (Schema.tensors (gs_subgraph st))
              /\ (forall j, j <> pos ->
                    Schema.tensors (gs_subgraph st') !! j
                    = Schema.tensors (gs_subgraph st) !! j)
              /\ buffers_after (gs_buffers st) (gs_buffers st') tensor
                   quant_params)
    /\ (forall pos tensor,
          py_position (length (Schema.tensors (gs_subgraph st))) tensor_id
          = Some pos ->
          Schema.tensors (gs_subgraph st) !! pos = Some tensor ->
          (UQP.num_bits quant_params <= 8
           \/ UQP.num_bits quant_params = 16
           \/ UQP.num_bits quant_params = 32
           \/ UQP.num_bits quant_params = 64) ->
          (Schema.buffer tensor = 0
           \/ UQP.quantized_data quant_params = None
           \/ is_Some (py_position (length (gs_buffers st))
                         (Schema.buffer tensor))) ->
          exists st',
            quantize_tensor fresh tensor_id st quant_params
            = (Ok {| op_id := 0; num_ops_added := 0;
                     output_tensor_id := tensor_id |}, st')).
Proof.
  intros NP fresh tensor_id st quant_params.
  split; [apply quantize_tensor_operators|]. split.
  - intros info st' Hrun.
    destruct (quantize_tensor_ok _ _ _ _ _ _ Hrun)
      as (-> & pos & tensor & ty & Hpos & Ht & Hty & Hts & Hbuf).
    split; [done|]. split; [done|]. exists pos, tensor, ty.
    rewrite Hts. repeat split; try done.
    + by apply quant_params_to_tflite_type_ok.
    + apply list_lookup_insert_eq. by apply py_position_lt in Hpos.
    + apply length_insert.
    + intros j Hj. by apply list_lookup_insert_ne.
  - intros pos tensor Hpos Ht Hbits.
    assert (exists ty, quant_params_to_tflite_type (UQP.num_bits quant_params)
                       = Ok ty) as [ty Hty].
    { destruct Hbits as [?|[?|[?|?]]];
        [exists Schema.INT8|exists Schema.INT16|exists Schema.INT32
        |exists Schema.INT64];
        apply quant_params_to_tflite_type_ok; tauto. }
    by eapply quantize_tensor_succeeds.
Qed.

Lemma quantize_tensor_edits_one_tensor_witness :
  exists st',
    @quantize_tensor example_numpy example_fresh_quantization 0
      example_graph_state example_quant_params
    = (Ok {| op_id := 0; num_ops_added := 0; output_tensor_id := 0 |}, st')
    /\ Schema.tensors (gs_subgraph st') !! 0%nat
       = Some (@quantized_tensor example_numpy example_fresh_quantization
                 example_quantized_tensor Schema.INT8 example_quant_params).
Proof.
  destruct (quantize_tensor_edits_one_tensor example_numpy
              example_fresh_quantization 0 example_graph_state
              example_quant_params) as (_ & Hedit & Hruns).
  destruct (Hruns 0%nat example_quantized_tensor eq_refl eq_refl
              ltac:(left; cbn; lia) ltac:(right; right; by eexists))
    as [st' Hst'].
  exists st'. split; [exact Hst'|].
  destruct (Hedit _ _ Hst')
    as (_ & _ & pos & tensor & ty & Hpos & Ht & _ & Hty & Hts & _).
  cbn in Hpos. injection Hpos as <-. cbn in Ht. injection Ht as <-.
  change (Z.to_nat 0) with 0%nat in Hts.
  rewrite Hts. f_equal. f_equal.
  destruct Hty as [[_ ->]|[[Hb _]|[[Hb _]|[Hb _]]]];
    [reflexivity|discriminate Hb..].
Defined.

(* ===================================================================== *)
(** ** Bias quantization *)
(* ===================================================================== *)

(** C6.  The bias parameters are always symmetric with one zero-point per
    scale entry, each exactly 0; the scale holds the products of input scale
    and weight scale entries, so for a per-tensor input scale [s] it is the
    weight scale multiplied entry by entry by [s] (one entry per channel of a
    per-channel weight, a single entry otherwise); the bit-width is 32 for an
    8-bit input and 64 for every other input bit-width. *)
Theorem quantizeBias_symmetric_zero_point_scale_bits :
  forall (scalar : Type) (scalar_mul : scalar -> scalar -> scalar)
         (content : Type)
         (quantize : content -> BiasQuantParams scalar content -> content)
         (biasValues : content)
         (inputParams weightParams : BiasQuantParams scalar content),
    let bias := quantizeBias scalar scalar_mul content quantize biasValues
                  inputParams weightParams in
    bq_symmetric _ _ bias = true
    /\ Forall (fun zp => zp = 0) (bq_zero_point _ _ bias)
    /\ length (bq_zero_point _ _ bias) = length (bq_scale _ _ bias)
    /\ (forall (i j : nat) s_in s_w,
          bq_scale _ _ inputParams !! i = Some s_in ->
          bq_scale _ _ weightParams !! j = Some s_w ->
          bq_scale _ _ bias
            !! (i * length (bq_scale _ _ weightParams) + j)%nat
          = Some (scalar_mul s_in s_w))
    /\ length (bq_scale _ _ bias)
       = (length (bq_scale _ _ inputParams)
          * length (bq_scale _ _ weightParams))%nat
    /\ (forall s_in,
          bq_scale _ _ inputParams = [s_in] ->
          bq_scale _ _ bias = map (scalar_mul s_in) (bq_scale _ _ weightParams))
    /\ (bq_num_bits _ _ inputParams = 8 -> bq_num_bits _ _ bias = 32)
    /\ (bq_num_bits _ _ inputParams <> 8 -> bq_num_bits _ _ bias = 64).
Proof.
  intros scalar scalar_mul content quantize biasValues inputParams weightParams.
  cbv zeta. unfold quantizeBias; cbn.
  set (ws := bq_scale _ _ weightParams). set (ins := bq_scale _ _ inputParams).
  assert (forall l : list scalar,
             length (flat_map (fun s_in => map (scalar_mul s_in) ws) l)
             = (length l * length ws)%nat) as Hlen.
  { induction l as [|a l IH]; cbn; [done|].
    by rewrite length_app, length_map, IH. }
  split; [done|]. split.
  { apply Forall_forall. by intros zp [? [-> _]]%list_elem_of_fmap. }
  split; [by rewrite length_map|]. split.
  { clearbody ins. clear -Hlen. induction ins as [|a l IH]; intros i j s_in s_w Hi Hj.
    - done.
    - cbn [flat_map]. destruct i as [|i]; cbn in Hi.
      + injection Hi as ->. cbn. rewrite lookup_app_l.
        * by rewrite list_lookup_fmap, Hj.
        * rewrite length_map. by apply lookup_lt_Some in Hj.
      + rewrite lookup_app_r; rewrite length_map; [|lia].
        replace (S i * length ws + j - length ws)%nat
          with (i * length ws + j)%nat by lia.
        by apply IH. }
  split; [apply Hlen|]. split.
  { intros s_in Hin. subst ins. rewrite Hin. cbn. apply app_nil_r. }
  split.
  - intros ->. reflexivity.
  - intros Hne. by rewrite (proj2 (Z.eqb_neq _ _) Hne).
Qed.

(* ===================================================================== *)
(** ** The tensor materializer *)
(* ===================================================================== *)

Section MaterializerFacts.
Context `{UniformQuantizeTensor}.

Lemma selected_config_None_activation op_info is_constant :
  selected_config op_info is_constant = None ->
  activation_tensor_config (op_quant_config op_info) = None.
Proof. unfold selected_config. by destruct (_ && _). Qed.

Lemma selected_config_activation op_info :
  selected_config op_info false
  = activation_tensor_config (op_quant_config op_info).
Proof. reflexivity. Qed.

Lemma selected_config_not_weight_op op_info is_constant :
  op_name op_info ∉ _SUPPORTED_WEIGHT_ONLY_OPS ++ _SUPPORTED_DRQ_OPS ->
  selected_config op_info is_constant
  = activation_tensor_config (op_quant_config op_info).
Proof.
  intros Hop. unfold selected_config.
  rewrite (bool_decide_eq_false_2 _ Hop). by rewrite andb_false_r.
Qed.

Lemma selected_config_weight_op op_info :
  op_name op_info ∈ _SUPPORTED_WEIGHT_ONLY_OPS ++ _SUPPORTED_DRQ_OPS ->
  selected_config op_info true
  = Some (weight_tensor_config (op_quant_config op_info)).
Proof.
  intros Hop. unfold selected_config.
  by rewrite (bool_decide_eq_true_2 _ Hop).
Qed.



(** The wrapper, with the constness test and the configuration choice named. *)
Lemma wrapper_unfold tensor inb op_info graph_info qsv quant_params :
  _get_tensor_transformation_params_wrapper tensor inb op_info graph_info qsv
    quant_params
  = (tensor_data ← get_tensor_data tensor (buffers graph_info);
     let is_constant := bool_decide (tensor_data <> None) in
     quant_params ←
       match quant_params, selected_config op_info is_constant with
       | None, Some cfg =>
           tensor_min_max ←
             match qsv !! get_tensor_name tensor with
             | None =>
                 if is_constant
                 then init_tensor_min_max tensor graph_info op_info 0 6
                 else Err (missing_qsv_error (get_tensor_name tensor))
             | Some v => Ok v
             end;
           qp ← _get_tensor_quant_params op_info tensor_min_max cfg tensor_data;
           Ok (Some qp)
       | _, _ => Ok quant_params
       end;
     Ok (get_tensor_transformation_params (get_tensor_name tensor) op_info
           inb quant_params is_constant)).
Proof. reflexivity. Qed.

Lemma wrapper_given tensor inb op_info graph_info qsv p :
  _get_tensor_transformation_params_wrapper tensor inb op_info graph_info qsv
    (Some p)
  = (tensor_data ← get_tensor_data tensor (buffers graph_info);
     Ok (get_tensor_transformation_params (get_tensor_name tensor) op_info
           inb (Some p) (bool_decide (tensor_data <> None)))).
Proof. reflexivity. Qed.

Lemma wrapper_ok_inv tensor inb op_info graph_info qsv quant_params r :
  _get_tensor_transformation_params_wrapper tensor inb op_info graph_info qsv
    quant_params = Ok r ->
  exists tensor_data qp,
    get_tensor_data tensor (buffers graph_info) = Ok tensor_data
    /\ r = get_tensor_transformation_params (get_tensor_name tensor) op_info
             inb qp (bool_decide (tensor_data <> None))
    /\ (forall p, quant_params = Some p -> qp = Some p)
    /\ (quant_params = None ->
        (qp = None <->
         selected_config op_info (bool_decide (tensor_data <> None)) = None)).
Proof.
  rewrite wrapper_unfold.
  destruct (get_tensor_data tensor (buffers graph_info)) as [d|] eqn:Hd;
    [|done].
  cbn. destruct quant_params as [p|].
  - cbn. intros [= <-]. exists d, (Some p). repeat split; try done.
  - destruct (selected_config op_info _) as [cfg|] eqn:Hcfg.
    + destruct (match qsv !! get_tensor_name tensor with
                | Some v => _ | None => _ end) as [mm|]; [|done].
      cbn. destruct (_get_tensor_quant_params _ _ _ _) as [q|]; [|done].
      cbn. intros [= <-]. exists d, (Some q). repeat split; try done.
      congruence.
    + cbn. intros [= <-]. exists d, None. repeat split; try done.
Qed.

Lemma materialize_op_tensors_mapM acc ts inb op_info graph_info qsv qp :
  _materialize_op_tensors acc ts inb op_info graph_info qsv qp
  = (rs ← mapM_result
            (fun t => _get_tensor_transformation_params_wrapper t inb op_info
                        graph_info qsv qp) ts;
     Ok (acc ++ rs)).
Proof.
  unfold _materialize_op_tensors. revert acc.
  induction ts as [|t ts IH]; intros acc; cbn.
  - by rewrite app_nil_r.
  - destruct (_get_tensor_transformation_params_wrapper t _ _ _ _ _) as [r|];
      [|done].
    cbn. rewrite IH.
    destruct (mapM_result _ ts) as [rs|]; [|done].
    cbn. by rewrite <- app_assoc.
Qed.

Lemma mapM_result_ok_inv {A B} (f : A -> result B) xs ys :
  mapM_result f xs = Ok ys -> Forall2 (fun x y => f x = Ok y) xs ys.
Proof.
  revert ys. induction xs as [|x xs IH]; intros ys; cbn.
  - intros [= <-]. constructor.
  - destruct (f x) as [y|] eqn:Hy; [|done]. cbn.
    destruct (mapM_result f xs) as [ys'|]; [|done]. cbn.
    intros [= <-]. constructor; [done | by apply IH].
Qed.

Lemma mapM_result_ok {A B} (f : A -> result B) xs ys :
  Forall2 (fun x y => f x = Ok y) xs ys -> mapM_result f xs = Ok ys.
Proof.
  induction 1 as [|x y xs ys Hy _ IH]; cbn; [done|].
  by rewrite Hy, IH.
Qed.

Lemma qsv_overwrite_lookup (outs : list Tensor) (v : QSV) (qsv : QSVMap) k :
  fold_left (fun m o => <[get_tensor_name o := v]> m) outs qsv !! k
  = if decide (k ∈ map get_tensor_name outs) then Some v else qsv !! k.
Proof.
  revert qsv. induction outs as [|o outs IH]; intros qsv; cbn [fold_left map].
  - destruct (decide (k ∈ [])) as [[]%elem_of_nil|]; done.
  - rewrite IH.
    destruct (decide (k ∈ map get_tensor_name outs)) as [Hin|Hin].
    + rewrite decide_True; [done|]. apply elem_of_cons. auto.
    + destruct (decide (k = get_tensor_name o)) as [->|Hne].
      * rewrite lookup_insert_eq. rewrite decide_True; [done|].
        apply elem_of_cons. auto.
      * rewrite lookup_insert_ne by done. rewrite decide_False; [done|].
        intros [?|?]%elem_of_cons; done.
Qed.


End MaterializerFacts.




Section SameAsInputScale.
Context `{UniformQuantizeTensor}.

Lemma wrapper_inbound_consumer tensor op_info graph_info qsv pin :
  _get_tensor_transformation_params_wrapper tensor true op_info graph_info
    qsv None = Ok pin ->
  exists c,
    consumers pin = Some [c]
    /\ tensor_name pin = get_tensor_name tensor
    /\ (parameters c = None ->
        activation_tensor_config (op_quant_config op_info) = None).
Proof.
  intros Hw. apply wrapper_ok_inv in Hw as (d & qp & _ & -> & _ & Hnone).
  eexists. split; [reflexivity|]. split; [reflexivity|].
  cbn. intros ->. eapply selected_config_None_activation.
  by apply Hnone.
Qed.

Lemma wrapper_output_entry output op_info graph_info qsv c entry :
  (parameters c = None ->
   activation_tensor_config (op_quant_config op_info) = None) ->
  _get_tensor_transformation_params_wrapper output false op_info graph_info
    qsv (parameters c) = Ok entry ->
  output_entry_of op_info graph_info c output entry.
Proof.
  intros Hact Hw.
  apply wrapper_ok_inv in Hw as (d & qp & Hd & -> & Hsome & Hnone).
  split; [reflexivity|]. split; [reflexivity|].
  eexists. split; [reflexivity|]. split; [reflexivity|]. cbn.
  unfold hands_on_parameters.
  destruct (parameters c) as [p|] eqn:Hp.
  { split; [|by left]. intros _. by apply Hsome. }
  specialize (Hnone eq_refl). specialize (Hact eq_refl). split.
  - intros [Hne|[Hdata|Hop]]; [done| |].
    + apply Hnone. rewrite Hdata in Hd. injection Hd as <-.
      rewrite bool_decide_eq_false_2 by (intros Hn; by apply Hn).
      by rewrite selected_config_activation.
    + apply Hnone. by rewrite selected_config_not_weight_op.
  - intros Hqp. apply Hnone in Hqp. right.
    destruct d as [data|]; [|by left]. right. intros Hop.
    rewrite bool_decide_eq_true_2 in Hqp by done.
    by rewrite selected_config_weight_op in Hqp.
Qed.

Lemma same_as_input_scale_ok_inv ins outs op_info graph_info qsv res qsv' :
  _materialize_standard_op_with_same_as_input_scale ins outs op_info
    graph_info qsv = Ok (res, qsv') ->
  exists t pin c v pouts,
    ins = [t]
    /\ _get_tensor_transformation_params_wrapper t true op_info graph_info
         qsv None = Ok pin
    /\ consumers pin = Some [c]
    /\ (parameters c = None ->
        activation_tensor_config (op_quant_config op_info) = None)
    /\ qsv !! get_tensor_name t = Some v
    /\ res = pin :: pouts
    /\ Forall2 (output_entry_of op_info graph_info c) outs pouts
    /\ qsv' = fold_left (fun m o => <[get_tensor_name o := v]> m) outs qsv.
Proof.
  unfold _materialize_standard_op_with_same_as_input_scale,
    _get_single_tensor_params.
  destruct ins as [|t [|t' ins]]; [done| |done].
  destruct (_get_tensor_transformation_params_wrapper t _ _ _ _ _)
    as [pin|] eqn:Hpin; [|done].
  destruct (wrapper_inbound_consumer _ _ _ _ _ Hpin) as (c & Hc & Hname & Hact).
  cbn. unfold first_consumer. rewrite Hc. cbn.
  rewrite materialize_op_tensors_mapM.
  destruct (mapM_result _ outs) as [pouts|] eqn:Hmap; [|done]. cbn.
  rewrite Hname.
  destruct (qsv !! get_tensor_name t) as [v|] eqn:Hv; [|done].
  intros [= <- <-]. exists t, pin, c, v, pouts.
  repeat split; try done.
  apply mapM_result_ok_inv in Hmap.
  induction Hmap as [|o po outs pouts Hw _ IH]; constructor; [|exact IH].
  by eapply wrapper_output_entry.
Qed.

Lemma same_as_input_scale_succeeds t outs op_info graph_info qsv pin c p v :
  _get_tensor_transformation_params_wrapper t true op_info graph_info qsv
    None = Ok pin ->
  consumers pin = Some [c] ->
  parameters c = Some p ->
  qsv !! get_tensor_name t = Some v ->
  Forall (fun o => is_ok (get_tensor_data o (buffers graph_info)) = true)
    outs ->
  exists pouts,
    _materialize_standard_op_with_same_as_input_scale [t] outs op_info
      graph_info qsv
    = Ok (pin :: pouts,
          fold_left (fun m o => <[get_tensor_name o := v]> m) outs qsv).
Proof.
  intros Hpin Hc Hp Hv Houts.
  unfold _materialize_standard_op_with_same_as_input_scale,
    _get_single_tensor_params.
  rewrite Hpin. cbn. unfold first_consumer. rewrite Hc. cbn.
  rewrite materialize_op_tensors_mapM, Hp.
  assert (exists pouts,
             mapM_result
               (fun o => _get_tensor_transformation_params_wrapper o false
                           op_info graph_info qsv (Some p)) outs
             = Ok pouts) as [pouts Hmap].
  { induction Houts as [|o outs Ho _ [pouts IH]]; [by exists []|].
    cbn. rewrite wrapper_given.
    destruct (get_tensor_data o (buffers graph_info)) as [d|]; [|done].
    cbn. rewrite IH. cbn. by eexists. }
  rewrite Hmap. cbn.
  destruct (wrapper_inbound_consumer _ _ _ _ _ Hpin) as (c' & _ & -> & _).
  rewrite Hv. by exists pouts.
Qed.

End SameAsInputScale.

(** C4.  Materialization under SAME_AS_INPUT_SCALE, for the input tensors and
    output tensors the operator keeps (neither ignored nor absent).  If the
    inputs are not exactly one, the error for ambiguous propagation is
    raised.  If the materialization returns, there is a single input whose
    statistics entry exists, the result lists the input's entry followed by
    one producer entry per output, and the statistics map afterwards holds
    the input's entry under every output name and is unchanged elsewhere.
    An output entry carries the parameters of the input entry exactly when
    the input has parameters to hand on, or the output is an activation, or
    the operator is without weight support; an input is without parameters
    only if the operator has no activation configuration.  In the one
    remaining case, a constant output of an operator with weight support
    whose input has no parameters, the output's parameters differ from the
    input's.  With a single input that obtained parameters, statistics for
    it, and readable outputs, the materialization does return. *)
Theorem same_as_input_scale_materialization :
  forall (NP : Numpy) (UQ : UniformQuantizeTensor) (op_info : OpInfo)
         (graph_info : GraphInfo) (qsv : QSVMap)
         (inputs_to_ignore outputs_to_ignore : list Z)
         (ins outs : list Tensor),
    select_tensors (subgraph_tensors graph_info) inputs_to_ignore 0
      (Schema.inputs (op op_info)) [] = Ok ins ->
    select_tensors (subgraph_tensors graph_info) outputs_to_ignore 0
      (Schema.outputs (op op_info)) [] = Ok outs ->
    (length ins <> 1%nat ->
     materialize_standard_op op_info graph_info qsv SAME_AS_INPUT_SCALE
       inputs_to_ignore outputs_to_ignore = Err single_tensor_error)
    /\ (forall res qsv',
          materialize_standard_op op_info graph_info qsv SAME_AS_INPUT_SCALE
            inputs_to_ignore outputs_to_ignore = Ok (res, qsv') ->
          exists t pin c v pouts,
            ins = [t]
            /\ _get_tensor_transformation_params_wrapper t true op_info
                 graph_info qsv None = Ok pin
            /\ consumers pin = Some [c]
            /\ (parameters c = None ->
                activation_tensor_config (op_quant_config op_info) = None)
            /\ qsv !! get_tensor_name t = Some v
            /\ res = pin :: pouts
            /\ Forall2 (output_entry_of op_info graph_info c) outs pouts
            /\ forall k,
                qsv' !! k
                = if decide (k ∈ map get_tensor_name outs) then Some v
                  else qsv !! k)
    /\ (forall t pin c p v,
          ins = [t] ->
          _get_tensor_transformation_params_wrapper t true op_info graph_info
            qsv None = Ok pin ->
          consumers pin = Some [c] ->
          parameters c = Some p ->
          qsv !! get_tensor_name t = Some v ->
          Forall (fun o => is_ok (get_tensor_data o (buffers graph_info)) = true)
            outs ->
          exists pouts qsv',
            materialize_standard_op op_info graph_info qsv
              SAME_AS_INPUT_SCALE inputs_to_ignore outputs_to_ignore
            = Ok (pin :: pouts, qsv')).
Proof.
  intros NP UQ op_info graph_info qsv inputs_to_ignore outputs_to_ignore
    ins outs Hins Houts.
  unfold materialize_standard_op. rewrite Hins, Houts. cbn.
  split; [|split].
  - intros Hlen.
    unfold _materialize_standard_op_with_same_as_input_scale,
      _get_single_tensor_params.
    by destruct ins as [|t [|t' ins]].
  - intros res qsv' Hrun.
    apply same_as_input_scale_ok_inv in Hrun
      as (t & pin & c & v & pouts & -> & Hpin & Hc & Hact & Hv & -> & Hout
          & ->).
    exists t, pin, c, v, pouts. repeat split; try done.
    intros k. apply qsv_overwrite_lookup.
  - intros t pin c p v -> Hpin Hc Hp Hv Hdata.
    destruct (same_as_input_scale_succeeds t outs op_info graph_info qsv
                pin c p v Hpin Hc Hp Hv Hdata) as [pouts Hrun].
    exists pouts. eexists. exact Hrun.
Qed.

Lemma same_as_input_scale_materialization_witness :
  exists pouts qsv',
    @materialize_average_pool_2d example_numpy example_uniform_quantize_tensor
      example_pool_op_info example_graph_info example_qsv_map
    = Ok (example_input_entry :: pouts, qsv').
Proof.
  apply (proj2 (proj2 (same_as_input_scale_materialization example_numpy
                         example_uniform_quantize_tensor example_pool_op_info
                         example_graph_info example_qsv_map [] []
                         [example_activation_tensor] [example_output_tensor]
                         eq_refl eq_refl))
           example_activation_tensor example_input_entry
           example_input_consumer example_input_parameters example_input_qsv).
  - reflexivity.
  - vm_compute. reflexivity.
  - reflexivity.
  - reflexivity.
  - vm_compute. reflexivity.
  - repeat constructor.
Defined.

(** C4, as stated, fails.  A fully-connected operator under a weight-only
    configuration, materialized under SAME_AS_INPUT_SCALE with one
    activation input and a constant output: the input has no parameters,
    and the output receives parameters of its own, computed from the weight
    configuration and its embedded data. *)
Lemma same_as_input_scale_fresh_output_parameters :
  exists pin pout c pr qsv',
    @materialize_standard_op example_numpy example_uniform_quantize_tensor
      example_constant_output_op_info example_graph_info example_qsv_map
      SAME_AS_INPUT_SCALE [] [] = Ok ([pin; pout], qsv')
    /\ tensor_name pin = "input"%string
    /\ consumers pin = Some [c]
    /\ parameters c = None
    /\ tensor_name pout = "weight"%string
    /\ producer pout = Some pr
    /\ parameters pr
       = Some (@UQP.Build_t example_numpy 8 (Some 0) [5] [0] true
                 (Some [3; 5]))
    /\ parameters pr <> parameters c.
Proof.
  exists (@get_tensor_transformation_params example_numpy "input"
            example_constant_output_op_info true None false),
    (@get_tensor_transformation_params example_numpy "weight"
       example_constant_output_op_info false
       (Some (@UQP.Build_t example_numpy 8 (Some 0) [5] [0] true
                (Some [3; 5]))) true),
    (@Build_OpToTensorParams example_numpy 0 [NO_QUANTIZE] None),
    (@Build_OpToTensorParams example_numpy 0 [NO_QUANTIZE]
       (Some (@UQP.Build_t example_numpy 8 (Some 0) [5] [0] true
                (Some [3; 5])))),
    (<["weight"%string := example_input_qsv]> example_qsv_map).
  split; [vm_compute; reflexivity|].
  split; [reflexivity|]. split; [reflexivity|]. split; [reflexivity|].
  split; [reflexivity|]. split; [reflexivity|]. split; [reflexivity|].
  discriminate.
Qed.

(* ===================================================================== *)
(** ** The fused bias of fully-connected and convolution operators *)
(* ===================================================================== *)

Section FusedBias.
Context `{UniformQuantizeTensor}.

Lemma select_tensors_acc ts ign i idxs acc :
  select_tensors ts ign i idxs acc
  = (r ← select_tensors ts ign i idxs []; Ok (acc ++ r)).
Proof.
  revert i acc. induction idxs as [|idx idxs IH]; intros i acc; cbn.
  - by rewrite app_nil_r.
  - destruct (bool_decide (i ∉ ign) && (0 <=? idx)).
    + destruct (py_index ts idx) as [t|]; [|done]. cbn.
      rewrite (IH (i + 1) (acc ++ [t])), (IH (i + 1) [t]).
      destruct (select_tensors ts ign (i + 1) idxs []) as [r|]; [|done].
      cbn. by rewrite <- app_assoc.
    + apply IH.
Qed.

Lemma select_tensors_first_two ts i0 i1 rest ins :
  0 <= i0 -> 0 <= i1 ->
  select_tensors ts [2] 0 (i0 :: i1 :: rest) [] = Ok ins ->
  exists t0 t1 ins',
    py_index ts i0 = Ok t0 /\ py_index ts i1 = Ok t1
    /\ ins = t0 :: t1 :: ins'.
Proof.
  intros H0' H1'. cbn.
  rewrite (bool_decide_eq_true_2 (0 ∉ [2])), (proj2 (Z.leb_le 0 i0) H0').
  2:{ intros [?|[]%elem_of_nil]%elem_of_cons. done. }
  cbn [andb]. destruct (py_index ts i0) as [t0|]; [|done]. cbn.
  rewrite (bool_decide_eq_true_2 (0 + 1 ∉ [2])), (proj2 (Z.leb_le 0 i1) H1').
  2:{ intros [?|[]%elem_of_nil]%elem_of_cons. done. }
  cbn [andb]. destruct (py_index ts i1) as [t1|]; [|done]. cbn.
  rewrite select_tensors_acc.
  destruct (select_tensors ts [2] _ rest []) as [r|]; [|done]. cbn.
  intros [= <-]. by exists t0, t1, r.
Qed.

Lemma no_constraint_ok_inv ins outs op_info graph_info qsv res qsv' :
  _materialize_standard_op_no_constraint ins outs op_info graph_info qsv
  = Ok (res, qsv') ->
  exists pins pouts,
    res = pins ++ pouts /\ qsv' = qsv
    /\ Forall2 (fun t e =>
                  _get_tensor_transformation_params_wrapper t true op_info
                    graph_info qsv None = Ok e) ins pins
    /\ Forall2 (fun t e =>
                  _get_tensor_transformation_params_wrapper t false op_info
                    graph_info qsv None = Ok e) outs pouts.
Proof.
  unfold _materialize_standard_op_no_constraint.
  rewrite !materialize_op_tensors_mapM.
  destruct (mapM_result _ ins) as [pins|] eqn:Hins; [|done]. cbn.
  rewrite materialize_op_tensors_mapM.
  destruct (mapM_result _ outs) as [pouts|] eqn:Houts; [|done]. cbn.
  intros [= <- <-]. exists pins, pouts.
  repeat split; try done; by apply mapM_result_ok_inv.
Qed.

Lemma py_index_nonneg {A} (l : list A) i x :
  0 <= i -> py_index l i = Ok x -> l !! Z.to_nat i = Some x.
Proof.
  intros Hi. unfold py_index.
  rewrite (proj2 (Z.ltb_ge i 0) Hi).
  destruct (_ && _); [|done].
  by destruct (l !! Z.to_nat i) as [y|]; [intros [= ->]|].
Qed.

Lemma parse_bias_present op ts tin tw bias tout :
  parse_fc_bmm_conv_tensors op ts = Ok (tin, tw, Some bias, tout) ->
  exists idx,
    Schema.inputs op !! 2%nat = Some idx /\ idx <> -1
    /\ py_index ts idx = Ok bias.
Proof.
  unfold parse_fc_bmm_conv_tensors. cbv zeta.
  destruct (tensor_at ts (Schema.inputs op) 0) as [a|]; [|done]. cbn.
  destruct (tensor_at ts (Schema.inputs op) 1) as [b|]; [|done]. cbn.
  destruct (2 <? Z.of_nat (length (Schema.inputs op))) eqn:Hlen.
  - destruct (py_index (Schema.inputs op) 2) as [idx|] eqn:Hidx; [|done].
    apply py_index_nonneg in Hidx; [|lia].
    cbn. destruct (bool_decide (idx <> -1)) eqn:Hne.
    + apply bool_decide_eq_true in Hne.
      destruct (py_index ts idx) as [t|] eqn:Ht; [|done]. cbn.
      destruct (tensor_at ts (Schema.outputs op) 0) as [o|]; [|done]. cbn.
      intros [= <- <- <- <-]. exists idx. done.
    + cbn. by destruct (tensor_at ts (Schema.outputs op) 0).
  - cbn. by destruct (tensor_at ts (Schema.outputs op) 0).
Qed.

Lemma materialize_fc_conv_unfold op_info graph_info qsv std qsv' tin tw bias tout :
  materialize_standard_op op_info graph_info qsv NO_CONSTRAIN [2] []
  = Ok (std, qsv') ->
  parse_fc_bmm_conv_tensors (op op_info) (subgraph_tensors graph_info)
  = Ok (tin, tw, Some bias, tout) ->
  materialize_fc_conv op_info graph_info qsv
  = if decide (execution_mode (op_quant_config op_info) = SRQ) then
      bias_content ← get_tensor_data_from_model bias (buffers graph_info)
                       (whole_model_buffer graph_info);
      input_params ← consumer_parameters_at std 0;
      weight_params ← consumer_parameters_at std 1;
      bias_quant_params ← symmetric_quantize_bias_tensor bias_content
                            input_params weight_params;
      Ok (std ++ [bias_entry op_info bias QUANTIZE_TENSOR
                    (Some bias_quant_params)], qsv')
    else
      Ok (std ++ [bias_entry op_info bias NO_QUANTIZE None], qsv').
Proof.
  intros Hstd Hparse. unfold materialize_fc_conv. rewrite Hstd. cbn.
  rewrite Hparse. cbn.
  unfold get_tensor_transformation_params, get_tensor_transformations,
    bias_entry.
  destruct (decide (execution_mode (op_quant_config op_info) = SRQ))
    as [Hmode|Hmode].
  - rewrite (bool_decide_eq_true_2 _ Hmode).
    destruct (get_tensor_data_from_model _ _ _) as [bc|]; [|done]. cbn.
    destruct (consumer_parameters_at std 0) as [p0|]; [|done]. cbn.
    destruct (consumer_parameters_at std 1) as [p1|]; [|done]. cbn.
    by destruct (symmetric_quantize_bias_tensor _ _ _).
  - rewrite (bool_decide_eq_false_2 _ Hmode). cbn.
    destruct (execution_mode (op_quant_config op_info)); done.
Qed.

End FusedBias.

Section FusedBiasSlots.
Context `{UniformQuantizeTensor}.

Lemma result_bind_ok {A B} (a : A) (f : A -> result B) : (Ok a ≫= f) = f a.
Proof. reflexivity. Qed.

Lemma py_index_lookup {A} (l : list A) (n : nat) x :
  l !! n = Some x -> py_index l (Z.of_nat n) = Ok x.
Proof.
  intros Hx. pose proof (lookup_lt_Some _ _ _ Hx) as Hlt.
  unfold py_index. rewrite (proj2 (Z.ltb_ge (Z.of_nat n) 0)) by lia.
  rewrite (proj2 (Z.leb_le 0 (Z.of_nat n))) by lia.
  rewrite (proj2 (Z.ltb_lt (Z.of_nat n) _)) by lia.
  cbn. by rewrite Nat2Z.id, Hx.
Qed.

Lemma consumer_parameters_at_lookup
    (std : list TensorTransformationParams) (n : nat) e c :
  std !! n = Some e -> consumers e = Some [c] ->
  consumer_parameters_at std (Z.of_nat n) = Ok (parameters c).
Proof.
  intros He Hc. unfold consumer_parameters_at.
  rewrite (py_index_lookup _ _ _ He). cbn. unfold first_consumer.
  by rewrite Hc.
Qed.

Lemma standard_op_first_two op_info graph_info qsv std qsv' i0 i1 rest :
  materialize_standard_op op_info graph_info qsv NO_CONSTRAIN [2] []
  = Ok (std, qsv') ->
  Schema.inputs (op op_info) = i0 :: i1 :: rest ->
  0 <= i0 -> 0 <= i1 ->
  exists t0 t1 e0 e1,
    py_index (subgraph_tensors graph_info) i0 = Ok t0
    /\ py_index (subgraph_tensors graph_info) i1 = Ok t1
    /\ _get_tensor_transformation_params_wrapper t0 true op_info graph_info
         qsv None = Ok e0
    /\ _get_tensor_transformation_params_wrapper t1 true op_info graph_info
         qsv None = Ok e1
    /\ std !! 0%nat = Some e0
    /\ std !! 1%nat = Some e1.
Proof.
  intros Hstd Hin Hi0 Hi1. unfold materialize_standard_op in Hstd.
  rewrite Hin in Hstd.
  destruct (select_tensors _ [2] 0 (i0 :: i1 :: rest) []) as [ins|] eqn:Hins;
    [|done].
  destruct (select_tensors_first_two _ _ _ _ _ Hi0 Hi1 Hins)
    as (t0 & t1 & ins' & Ht0 & Ht1 & ->).
  rewrite result_bind_ok in Hstd.
  destruct (select_tensors _ [] 0 _ []) as [outs|]; [|done].
  rewrite result_bind_ok in Hstd.
  rewrite !decide_False in Hstd by done.
  apply no_constraint_ok_inv in Hstd as (pins & pouts & -> & -> & Hpins & _).
  apply Forall2_cons_inv_l in Hpins as (e0 & pins1 & He0 & Hpins & ->).
  apply Forall2_cons_inv_l in Hpins as (e1 & pins2 & He1 & _ & ->).
  by exists t0, t1, e0, e1.
Qed.

End FusedBiasSlots.

(** C5.  Let the operator have a present bias tensor in input slot 2 and let
    the materialization of its other tensors have produced [std].  Under
    STATIC_RANGE the operator's result is [std] followed by a consumer entry
    for the bias tagged [QUANTIZE_TENSOR] whose parameters are those returned
    by the symmetric bias routine applied to the bias content and to the
    parameters of the entries 0 and 1 of [std]; these entries are the
    materialized input (slot 0) and weight (slot 1) when both slots are
    present.  Under DYNAMIC_RANGE and WEIGHT_ONLY the result is [std]
    followed by a bias entry tagged [NO_QUANTIZE] with null parameters. *)
Theorem materialize_fc_conv_fused_bias :
  forall (NP : Numpy) (UQ : UniformQuantizeTensor) (op_info : OpInfo)
         (graph_info : GraphInfo) (qsv qsv' : QSVMap)
         (tin tw bias tout : Tensor)
         (std : list TensorTransformationParams),
    parse_fc_bmm_conv_tensors (op op_info) (subgraph_tensors graph_info)
    = Ok (tin, tw, Some bias, tout) ->
    materialize_standard_op op_info graph_info qsv NO_CONSTRAIN [2] []
    = Ok (std, qsv') ->
    (exists idx,
        Schema.inputs (op op_info) !! 2%nat = Some idx /\ idx <> -1
        /\ py_index (subgraph_tensors graph_info) idx = Ok bias)
    /\ (execution_mode (op_quant_config op_info) = SRQ ->
        materialize_fc_conv op_info graph_info qsv
        = (bias_content ← get_tensor_data_from_model bias
                            (buffers graph_info)
                            (whole_model_buffer graph_info);
           input_params ← consumer_parameters_at std 0;
           weight_params ← consumer_parameters_at std 1;
           bias_quant_params ← symmetric_quantize_bias_tensor bias_content
                                 input_params weight_params;
           Ok (std ++ [bias_entry op_info bias QUANTIZE_TENSOR
                         (Some bias_quant_params)], qsv')))
    /\ (execution_mode (op_quant_config op_info) = DRQ
        \/ execution_mode (op_quant_config op_info) = WEIGHT_ONLY ->
        materialize_fc_conv op_info graph_info qsv
        = Ok (std ++ [bias_entry op_info bias NO_QUANTIZE None], qsv'))
    /\ (forall i0 i1 rest,
          Schema.inputs (op op_info) = i0 :: i1 :: rest ->
          0 <= i0 -> 0 <= i1 ->
          exists t0 t1 e0 e1 c0 c1,
            py_index (subgraph_tensors graph_info) i0 = Ok t0
            /\ py_index (subgraph_tensors graph_info) i1 = Ok t1
            /\ _get_tensor_transformation_params_wrapper t0 true op_info
                 graph_info qsv None = Ok e0
            /\ _get_tensor_transformation_params_wrapper t1 true op_info
                 graph_info qsv None = Ok e1
            /\ consumers e0 = Some [c0] /\ consumers e1 = Some [c1]
            /\ consumer_parameters_at std 0 = Ok (parameters c0)
            /\ consumer_parameters_at std 1 = Ok (parameters c1)).
Proof.
  intros NP UQ op_info graph_info qsv qsv' tin tw bias tout std Hparse Hstd.
  pose proof (materialize_fc_conv_unfold _ _ _ _ _ _ _ _ _ Hstd Hparse) as Hrun.
  split; [by eapply parse_bias_present|]. split; [|split].
  - intros Hmode. rewrite Hrun. by rewrite decide_True.
  - intros Hmode. rewrite Hrun. rewrite decide_False; [done|].
    destruct Hmode as [-> | ->]; discriminate.
  - intros i0 i1 rest Hin Hi0 Hi1.
    destruct (standard_op_first_two _ _ _ _ _ _ _ _ Hstd Hin Hi0 Hi1)
      as (t0 & t1 & e0 & e1 & Ht0 & Ht1 & He0 & He1 & Hs0 & Hs1).
    destruct (wrapper_inbound_consumer _ _ _ _ _ He0) as (c0 & Hc0 & _).
    destruct (wrapper_inbound_consumer _ _ _ _ _ He1) as (c1 & Hc1 & _).
    exists t0, t1, e0, e1, c0, c1. repeat split; try done.
    + by apply (consumer_parameters_at_lookup std 0 e0 c0).
    + by apply (consumer_parameters_at_lookup std 1 e1 c1).
Qed.

Lemma materialize_fc_conv_fused_bias_witness :
  exists std,
    @materialize_fc_conv example_numpy example_uniform_quantize_tensor
      (example_fc_op_info example_weight_only_config) example_graph_info
      example_qsv_map
    = Ok (std ++ [@bias_entry example_numpy
                    (example_fc_op_info example_weight_only_config)
                    example_bias_tensor NO_QUANTIZE None],
          example_qsv_map).
Proof.
  eexists.
  apply (proj1 (proj2 (proj2
    (materialize_fc_conv_fused_bias example_numpy
       example_uniform_quantize_tensor
       (example_fc_op_info example_weight_only_config) example_graph_info
       example_qsv_map example_qsv_map example_activation_tensor
       example_weight_tensor example_bias_tensor example_output_tensor _
       eq_refl eq_refl)))).
  right. reflexivity.
Defined.

(** The static-range end-to-end example of the specification on the example
    graph: calibrated input range [-10, 8], output range [-1, 1]; the input
    gets ADD_QUANTIZE, weight and fused bias QUANTIZE_TENSOR, the output
    ADD_DEQUANTIZE. *)
Lemma materialize_fc_conv_static_range_example :
  exists res qsv',
    @materialize_fc_conv example_numpy example_uniform_quantize_tensor
      (example_fc_op_info example_srq_config) example_graph_info
      example_qsv_map = Ok (res, qsv')
    /\ map (@tensor_name example_numpy) res
       = ["input"; "weight"; "output"; "bias"]%string
    /\ flat_map
         (fun e =>
            match @producer example_numpy e, @consumers example_numpy e with
            | Some p, _ => @transformations example_numpy p
            | None, Some cs => flat_map (@transformations example_numpy) cs
            | None, None => []
            end) res
       = [ADD_QUANTIZE; QUANTIZE_TENSOR; ADD_DEQUANTIZE; QUANTIZE_TENSOR].
Proof. eexists _, _. split; [vm_compute; reflexivity|]. by vm_compute. Qed.

(** The same operator under WEIGHT_ONLY: the weight gets ADD_DEQUANTIZE and
    input, output and bias are left alone. *)
Lemma materialize_fc_conv_weight_only_example :
  exists res qsv',
    @materialize_fc_conv example_numpy example_uniform_quantize_tensor
      (example_fc_op_info example_weight_only_config) example_graph_info
      ∅ = Ok (res, qsv')
    /\ flat_map
         (fun e =>
            match @producer example_numpy e, @consumers example_numpy e with
            | Some p, _ => @transformations example_numpy p
            | None, Some cs => flat_map (@transformations example_numpy) cs
            | None, None => []
            end) res
       = [NO_QUANTIZE; ADD_DEQUANTIZE; NO_QUANTIZE; NO_QUANTIZE].
Proof. eexists _, _. split; [vm_compute; reflexivity|]. by vm_compute. Qed.

(** The model of the bias routine on the cases of
    [test_quantize_bias_tensor]: input scale 0.8, weight scale 0.1 per
    channel; an 8-bit activation with a two-channel weight, and a 16-bit
    activation with a per-tensor weight. *)
Lemma quantizeBias_test_cases :
  let params bits scale qd : BiasQuantParams Q (list Q) :=
    {| bq_scale := scale; bq_zero_point := map (fun _ => 0) scale;
       bq_num_bits := bits; bq_symmetric := false;
       bq_quantized_dimension := qd; bq_quantized_data := None |} in
  let run act_bits weight_bits weight_scale :=
    quantizeBias Q Qmult (list Q) (fun v _ => v) [66 # 1; 88 # 1]%Q
      (params act_bits [4 # 5]%Q None)
      (params weight_bits weight_scale (Some 0)) in
  (bq_num_bits _ _ (run 8 8 [1 # 10; 1 # 10]%Q) = 32
   /\ bq_scale _ _ (run 8 8 [1 # 10; 1 # 10]%Q) = [4 # 50; 4 # 50]%Q
   /\ bq_zero_point _ _ (run 8 8 [1 # 10; 1 # 10]%Q) = [0; 0]
   /\ bq_quantized_dimension _ _ (run 8 8 [1 # 10; 1 # 10]%Q) = Some 0)
  /\ (bq_num_bits _ _ (run 16 8 [1 # 10]%Q) = 64
      /\ bq_scale _ _ (run 16 8 [1 # 10]%Q) = [4 # 50]%Q
      /\ bq_zero_point _ _ (run 16 8 [1 # 10]%Q) = [0]
      /\ bq_symmetric _ _ (run 16 8 [1 # 10]%Q) = true
      /\ bq_quantized_dimension _ _ (run 16 8 [1 # 10]%Q) = None).
Proof. repeat split; reflexivity. Qed.

(* ===================================================================== *)
(** * Further properties of the modelled functions *)
(* ===================================================================== *)

(* ===================================================================== *)
(** ** The recipe manager: resolution, adding and loading *)
(* ===================================================================== *)

Section RecipeManagerResolveFacts.
Variable NO_QUANT : string.
Variable is_op_registered : string -> TFLOperationName -> bool.
Variable default_op_config : OpQuantizationConfig.
Variable re_search : string -> string -> bool.

Local Abbreviation add :=
  (add_quantization_config NO_QUANT is_op_registered default_op_config).
Local Abbreviation resolve :=
  (get_quantization_configs NO_QUANT default_op_config re_search).

Lemma elem_of_applicable_rules self target scope_name r :
  r ∈ applicable_rules re_search self target scope_name ->
  applies_to re_search self target scope_name r.
Proof using Type.
  clear NO_QUANT is_op_registered default_op_config.
  unfold applicable_rules, applies_to. rewrite list_elem_of_In, in_flat_map.
  intros ([rx rules] & Hin & Hr). apply list_elem_of_In in Hin.
  destruct (re_search rx scope_name) eqn:Hrx.
  - apply list_elem_of_In, list_elem_of_filter in Hr as [Hop Hr]. eauto 10.
  - destruct Hr.
Qed.

(** The running result of a scan is the start value or was set by one of
    the scanned rules, and its algorithm changes only by an overriding
    rule. *)
Lemma fold_apply_rule_origin rs res :
  let res' := fold_left apply_rule rs res in
  (res' = res
   \/ exists r, r ∈ rs /\ res' = (algorithm_key r, op_config r))
  /\ (res'.1 = res.1
      \/ exists r, r ∈ rs /\ override_algorithm r = true
                   /\ res'.1 = algorithm_key r).
Proof using Type.
  drop_context. revert res.
  induction rs as [|r rs IH]; intros res; cbn [fold_left]; [by split; left|].
  destruct (IH (apply_rule res r)) as [Hcfg Hkey]. cbv zeta.
  assert (apply_rule res r = res
          \/ (apply_rule res r = (algorithm_key r, op_config r)
              /\ (algorithm_key r = res.1 \/ override_algorithm r = true)))
    as Hstep.
  { unfold apply_rule. destruct (decide (algorithm_key r = res.1)) as [He|Hne].
    - right. rewrite <- He. auto.
    - destruct (override_algorithm r); auto. }
  split.
  - destruct Hcfg as [->|(r' & Hin & ->)].
    + destruct Hstep as [->|[-> _]]; [by left|].
      right. exists r. split; [apply elem_of_cons; auto|done].
    + right. exists r'. split; [apply elem_of_cons; auto|done].
  - destruct Hkey as [->|(r' & Hin & Hov & ->)].
    + destruct Hstep as [->|[-> [He|Hov]]]; [by left|by left|].
      right. exists r. split; [apply elem_of_cons; auto|done].
    + right. exists r'. split; [apply elem_of_cons; auto|done].
Qed.

End RecipeManagerResolveFacts.

(** X1.  A query never resolves to something that is not stored: the
    result is the sentinel pair, or the algorithm and configuration of one
    stored rule whose scope regex matches the scope name and whose operation
    is the wildcard or the target; and its algorithm is the sentinel or the
    algorithm of such a rule with [override_algorithm] set, so a rule without
    it never introduces an algorithm. *)
Theorem get_quantization_configs_result_is_stored :
  forall (NO_QUANT : string) (default_op_config : OpQuantizationConfig)
         (re_search : string -> string -> bool)
         (self : scope_configs) (target : TFLOperationName)
         (scope_name : string),
    (get_quantization_configs NO_QUANT default_op_config re_search
       self target scope_name = (NO_QUANT, default_op_config)
     \/ exists r,
         applies_to re_search self target scope_name r
         /\ get_quantization_configs NO_QUANT default_op_config re_search
              self target scope_name = (algorithm_key r, op_config r))
    /\ ((get_quantization_configs NO_QUANT default_op_config re_search
           self target scope_name).1 = NO_QUANT
        \/ exists r,
            applies_to re_search self target scope_name r
            /\ override_algorithm r = true
            /\ (get_quantization_configs NO_QUANT default_op_config
                  re_search self target scope_name).1 = algorithm_key r).
Proof.
  intros NO_QUANT default_op_config re_search self target scope_name.
  unfold get_quantization_configs.
  rewrite RecipeManagerFacts.resolve_from.
  destruct (fold_apply_rule_origin
              (applicable_rules re_search self target scope_name)
              (NO_QUANT, default_op_config)) as [Hcfg Hkey].
  split.
  - destruct Hcfg as [Heq|(r & Hin & Heq)]; [by left|].
    right. exists r. split; [|done].
    by apply elem_of_applicable_rules.
  - destruct Hkey as [Heq|(r & Hin & Hov & Heq)]; [by left|].
    right. exists r. split; [|done].
    by apply elem_of_applicable_rules.
Qed.

(** X2.  When no stored rule applies to a query (every scope either does
    not match the scope name or holds no rule for the wildcard or the target
    operation), the query resolves to the sentinel algorithm with the default
    configuration; an empty manager is the simplest case. *)
Theorem get_quantization_configs_no_applicable_rule :
  forall (NO_QUANT : string) (default_op_config : OpQuantizationConfig)
         (re_search : string -> string -> bool)
         (self : scope_configs) (target : TFLOperationName)
         (scope_name : string),
    Forall (fun kv : string * list OpQuantizationRecipe =>
              re_search kv.1 scope_name = false
              \/ Forall (fun r => operation r <> ALL
                                  /\ operation r <> target) kv.2) self ->
    get_quantization_configs NO_QUANT default_op_config re_search
      self target scope_name
    = (NO_QUANT, default_op_config).
Proof.
  intros NO_QUANT default_op_config re_search self target scope_name Hall.
  unfold get_quantization_configs.
  generalize (NO_QUANT, default_op_config) as res.
  induction Hall as [|[rx rules] self Hkv _ IH]; intros res; [reflexivity|].
  cbn [fold_left]. rewrite IH.
  cbn [fst snd] in Hkv.
  destruct (re_search rx scope_name); [|done].
  destruct Hkv as [|Hrules]; [done|].
  clear IH. revert res.
  induction Hrules as [|r rules [Hall Htgt] _ IHr]; intros res; [done|].
  cbn [fold_left]. rewrite IHr.
  unfold resolve_recipe. destruct res as [k c].
  by rewrite (bool_decide_eq_true_2 _ Hall), (bool_decide_eq_true_2 _ Htgt).
Qed.

Lemma get_quantization_configs_no_applicable_rule_witness :
  example_resolve [(".*"%string, [example_rule_fc])] CONV_2D "model/conv"
  = (example_NO_QUANT, example_default_op_config).
Proof.
  apply get_quantization_configs_no_applicable_rule.
  repeat constructor; discriminate.
Defined.

Section RecipeManagerMoreFacts.
Variable NO_QUANT : string.
Variable is_op_registered : string -> TFLOperationName -> bool.
Variable default_op_config : OpQuantizationConfig.
Variable re_search : string -> string -> bool.

Local Abbreviation add :=
  (add_quantization_config NO_QUANT is_op_registered default_op_config).
Local Abbreviation resolve :=
  (get_quantization_configs NO_QUANT default_op_config re_search).
Local Abbreviation scan_scope scope_name target :=
  (fun (res : string * OpQuantizationConfig)
       '((scope_regex, recipes) : string * list OpQuantizationRecipe) =>
     if re_search scope_regex scope_name
     then fold_left (resolve_recipe target) recipes res
     else res).

Lemma od_get_None_fresh {V} k (d : list (string * V)) :
  od_get k d = None -> k ∉ map fst d.
Proof using Type.
  drop_context.
  induction d as [|[k' v] d IH]; cbn [od_get map fst]; [intros _; apply not_elem_of_nil|].
  destruct (decide (k' = k)) as [->|Hne]; [done|].
  intros Hget. apply not_elem_of_cons. split; [congruence|auto].
Qed.

Lemma od_set_fresh {V} k (v : V) d :
  od_get k d = None -> od_set k v d = d ++ [(k, v)].
Proof using Type.
  drop_context.
  induction d as [|[k' v'] d IH]; cbn [od_get od_set]; [done|].
  destruct (decide (k' = k)) as [->|Hne]; [done|].
  intros Hget. cbn. by rewrite IH.
Qed.

(** [add_quantization_config] succeeds only by storing a rule list under
    its regex. *)
Lemma add_ok_od_set self rx op cfg alg ov self' :
  add self rx op cfg alg ov = Ok self' ->
  exists rules,
    self' = od_set rx rules self
    /\ (od_get rx self = None ->
        rules = [new_rule default_op_config rx op cfg alg ov]).
Proof using Type.
  clear re_search.
  rewrite RecipeManagerFacts.add_unfold. cbv zeta.
  destruct (decide (op = ALL)).
  { intros [= <-]. eauto. }
  destruct (negb _ && negb _); [done|].
  destruct (od_get rx self) as [existing|] eqn:Hget.
  - intros [= <-]. eexists. split; [done|done].
  - intros [= <-]. eauto.
Qed.

Lemma scan_od_set_unmatched scope_name target rx (rules : list OpQuantizationRecipe) self res :
  re_search rx scope_name = false ->
  fold_left (scan_scope scope_name target) (od_set rx rules self) res
  = fold_left (scan_scope scope_name target) self res.
Proof using Type.
  clear NO_QUANT is_op_registered default_op_config.
  intros Hrx. revert res.
  induction self as [|[k v] self IH]; intros res; cbn [od_set fold_left].
  - by rewrite Hrx.
  - destruct (decide (k = rx)) as [->|Hne]; cbn [fold_left].
    + by rewrite Hrx.
    + apply IH.
Qed.

End RecipeManagerMoreFacts.

(** X3.  Adding a rule does not disturb the other scopes: every other regex
    keeps its rule list, the order of the scopes is kept (a new regex goes
    last), and a query whose scope name the added regex does not match
    resolves as before. *)
Theorem add_quantization_config_frame :
  forall (NO_QUANT : string)
         (is_op_registered : string -> TFLOperationName -> bool)
         (default_op_config : OpQuantizationConfig)
         (re_search : string -> string -> bool)
         (self self' : scope_configs) (rx : string) (op : TFLOperationName)
         (cfg : option OpQuantizationConfig) (alg : string) (ov : bool),
    add_quantization_config NO_QUANT is_op_registered default_op_config
      self rx op cfg alg ov = Ok self' ->
    (forall rx', rx' <> rx -> od_get rx' self' = od_get rx' self)
    /\ map fst self'
       = (if decide (rx ∈ map fst self) then map fst self
          else map fst self ++ [rx])
    /\ (forall target scope_name,
          re_search rx scope_name = false ->
          get_quantization_configs NO_QUANT default_op_config re_search
            self' target scope_name
          = get_quantization_configs NO_QUANT default_op_config re_search
              self target scope_name).
Proof.
  intros NO_QUANT is_op_registered default_op_config re_search self self'
    rx op cfg alg ov Hadd.
  apply add_ok_od_set in Hadd as (rules & -> & _).
  split; [|split].
  - intros rx' Hne. apply RecipeManagerFacts.od_get_set_ne. congruence.
  - apply RecipeManagerFacts.od_set_keys.
  - intros target scope_name Hrx. unfold get_quantization_configs.
    by apply scan_od_set_unmatched.
Qed.

Lemma add_quantization_config_frame_witness :
  exists self',
    example_add example_state "model/dense" FULLY_CONNECTED
      (Some example_drq_config) "ptq" true = Ok self'
    /\ map fst self' = [".*"; "model/dense"]%string
    /\ example_resolve self' CONV_2D "model/conv"
       = example_resolve example_state CONV_2D "model/conv".
Proof.
  eexists. split; [reflexivity|].
  destruct (add_quantization_config_frame example_NO_QUANT
              example_is_op_registered example_default_op_config
              example_re_search example_state _ "model/dense" FULLY_CONNECTED
              (Some example_drq_config) "ptq" true eq_refl)
    as (_ & Hkeys & Hres).
  split; [exact Hkeys|].
  apply Hres. reflexivity.
Defined.

Section LastWriteFacts.
Variable NO_QUANT : string.
Variable is_op_registered : string -> TFLOperationName -> bool.
Variable default_op_config : OpQuantizationConfig.

Local Abbreviation add :=
  (add_quantization_config NO_QUANT is_op_registered default_op_config).
Local Abbreviation new_rule := (RecipeInvariant.new_rule default_op_config).

Lemma od_set_set {V} k (v w : V) d :
  od_set k w (od_set k v d) = od_set k w d.
Proof using Type.
  drop_context.
  induction d as [|[k' v'] d IH]; cbn [od_set].
  - by rewrite decide_True.
  - destruct (decide (k' = k)) as [->|Hne]; cbn [od_set].
    + by rewrite decide_True.
    + by rewrite decide_False, IH.
Qed.

Lemma replace_op_replace_op c1 c2 e :
  operation c1 = operation c2 ->
  replace_op c2 (replace_op c1 e) = replace_op c2 e.
Proof using Type.
  drop_context. intros Hop. unfold replace_op.
  destruct (decide (operation e = operation c1)) as [He|He].
  - rewrite decide_True by done. by rewrite decide_True by congruence.
  - done.
Qed.

(** The rule list a scope holds after a rule for [op] was added, rewritten
    by a second rule for the same operation. *)
Lemma rewrite_added_rule c1 c2 existing :
  operation c1 = operation c2 ->
  (if decide (operation c2
              ∈ map operation
                  (if decide (operation c1 ∈ map operation existing)
                   then map (replace_op c1) existing
                   else existing ++ [c1]))
   then map (replace_op c2)
          (if decide (operation c1 ∈ map operation existing)
           then map (replace_op c1) existing
           else existing ++ [c1])
   else (if decide (operation c1 ∈ map operation existing)
         then map (replace_op c1) existing
         else existing ++ [c1]) ++ [c2])
  = if decide (operation c2 ∈ map operation existing)
    then map (replace_op c2) existing
    else existing ++ [c2].
Proof using Type.
  drop_context. intros Hop. rewrite <- Hop.
  destruct (decide (operation c1 ∈ map operation existing)) as [Hin|Hnin].
  - rewrite RecipeManagerFacts.map_operation_replace_op.
    rewrite decide_True by done.
    rewrite map_map. apply map_ext. intros e.
    by apply replace_op_replace_op.
  - rewrite map_app. cbn [map].
    rewrite decide_True by (apply elem_of_app; right; apply elem_of_cons; auto).
    rewrite map_app. cbn [map].
    rewrite (RecipeManagerFacts.map_replace_op_absent c2 existing)
      by (by rewrite <- Hop).
    unfold replace_op at 1. by rewrite decide_True by done.
Qed.

Lemma add_add self rx op cfg1 alg1 ov1 cfg2 alg2 ov2 self1 :
  add self rx op cfg1 alg1 ov1 = Ok self1 ->
  add self1 rx op cfg2 alg2 ov2 = add self rx op cfg2 alg2 ov2.
Proof using Type.
  rewrite !RecipeManagerFacts.add_unfold. cbv zeta.
  destruct (decide (op = ALL)) as [Hall|Hall].
  { intros [= <-]. by rewrite od_set_set. }
  destruct (negb (bool_decide (alg1 = NO_QUANT)) && _); [done|].
  destruct (negb (bool_decide (alg2 = NO_QUANT)) && _); [done|].
  destruct (od_get rx self) as [existing|] eqn:Hget.
  - intros [= <-]. rewrite RecipeManagerFacts.od_get_set_eq, od_set_set.
    f_equal. f_equal.
    apply (rewrite_added_rule (new_rule rx op cfg1 alg1 ov1)
             (new_rule rx op cfg2 alg2 ov2) existing).
    done.
  - intros [= <-]. rewrite RecipeManagerFacts.od_get_set_eq, od_set_set.
    f_equal. f_equal.
    apply (rewrite_added_rule (new_rule rx op cfg1 alg1 ov1)
             (new_rule rx op cfg2 alg2 ov2) []).
    done.
Qed.

End LastWriteFacts.

(** X4.  The last write wins.  After a rule was added for a regex and an
    operation, adding another rule for the same regex and operation leaves the
    manager exactly as if only the second rule had been added, and fails
    exactly when that would; in particular adding the same rule twice is the
    same as adding it once. *)
Theorem add_quantization_config_last_write_wins :
  forall (NO_QUANT : string)
         (is_op_registered : string -> TFLOperationName -> bool)
         (default_op_config : OpQuantizationConfig)
         (self self1 : scope_configs) (rx : string) (op : TFLOperationName)
         (cfg1 cfg2 : option OpQuantizationConfig) (alg1 alg2 : string)
         (ov1 ov2 : bool),
    add_quantization_config NO_QUANT is_op_registered default_op_config
      self rx op cfg1 alg1 ov1 = Ok self1 ->
    add_quantization_config NO_QUANT is_op_registered default_op_config
      self1 rx op cfg2 alg2 ov2
    = add_quantization_config NO_QUANT is_op_registered default_op_config
        self rx op cfg2 alg2 ov2
    /\ add_quantization_config NO_QUANT is_op_registered default_op_config
         self1 rx op cfg1 alg1 ov1 = Ok self1.
Proof.
  intros NO_QUANT is_op_registered default_op_config self self1 rx op
    cfg1 cfg2 alg1 alg2 ov1 ov2 Hadd.
  split.
  - by eapply add_add.
  - transitivity
      (add_quantization_config NO_QUANT is_op_registered default_op_config
         self rx op cfg1 alg1 ov1); [|done].
    by eapply add_add.
Qed.

Lemma add_quantization_config_last_write_wins_witness :
  exists self1,
    example_add example_state ".*" FULLY_CONNECTED (Some example_srq_config)
      "ptq" true = Ok self1
    /\ example_add self1 ".*" FULLY_CONNECTED (Some example_drq_config)
         "other" false
       = example_add example_state ".*" FULLY_CONNECTED
           (Some example_drq_config) "other" false
    /\ example_add self1 ".*" FULLY_CONNECTED (Some example_srq_config)
         "ptq" true = Ok self1.
Proof.
  eexists. split; [reflexivity|].
  apply (add_quantization_config_last_write_wins example_NO_QUANT
           example_is_op_registered example_default_op_config example_state).
  reflexivity.
Defined.

(** X5.  A rule added with [override_algorithm] set under a regex the
    manager does not hold yet is scanned last, so it decides every query it
    applies to: a query for its operation (any operation when it is a
    wildcard rule) in a scope its regex matches resolves to its algorithm and
    configuration. *)
Theorem add_quantization_config_new_scope_decides :
  forall (NO_QUANT : string)
         (is_op_registered : string -> TFLOperationName -> bool)
         (default_op_config : OpQuantizationConfig)
         (re_search : string -> string -> bool)
         (self self' : scope_configs) (rx : string) (op : TFLOperationName)
         (cfg : option OpQuantizationConfig) (alg : string)
         (target : TFLOperationName) (scope_name : string),
    add_quantization_config NO_QUANT is_op_registered default_op_config
      self rx op cfg alg true = Ok self' ->
    od_get rx self = None ->
    re_search rx scope_name = true ->
    op = ALL \/ op = target ->
    get_quantization_configs NO_QUANT default_op_config re_search
      self' target scope_name
    = (alg, default default_op_config cfg).
Proof.
  intros NO_QUANT is_op_registered default_op_config re_search self self'
    rx op cfg alg target scope_name Hadd Hfresh Hrx Hop.
  apply add_ok_od_set in Hadd as (rules & -> & Hrules).
  rewrite (Hrules Hfresh), (od_set_fresh _ _ _ Hfresh).
  unfold get_quantization_configs. rewrite fold_left_app. cbn [fold_left].
  rewrite Hrx. cbn [fold_left].
  destruct (fold_left _ self _) as [k c].
  unfold resolve_recipe, new_rule.
  cbn [operation algorithm_key op_config override_algorithm].
  assert (bool_decide (op <> ALL) && bool_decide (op <> target) = false) as ->.
  { destruct Hop as [->| ->].
    - by rewrite bool_decide_eq_false_2 by (intros Hn; by apply Hn).
    - rewrite (bool_decide_eq_false_2 (target <> target))
        by (intros Hn; by apply Hn).
      apply andb_false_r. }
  destruct (bool_decide (k <> alg)) eqn:Hk; [done|].
  apply bool_decide_eq_false, dec_stable in Hk. by subst.
Qed.

Lemma add_quantization_config_new_scope_decides_witness :
  exists self',
    example_add example_state "model/dense" FULLY_CONNECTED
      (Some example_drq_config) "other" true = Ok self'
    /\ example_resolve self' FULLY_CONNECTED "model/dense"
       = ("other"%string, example_drq_config).
Proof.
  eexists. split; [reflexivity|].
  apply (add_quantization_config_new_scope_decides example_NO_QUANT
           example_is_op_registered example_default_op_config
           example_re_search example_state _ "model/dense" FULLY_CONNECTED
           (Some example_drq_config) "other" FULLY_CONNECTED "model/dense");
    [reflexivity | reflexivity | reflexivity | by right].
Defined.

Section LoadFailure.
Variable NO_QUANT : string.
Variable is_op_registered : string -> TFLOperationName -> bool.
Variable default_op_config : OpQuantizationConfig.
Variable D : Type.
Variable from_dict : D -> OpQuantizationConfig.

Local Abbreviation unregistered :=
  (unregistered NO_QUANT is_op_registered).

Lemma add_dict_err self config :
  (add_dict NO_QUANT is_op_registered default_op_config from_dict self config
   = Err (ValueError "Unsupported operation for algorithm. Please check and update algorithm manager.")
   /\ unregistered config)
  \/ ((exists self',
         add_dict NO_QUANT is_op_registered default_op_config from_dict self
           config = Ok self')
      /\ ~ unregistered config).
Proof using Type.
  unfold add_dict, unregistered. rewrite RecipeManagerFacts.add_unfold. cbv zeta.
  destruct (decide (d_operation config = ALL)) as [Hall|Hall].
  { right. split; [eauto|]. intros [Hn _]. done. }
  destruct (bool_decide (d_algorithm_key config = NO_QUANT)) eqn:Hk;
    cbn [negb andb].
  { right. apply bool_decide_eq_true in Hk. split.
    - destruct (od_get _ _); eauto.
    - intros (_ & Hn & _). done. }
  apply bool_decide_eq_false in Hk.
  destruct (is_op_registered _ _) eqn:Hreg; cbn [negb].
  - right. split.
    + destruct (od_get _ _); eauto.
    + intros (_ & _ & Hn). done.
  - left. done.
Qed.

Lemma load_from_err self recipe :
  foldM (add_dict NO_QUANT is_op_registered default_op_config from_dict)
    self recipe
  = Err (ValueError "Unsupported operation for algorithm. Please check and update algorithm manager.")
  <-> Exists unregistered recipe.
Proof using Type.
  revert self. induction recipe as [|config recipe IH]; intros self;
    cbn [foldM].
  { split; [done|]. intros Hex. inversion Hex. }
  destruct (add_dict_err self config) as [[-> Hun]|[[self' ->] Hok]].
  - split; [intros _; by left|done].
  - change (Ok self' ≫= _) with
      (foldM (add_dict NO_QUANT is_op_registered default_op_config from_dict)
         self' recipe).
    rewrite IH. rewrite Exists_cons. tauto.
Qed.

Lemma load_from_ok self recipe :
  (exists self',
      foldM (add_dict NO_QUANT is_op_registered default_op_config from_dict)
        self recipe = Ok self')
  <-> Forall (fun config => ~ unregistered config) recipe.
Proof using Type.
  revert self. induction recipe as [|config recipe IH]; intros self;
    cbn [foldM].
  { split; [constructor|eauto]. }
  destruct (add_dict_err self config) as [[-> Hun]|[[self' ->] Hok]].
  - split; [intros [? [=]]|]. intros Hall. inversion Hall; subst. done.
  - change (Ok self' ≫= _) with
      (foldM (add_dict NO_QUANT is_op_registered default_op_config from_dict)
         self' recipe).
    rewrite IH. rewrite Forall_cons. tauto.
Qed.

End LoadFailure.

(** X6.  Loading a recipe fails exactly when one of its dictionaries names
    an operation other than the wildcard, an algorithm other than the
    sentinel, and the pair is not registered; the failure is the error of
    [add_quantization_config], and what the manager held before plays no
    role.  Otherwise the load succeeds. *)
Theorem load_quantization_recipe_fails_iff_unregistered :
  forall (NO_QUANT : string)
         (is_op_registered : string -> TFLOperationName -> bool)
         (default_op_config : OpQuantizationConfig)
         (D : Type) (from_dict : D -> OpQuantizationConfig)
         (recipe : list (recipe_dict D)),
    (load_quantization_recipe NO_QUANT is_op_registered default_op_config
       from_dict recipe
     = Err (ValueError "Unsupported operation for algorithm. Please check and update algorithm manager.")
     <-> Exists (unregistered NO_QUANT is_op_registered) recipe)
    /\ ((exists self',
            load_quantization_recipe NO_QUANT is_op_registered
              default_op_config from_dict recipe = Ok self')
        <-> Forall (fun config =>
                      ~ unregistered NO_QUANT is_op_registered config) recipe).
Proof.
  intros NO_QUANT is_op_registered default_op_config D from_dict recipe.
  split.
  - apply (load_from_err NO_QUANT is_op_registered default_op_config D
             from_dict []).
  - apply (load_from_ok NO_QUANT is_op_registered default_op_config D
             from_dict []).
Qed.

(* ===================================================================== *)
(** ** Validation of operator configurations *)
(* ===================================================================== *)

(** X7.  Static-range validation accepts a configuration exactly when the
    operator is in the static-range set, the weight configuration is
    symmetric with 8 bits, or with 4 bits for FULLY_CONNECTED and CONV_2D,
    and there is an activation configuration of integer type with 8 bits, or
    with 16 bits and symmetric.  EMBEDDING_LOOKUP, although listed for 4-bit
    weights, is never accepted, because it is not in the static-range set. *)
Theorem check_srq_config_accepts :
  forall (op_repr : TFLOperationName -> string) (op_name : TFLOperationName)
         (cfg : OpQuantizationConfig),
    check_srq_config op_repr op_name cfg = Ok tt
    <-> (op_name ∈ _SUPPORTED_SRQ_OPS
         /\ symmetric (weight_tensor_config cfg) = true
         /\ (num_bits (weight_tensor_config cfg) = 8
             \/ (num_bits (weight_tensor_config cfg) = 4
                 /\ (op_name = FULLY_CONNECTED \/ op_name = CONV_2D)))
         /\ exists act,
             activation_tensor_config cfg = Some act
             /\ dtype act = INT
             /\ (num_bits act = 8
                 \/ (num_bits act = 16 /\ symmetric act = true))).
Proof.
  intros op_repr op_name [act [wb ws wc wd] mode]. unfold check_srq_config.
  cbn [activation_tensor_config weight_tensor_config num_bits symmetric].
  split.
  - intros Hok.
    destruct (bool_decide (op_name ∉ _SUPPORTED_SRQ_OPS)) eqn:Hop; [done|].
    apply bool_decide_eq_false, dec_stable in Hop.
    destruct act as [[ab asym ac ad]|]; [|done].
    cbn [dtype num_bits symmetric] in Hok.
    destruct (bool_decide (ad <> INT)) eqn:Hd; [done|].
    apply bool_decide_eq_false, dec_stable in Hd.
    destruct (bool_decide (ab ∉ [8; 16])) eqn:Hab; [done|].
    apply bool_decide_eq_false, dec_stable in Hab.
    destruct (bool_decide (ab = 16) && negb asym) eqn:H16; [done|].
    destruct (bool_decide (wb ∉ [4; 8]) || negb ws) eqn:Hw; [done|].
    apply orb_false_iff in Hw as [Hwb Hws].
    apply bool_decide_eq_false, dec_stable in Hwb.
    apply negb_false_iff in Hws.
    destruct (bool_decide (wb = 4) && bool_decide (op_name ∉ _INT4_SRQ_SUPPORTED_OPS)) eqn:H4; [done|].
    split; [done|]. split; [done|]. split.
    + rewrite !elem_of_cons, elem_of_nil in Hwb.
      destruct Hwb as [->|[->|[]]]; [right|left; done].
      split; [done|].
      rewrite bool_decide_eq_true_2 in H4 by done. simpl in H4.
      apply bool_decide_eq_false, dec_stable in H4.
      unfold _SUPPORTED_SRQ_OPS in Hop. unfold _INT4_SRQ_SUPPORTED_OPS in H4.
      rewrite !elem_of_cons, elem_of_nil in H4.
      destruct H4 as [->|[->|[->|[]]]]; [by left|by right|].
      rewrite !elem_of_cons, elem_of_nil in Hop. intuition discriminate.
    + eexists. split; [done|]. split; [done|]. cbn.
      rewrite !elem_of_cons, elem_of_nil in Hab.
      destruct Hab as [->|[->|[]]]; [left; done|right].
      split; [done|]. rewrite bool_decide_eq_true_2 in H16 by done.
      simpl in H16. by apply negb_false_iff in H16.
  - intros (Hop & Hws & Hwb & [ab asym ac ad] & -> & Hd & Hab).
    cbn [dtype num_bits symmetric] in *. subst ws ad.
    rewrite bool_decide_eq_false_2 by (intros Hn; done).
    rewrite (bool_decide_eq_false_2 (INT <> INT)) by (intros Hn; done).
    assert (bool_decide (ab ∉ [8; 16]) = false) as ->.
    { apply bool_decide_eq_false_2. intros Hn. apply Hn.
      rewrite !elem_of_cons. tauto. }
    assert (bool_decide (ab = 16) && negb asym = false) as ->.
    { destruct Hab as [->|[-> ->]]; [|by rewrite andb_false_r].
      by rewrite bool_decide_eq_false_2. }
    assert (bool_decide (wb ∉ [4; 8]) = false) as ->.
    { apply bool_decide_eq_false_2. intros Hn. apply Hn.
      rewrite !elem_of_cons. tauto. }
    cbn [negb orb].
    assert (bool_decide (wb = 4) && bool_decide (op_name ∉ _INT4_SRQ_SUPPORTED_OPS) = false) as ->; [|done].
    destruct Hwb as [->|[-> Hfc]]; [by rewrite bool_decide_eq_false_2|].
    rewrite (bool_decide_eq_false_2 (op_name ∉ _)); [by rewrite andb_false_r|].
    intros Hn. apply Hn. unfold _INT4_SRQ_SUPPORTED_OPS.
    rewrite !elem_of_cons. tauto.
Qed.

(** X8.  Dynamic-range validation accepts exactly the operators that
    weight-only validation accepts, and then only with a symmetric 8-bit
    weight configuration, or a symmetric 4-bit one for FULLY_CONNECTED. *)
Theorem check_drq_config_accepts :
  forall (op_repr : TFLOperationName -> string) (op_name : TFLOperationName)
         (cfg : OpQuantizationConfig),
    check_drq_config op_repr op_name cfg = Ok tt
    <-> (check_weight_only_config op_repr op_name = Ok tt
         /\ symmetric (weight_tensor_config cfg) = true
         /\ (num_bits (weight_tensor_config cfg) = 8
             \/ (num_bits (weight_tensor_config cfg) = 4
                 /\ op_name = FULLY_CONNECTED))).
Proof.
  intros op_repr op_name [act [wb ws wc wd] mode].
  unfold check_drq_config, check_weight_only_config.
  cbn [weight_tensor_config num_bits symmetric].
  change _SUPPORTED_DRQ_OPS with _SUPPORTED_WEIGHT_ONLY_OPS.
  destruct (bool_decide (op_name ∉ _SUPPORTED_WEIGHT_ONLY_OPS));
    [split; [done|by intros [? _]]|].
  split.
  - destruct (bool_decide (wb ∉ [4; 8]) || negb ws) eqn:Hw; [done|].
    apply orb_false_iff in Hw as [Hwb Hws].
    apply bool_decide_eq_false, dec_stable in Hwb.
    apply negb_false_iff in Hws.
    destruct (bool_decide (wb = 4)
              && bool_decide (op_name ∉ _INT4_DRQ_SUPPORTED_OPS)) eqn:H4;
      [done|].
    intros _. split; [done|]. split; [done|].
    rewrite !elem_of_cons, elem_of_nil in Hwb.
    destruct Hwb as [->|[->|[]]]; [right|by left].
    split; [done|].
    rewrite bool_decide_eq_true_2 in H4 by done. cbn [andb] in H4.
    apply bool_decide_eq_false, dec_stable in H4.
    unfold _INT4_DRQ_SUPPORTED_OPS in H4.
    by rewrite elem_of_cons, elem_of_nil in H4; destruct H4.
  - intros (_ & -> & Hwb).
    assert (bool_decide (wb ∉ [4; 8]) = false) as ->.
    { apply bool_decide_eq_false_2. intros Hn. apply Hn.
      rewrite !elem_of_cons. tauto. }
    cbn [negb orb].
    assert (bool_decide (wb = 4)
            && bool_decide (op_name ∉ _INT4_DRQ_SUPPORTED_OPS) = false)
      as ->; [|done].
    destruct Hwb as [->|[-> ->]]; [by rewrite bool_decide_eq_false_2|].
    rewrite (bool_decide_eq_false_2 (FULLY_CONNECTED ∉ _));
      [by rewrite andb_false_r|].
    intros Hn. apply Hn. unfold _INT4_DRQ_SUPPORTED_OPS.
    rewrite !elem_of_cons. tauto.
Qed.

Section PerChannel.
Context `{UniformQuantizeTensor}.

Lemma weight_only_op_quantized_dim (op_repr : TFLOperationName -> string) op :
  check_weight_only_config op_repr op = Ok tt
  <-> op = BATCH_MATMUL \/ is_Some (TFL_OP_TO_WEIGHT_QUANTIZED_DIM op).
Proof using Type.
  drop_context.
  unfold check_weight_only_config, _SUPPORTED_WEIGHT_ONLY_OPS.
  destruct (bool_decide _) eqn:Hop.
  - apply bool_decide_eq_true in Hop. split; [done|].
    intros Hdim. exfalso. apply Hop. rewrite !elem_of_cons.
    destruct Hdim as [->|[d Hd]]; [tauto|].
    destruct op; cbn in Hd; try discriminate; tauto.
  - apply bool_decide_eq_false, dec_stable in Hop. split; [|done]. intros _.
    rewrite !elem_of_cons, elem_of_nil in Hop.
    destruct Hop as [->|[->|[->|[->|[->|[]]]]]]; cbn; eauto.
Qed.

End PerChannel.

(** X9.  Per-channel quantization exists only for the operators of the
    weight-only set.  With a channel-wise tensor configuration,
    [_get_tensor_quant_params] raises for every operator that weight-only
    validation rejects; where it returns for an operator other than
    BATCH_MATMUL, the quantized dimension is the entry of
    [TFL_OP_TO_WEIGHT_QUANTIZED_DIM]; and for BATCH_MATMUL it raises when no
    tensor content is passed, since the dimension is read off the content's
    shape. *)
Theorem per_channel_only_for_weight_ops :
  forall (NP : Numpy) (UQ : UniformQuantizeTensor)
         (op_repr : TFLOperationName -> string) (op_info : OpInfo)
         (tensor_min_max : QSV) (cfg : TensorQuantizationConfig)
         (tensor_content : option ndarray),
    channel_wise cfg = true ->
    (is_ok (check_weight_only_config op_repr (op_name op_info)) = false ->
     is_ok (_get_tensor_quant_params op_info tensor_min_max cfg tensor_content)
     = false)
    /\ (forall p,
          _get_tensor_quant_params op_info tensor_min_max cfg tensor_content
          = Ok p ->
          op_name op_info <> BATCH_MATMUL ->
          exists d,
            TFL_OP_TO_WEIGHT_QUANTIZED_DIM (op_name op_info) = Some d
            /\ UQP.quantized_dimension p = Some d)
    /\ (op_name op_info = BATCH_MATMUL ->
        tensor_content = None ->
        is_ok (_get_tensor_quant_params op_info tensor_min_max cfg
                 tensor_content) = false).
Proof.
  intros NP UQ op_repr op_info qsv cfg content Hcw.
  unfold _get_tensor_quant_params. rewrite Hcw.
  split; [|split].
  3:{ intros Hbmm ->.
      destruct (qsv !! "min"%string); [|done].
      destruct (qsv !! "max"%string); [|done].
      destruct (tensor_zp_scale_from_min_max _ _ _ _) as [[zp sc]|]; [|done].
      cbn. destruct (decide (op_name op_info = BATCH_MATMUL)); [|done].
      by destruct (Schema.adjY (op op_info)). }
  - intros Hrej.
    assert (op_name op_info <> BATCH_MATMUL
            /\ TFL_OP_TO_WEIGHT_QUANTIZED_DIM (op_name op_info) = None)
      as [Hbmm Hdim].
    { destruct (check_weight_only_config op_repr (op_name op_info))
        as [[]|e] eqn:Hchk; [done|].
      split.
      - intros Hb. rewrite Hb in Hchk. done.
      - destruct (TFL_OP_TO_WEIGHT_QUANTIZED_DIM (op_name op_info)) eqn:Hd;
          [|done].
        assert (check_weight_only_config op_repr (op_name op_info) = Ok tt)
          as Hok by (apply weight_only_op_quantized_dim; right; eauto).
        congruence. }
    destruct (qsv !! "min"%string); [|done].
    destruct (qsv !! "max"%string); [|done].
    destruct (tensor_zp_scale_from_min_max _ _ _ _) as [[zp sc]|]; [|done].
    cbn. destruct (decide (op_name op_info = BATCH_MATMUL)); [done|].
    by rewrite Hdim.
  - intros p Hp Hbmm.
    destruct (qsv !! "min"%string); [|done].
    destruct (qsv !! "max"%string); [|done].
    destruct (tensor_zp_scale_from_min_max _ _ _ _) as [[zp sc]|]; [|done].
    cbn in Hp. destruct (decide (op_name op_info = BATCH_MATMUL)); [done|].
    destruct (TFL_OP_TO_WEIGHT_QUANTIZED_DIM (op_name op_info)) as [d|];
      [|done].
    exists d. split; [done|]. cbn in Hp.
    destruct content as [content|].
    + destruct (uniform_quantize _ _); [|done]. cbn in Hp.
      by injection Hp as <-.
    + by injection Hp as <-.
Qed.

Lemma per_channel_only_for_weight_ops_witness :
  exists p,
    @_get_tensor_quant_params example_numpy example_uniform_quantize_tensor
      (example_fc_op_info example_srq_config) example_input_qsv
      (weight_tensor_config example_srq_config) (Some [3; 5])
    = Ok p
    /\ @UQP.quantized_dimension example_numpy p = Some 0.
Proof.
  assert (is_ok (@_get_tensor_quant_params example_numpy
                   example_uniform_quantize_tensor
                   (example_fc_op_info example_srq_config) example_input_qsv
                   (weight_tensor_config example_srq_config) (Some [3; 5]))
          = true) as Hok by (vm_compute; reflexivity).
  destruct (_get_tensor_quant_params _ _ _ _) as [p|] eqn:Hp;
    [|discriminate Hok].
  exists p. split; [reflexivity|].
  destruct (per_channel_only_for_weight_ops example_numpy
              example_uniform_quantize_tensor (fun _ => "op"%string)
              (example_fc_op_info example_srq_config) example_input_qsv
              (weight_tensor_config example_srq_config) (Some [3; 5])
              eq_refl) as (_ & Hdim & _).
  destruct (Hdim p Hp ltac:(discriminate)) as (d & Hd & Hq).
  injection Hd as <-. exact Hq.
Defined.

(* ===================================================================== *)
(** ** Tensor parameters and the standard materializer *)
(* ===================================================================== *)

Section QuantParamsFacts.
Context `{UniformQuantizeTensor}.

Lemma get_tensor_quant_params_ok_inv op_info tensor_min_max cfg content p :
  _get_tensor_quant_params op_info tensor_min_max cfg content = Ok p ->
  UQP.num_bits p = num_bits cfg
  /\ UQP.symmetric p = symmetric cfg
  /\ (channel_wise cfg = false -> UQP.quantized_dimension p = None)
  /\ match content with
     | None => UQP.quantized_data p = None
     | Some c =>
         exists q,
           UQP.quantized_data p = Some q
           /\ uniform_quantize c (without_quantized_data p) = Ok q
     end.
Proof.
  unfold _get_tensor_quant_params.
  destruct (tensor_min_max !! "min"%string); [|done].
  destruct (tensor_min_max !! "max"%string); [|done].
  destruct (tensor_zp_scale_from_min_max _ _ _ _) as [[zp sc]|]; [|done].
  rewrite result_bind_ok. cbv beta iota.
  destruct (if channel_wise cfg then _ else _) as [qd|] eqn:Hqd; [|done].
  rewrite result_bind_ok. cbv zeta.
  destruct content as [c|].
  - destruct (uniform_quantize c _) as [q|] eqn:Hq; [|done].
    rewrite result_bind_ok. intros [= <-]. cbn.
    repeat split; try done.
    + intros Hcw. rewrite Hcw in Hqd. by injection Hqd as <-.
    + by exists q.
  - intros [= <-]. cbn. repeat split; try done.
    intros Hcw. rewrite Hcw in Hqd. by injection Hqd as <-.
Qed.

Lemma quantize_tensor_without_data fresh tensor_id st
    (quant_params : UniformQuantParams) :
  UQP.quantized_data quant_params = None ->
  gs_buffers (quantize_tensor fresh tensor_id st quant_params).2
  = gs_buffers st.
Proof using Type.
  intros Hqd. unfold quantize_tensor. rewrite Hqd.
  destruct (py_position _ tensor_id) as [pos|]; [|done].
  destruct (Schema.tensors (gs_subgraph st) !! pos) as [tensor|]; [|done].
  destruct (bool_decide _); by destruct (quant_params_to_tflite_type _).
Qed.

End QuantParamsFacts.

(** X10.  The parameters [_get_tensor_quant_params] returns take bit-width
    and symmetry from the tensor configuration and have no quantized
    dimension unless the configuration is channel-wise.  They hold quantized
    data exactly when tensor content was passed in, namely the content
    quantized with these parameters; so the parameters of an activation hold
    none, and a QUANTIZE_TENSOR edit with them never writes a buffer. *)
Theorem get_tensor_quant_params_data_only_for_constants :
  forall (NP : Numpy) (UQ : UniformQuantizeTensor) (op_info : OpInfo)
         (tensor_min_max : QSV) (cfg : TensorQuantizationConfig)
         (tensor_content : option ndarray) (p : UniformQuantParams),
    _get_tensor_quant_params op_info tensor_min_max cfg tensor_content
    = Ok p ->
    UQP.num_bits p = num_bits cfg
    /\ UQP.symmetric p = symmetric cfg
    /\ (channel_wise cfg = false -> UQP.quantized_dimension p = None)
    /\ (forall c,
          tensor_content = Some c ->
          exists q,
            UQP.quantized_data p = Some q
            /\ uniform_quantize c (without_quantized_data p) = Ok q)
    /\ (tensor_content = None ->
        UQP.quantized_data p = None
        /\ forall fresh tensor_id st,
            gs_buffers (quantize_tensor fresh tensor_id st p).2
            = gs_buffers st).
Proof.
  intros NP UQ op_info mm cfg content p Hp.
  apply get_tensor_quant_params_ok_inv in Hp as (Hbits & Hsym & Hdim & Hdata).
  split; [done|]. split; [done|]. split; [done|]. split.
  - intros c ->. done.
  - intros ->. split; [done|]. intros fresh tensor_id st.
    by apply quantize_tensor_without_data.
Qed.

Lemma get_tensor_quant_params_data_only_for_constants_witness :
  exists p,
    @_get_tensor_quant_params example_numpy example_uniform_quantize_tensor
      (example_fc_op_info example_srq_config) example_input_qsv
      {| num_bits := 8; symmetric := true; channel_wise := false;
         dtype := INT |} None = Ok p
    /\ @UQP.quantized_data example_numpy p = None
    /\ @gs_buffers example_numpy
         (@quantize_tensor example_numpy example_fresh_quantization 0
            example_graph_state p).2
       = @gs_buffers example_numpy example_graph_state.
Proof.
  assert (is_ok (@_get_tensor_quant_params example_numpy
                   example_uniform_quantize_tensor
                   (example_fc_op_info example_srq_config) example_input_qsv
                   {| num_bits := 8; symmetric := true;
                      channel_wise := false; dtype := INT |} None) = true)
    as Hok by (vm_compute; reflexivity).
  destruct (_get_tensor_quant_params _ _ _ _) as [p|] eqn:Hp;
    [|discriminate Hok].
  exists p. split; [reflexivity|].
  destruct (get_tensor_quant_params_data_only_for_constants example_numpy
              example_uniform_quantize_tensor
              (example_fc_op_info example_srq_config) example_input_qsv
              {| num_bits := 8; symmetric := true; channel_wise := false;
                 dtype := INT |} None p Hp)
    as (_ & _ & _ & _ & Hnone).
  destruct (Hnone eq_refl) as [Hdata Hbuf]. split; [exact Hdata|].
  apply Hbuf.
Defined.

Section StandardOpFacts.
Context `{UniformQuantizeTensor}.

Lemma wrapper_inbound_entry t op_info graph_info qsv qp e :
  _get_tensor_transformation_params_wrapper t true op_info graph_info qsv qp
  = Ok e ->
  inbound_entry op_info t e
  /\ (forall p, qp = Some p -> inbound_parameters e = Some p).
Proof.
  intros Hw. apply wrapper_ok_inv in Hw as (data & qp' & _ & -> & Hgiven & _).
  unfold inbound_entry, inbound_parameters, get_tensor_transformation_params.
  cbn. split; [eauto 10|]. intros p ->. by apply Hgiven.
Qed.

Lemma wrapper_outbound_entry t op_info graph_info qsv qp e :
  _get_tensor_transformation_params_wrapper t false op_info graph_info qsv qp
  = Ok e ->
  outbound_entry op_info t e.
Proof.
  intros Hw. apply wrapper_ok_inv in Hw as (data & qp' & _ & -> & _).
  unfold outbound_entry, get_tensor_transformation_params.
  cbn. eauto 10.
Qed.

Lemma same_as_output_scale_ok_inv ins outs op_info graph_info qsv res qsv' :
  _materialize_standard_op_with_same_as_output_scale ins outs op_info
    graph_info qsv = Ok (res, qsv') ->
  exists t pout pr pins,
    outs = [t]
    /\ _get_tensor_transformation_params_wrapper t false op_info graph_info
         qsv None = Ok pout
    /\ producer pout = Some pr
    /\ res = pins ++ [pout]
    /\ qsv' = qsv
    /\ Forall2 (fun i e =>
                  _get_tensor_transformation_params_wrapper i true op_info
                    graph_info qsv (parameters pr) = Ok e) ins pins.
Proof.
  unfold _materialize_standard_op_with_same_as_output_scale,
    _get_single_tensor_params.
  destruct outs as [|t [|t' outs]]; [done| |done].
  destruct (_get_tensor_transformation_params_wrapper t false _ _ _ None)
    as [pout|] eqn:Hout; [|done].
  rewrite result_bind_ok.
  destruct (wrapper_outbound_entry _ _ _ _ _ _ Hout) as (_ & _ & pr & Hpr & _).
  rewrite Hpr. rewrite materialize_op_tensors_mapM.
  destruct (mapM_result _ ins) as [pins|] eqn:Hins; [|done].
  rewrite result_bind_ok. cbn. intros [= <- <-].
  exists t, pout, pr, pins. repeat split; try done.
  by apply mapM_result_ok_inv.
Qed.

End StandardOpFacts.

(** X11.  The result of [materialize_standard_op] has the documented layout
    under each of the three constraints: one entry per kept input in order,
    then one entry per kept output in order; an input entry names its tensor
    and lists this operator as its only consumer, an output entry names its
    tensor and has this operator as producer.  The statistics map is returned
    unchanged unless the constraint is SAME_AS_INPUT_SCALE. *)
Theorem materialize_standard_op_layout :
  forall (NP : Numpy) (UQ : UniformQuantizeTensor) (op_info : OpInfo)
         (graph_info : GraphInfo) (qsv qsv' : QSVMap)
         (constraint : OpQuantConstraint)
         (inputs_to_ignore outputs_to_ignore : list Z)
         (res : list TensorTransformationParams),
    materialize_standard_op op_info graph_info qsv constraint
      inputs_to_ignore outputs_to_ignore = Ok (res, qsv') ->
    exists ins outs pins pouts,
      select_tensors (subgraph_tensors graph_info) inputs_to_ignore 0
        (Schema.inputs (op op_info)) [] = Ok ins
      /\ select_tensors (subgraph_tensors graph_info) outputs_to_ignore 0
           (Schema.outputs (op op_info)) [] = Ok outs
      /\ res = pins ++ pouts
      /\ Forall2 (inbound_entry op_info) ins pins
      /\ Forall2 (outbound_entry op_info) outs pouts
      /\ (constraint <> SAME_AS_INPUT_SCALE -> qsv' = qsv).
Proof.
  intros NP UQ op_info graph_info qsv qsv' constraint ign_in ign_out res.
  unfold materialize_standard_op.
  destruct (select_tensors _ ign_in _ _ _) as [ins|]; [|done].
  destruct (select_tensors _ ign_out _ _ _) as [outs|]; [|done].
  rewrite !result_bind_ok. intros Hres. exists ins, outs.
  destruct (decide (constraint = SAME_AS_INPUT_SCALE)) as [Hc|Hc].
  - apply same_as_input_scale_ok_inv in Hres
      as (t & pin & c & v & pouts & -> & Hin & _ & _ & _ & -> & Houts & _).
    exists [pin], pouts. repeat split; try done.
    + constructor; [|constructor].
      by apply wrapper_inbound_entry in Hin as [? _].
    + clear -Houts. induction Houts as [|o e outs pouts He _ IH];
        constructor; [|done].
      destruct He as (Hn & Hc & pr & Hpr & Hid & _).
      split; [done|]. split; [done|]. eauto.
  - destruct (decide (constraint = SAME_AS_OUTPUT_SCALE)) as [Hc'|Hc'].
    + apply same_as_output_scale_ok_inv in Hres
        as (t & pout & pr & pins & -> & Hout & _ & -> & -> & Hins).
      exists pins, [pout]. repeat split; try done.
      * clear -Hins. induction Hins as [|i e ins pins He _ IH];
          constructor; [|done].
        by apply wrapper_inbound_entry in He as [? _].
      * constructor; [|constructor]. by apply wrapper_outbound_entry in Hout.
    + apply no_constraint_ok_inv in Hres as (pins & pouts & -> & -> & Hins & Houts).
      exists pins, pouts. repeat split; try done.
      * clear -Hins. induction Hins as [|i e ins pins He _ IH];
          constructor; [|done].
        by apply wrapper_inbound_entry in He as [? _].
      * clear -Houts. induction Houts as [|i e outs pouts He _ IH];
          constructor; [|done].
        by apply wrapper_outbound_entry in He.
Qed.

Lemma materialize_standard_op_layout_witness :
  exists res qsv',
    @materialize_standard_op example_numpy example_uniform_quantize_tensor
      (example_fc_op_info example_srq_config) example_graph_info
      example_qsv_map NO_CONSTRAIN [2] [] = Ok (res, qsv')
    /\ exists ins outs pins pouts,
        @select_tensors example_numpy
          (@subgraph_tensors example_numpy example_graph_info) [2] 0
          [0; 1; 2] [] = Ok ins
        /\ @select_tensors example_numpy
             (@subgraph_tensors example_numpy example_graph_info) [] 0
             [3] [] = Ok outs
        /\ res = pins ++ pouts
        /\ Forall2 (inbound_entry (example_fc_op_info example_srq_config))
             ins pins
        /\ Forall2 (outbound_entry (example_fc_op_info example_srq_config))
             outs pouts
        /\ (NO_CONSTRAIN <> SAME_AS_INPUT_SCALE -> qsv' = example_qsv_map).
Proof.
  assert (is_ok (@materialize_standard_op example_numpy
                   example_uniform_quantize_tensor
                   (example_fc_op_info example_srq_config) example_graph_info
                   example_qsv_map NO_CONSTRAIN [2] []) = true) as Hok
    by (vm_compute; reflexivity).
  destruct (materialize_standard_op _ _ _ _ _ _) as [[res qsv']|] eqn:Hm;
    [|discriminate Hok].
  exists res, qsv'. split; [reflexivity|].
  exact (materialize_standard_op_layout example_numpy
           example_uniform_quantize_tensor
           (example_fc_op_info example_srq_config) example_graph_info
           example_qsv_map qsv' NO_CONSTRAIN [2] [] res Hm).
Defined.

(** X12.  Under SAME_AS_OUTPUT_SCALE the operator must have exactly one kept
    output, otherwise the single-tensor error is raised.  On success the
    output is materialized from its own statistics and stands last; every
    kept input is materialized with the output's parameters passed in, so an
    input entry carries them whenever the output has parameters; an output
    without parameters means there is no activation configuration.  The
    statistics map is returned as it was given. *)
Theorem same_as_output_scale_materialization :
  forall (NP : Numpy) (UQ : UniformQuantizeTensor) (op_info : OpInfo)
         (graph_info : GraphInfo) (qsv : QSVMap)
         (inputs_to_ignore outputs_to_ignore : list Z)
         (ins outs : list Tensor),
    select_tensors (subgraph_tensors graph_info) inputs_to_ignore 0
      (Schema.inputs (op op_info)) [] = Ok ins ->
    select_tensors (subgraph_tensors graph_info) outputs_to_ignore 0
      (Schema.outputs (op op_info)) [] = Ok outs ->
    (length outs <> 1%nat ->
     materialize_standard_op op_info graph_info qsv SAME_AS_OUTPUT_SCALE
       inputs_to_ignore outputs_to_ignore = Err single_tensor_error)
    /\ (forall res qsv',
          materialize_standard_op op_info graph_info qsv SAME_AS_OUTPUT_SCALE
            inputs_to_ignore outputs_to_ignore = Ok (res, qsv') ->
          exists t pout pr pins,
            outs = [t]
            /\ _get_tensor_transformation_params_wrapper t false op_info
                 graph_info qsv None = Ok pout
            /\ producer pout = Some pr
            /\ (parameters pr = None ->
                activation_tensor_config (op_quant_config op_info) = None)
            /\ res = pins ++ [pout]
            /\ Forall2 (fun i e =>
                          inbound_entry op_info i e
                          /\ forall p, parameters pr = Some p ->
                                       inbound_parameters e = Some p)
                 ins pins
            /\ qsv' = qsv).
Proof.
  intros NP UQ op_info graph_info qsv ign_in ign_out ins outs Hins Houts.
  unfold materialize_standard_op. rewrite Hins, Houts, !result_bind_ok.
  destruct (decide (SAME_AS_OUTPUT_SCALE = SAME_AS_INPUT_SCALE)); [done|].
  destruct (decide (SAME_AS_OUTPUT_SCALE = SAME_AS_OUTPUT_SCALE)); [|done].
  split.
  - intros Hlen.
    unfold _materialize_standard_op_with_same_as_output_scale,
      _get_single_tensor_params.
    by destruct outs as [|t [|t' outs']].
  - intros res qsv' Hres.
    apply same_as_output_scale_ok_inv in Hres
      as (t & pout & pr & pins & -> & Hout & Hpr & -> & -> & Hpins).
    exists t, pout, pr, pins. repeat split; try done.
    + intros Hnone.
      apply wrapper_ok_inv in Hout as (data & qp & _ & -> & _ & Hqp).
      unfold get_tensor_transformation_params in Hpr. cbn in Hpr.
      injection Hpr as <-. cbn in Hnone.
      eapply selected_config_None_activation. by apply Hqp.
    + clear -Hpins. induction Hpins as [|i e ins pins He _ IH];
        constructor; [|done].
      by apply wrapper_inbound_entry in He.
Qed.

Lemma same_as_output_scale_materialization_witness :
  exists res qsv',
    @materialize_standard_op example_numpy example_uniform_quantize_tensor
      example_pool_op_info example_graph_info example_qsv_map
      SAME_AS_OUTPUT_SCALE [] [] = Ok (res, qsv')
    /\ exists pout pr pins,
        @producer example_numpy pout = Some pr
        /\ res = pins ++ [pout]
        /\ Forall2 (fun i e =>
                      inbound_entry example_pool_op_info i e
                      /\ forall p, @parameters example_numpy pr = Some p ->
                                   inbound_parameters e = Some p)
             [example_activation_tensor] pins
        /\ qsv' = example_qsv_map.
Proof.
  assert (is_ok (@materialize_standard_op example_numpy
                   example_uniform_quantize_tensor example_pool_op_info
                   example_graph_info example_qsv_map SAME_AS_OUTPUT_SCALE
                   [] []) = true) as Hok
    by (vm_compute; reflexivity).
  destruct (materialize_standard_op _ _ _ _ _ _) as [[res qsv']|] eqn:Hm;
    [|discriminate Hok].
  exists res, qsv'. split; [reflexivity|].
  destruct (same_as_output_scale_materialization example_numpy
              example_uniform_quantize_tensor example_pool_op_info
              example_graph_info example_qsv_map [] []
              [example_activation_tensor] [example_output_tensor]
              ltac:(vm_compute; reflexivity) ltac:(vm_compute; reflexivity))
    as [_ Hinv].
  destruct (Hinv res qsv' Hm)
    as (t & pout & pr & pins & _ & _ & Hpr & _ & Hres & Hpins & Hq).
  exists pout, pr, pins. repeat split; assumption.
Defined.

Section SharedParametersFacts.
Context `{UniformQuantizeTensor}.

Lemma wrapper_given_parameters t inb op_info graph_info qsv p e :
  _get_tensor_transformation_params_wrapper t inb op_info graph_info qsv
    (Some p) = Ok e ->
  entry_parameters e = Some p.
Proof.
  rewrite wrapper_given.
  destruct (get_tensor_data _ _) as [data|]; [|done].
  rewrite result_bind_ok. intros [= <-].
  unfold entry_parameters, inbound_parameters,
    get_tensor_transformation_params.
  by destruct inb.
Qed.

Lemma wrapper_own_parameters t inb op_info graph_info qsv e :
  is_Some (activation_tensor_config (op_quant_config op_info)) ->
  _get_tensor_transformation_params_wrapper t inb op_info graph_info qsv None
  = Ok e ->
  exists p,
    entry_parameters e = Some p
    /\ (if inb then
          exists c, consumers e = Some [c] /\ parameters c = Some p
        else exists pr, producer e = Some pr /\ parameters pr = Some p).
Proof.
  intros Hact Hw.
  apply wrapper_ok_inv in Hw as (data & qp & _ & -> & _ & Hqp).
  destruct qp as [p|].
  - exists p. unfold entry_parameters, inbound_parameters,
      get_tensor_transformation_params.
    destruct inb; cbn; eauto.
  - exfalso. destruct Hact as [cfg Hcfg].
    assert (activation_tensor_config (op_quant_config op_info) = None)
      as Hnone.
    { eapply selected_config_None_activation. by apply Hqp. }
    congruence.
Qed.

End SharedParametersFacts.

(** X13.  With an activation configuration, which static-range validation
    requires, both scale constraints do what their names say: on success
    every entry of the result, input or output, carries the same
    quantization parameters. *)
Theorem constrained_op_shares_parameters :
  forall (NP : Numpy) (UQ : UniformQuantizeTensor) (op_info : OpInfo)
         (graph_info : GraphInfo) (qsv qsv' : QSVMap)
         (constraint : OpQuantConstraint)
         (inputs_to_ignore outputs_to_ignore : list Z)
         (res : list TensorTransformationParams),
    is_Some (activation_tensor_config (op_quant_config op_info)) ->
    constraint = SAME_AS_INPUT_SCALE \/ constraint = SAME_AS_OUTPUT_SCALE ->
    materialize_standard_op op_info graph_info qsv constraint
      inputs_to_ignore outputs_to_ignore = Ok (res, qsv') ->
    exists p, Forall (fun e => entry_parameters e = Some p) res.
Proof.
  intros NP UQ op_info graph_info qsv qsv' constraint ign_in ign_out res.
  intros Hact Hor.
  assert (constraint <> NO_CONSTRAIN) as Hc by (by destruct Hor as [-> | ->]).
  unfold materialize_standard_op.
  destruct (select_tensors _ ign_in _ _ _) as [ins|]; [|done].
  destruct (select_tensors _ ign_out _ _ _) as [outs|]; [|done].
  rewrite !result_bind_ok.
  destruct (decide (constraint = SAME_AS_INPUT_SCALE)) as [_|Hc1].
  - unfold _materialize_standard_op_with_same_as_input_scale,
      _get_single_tensor_params.
    destruct ins as [|t [|t' ins]]; [done| |done].
    destruct (_get_tensor_transformation_params_wrapper t true _ _ _ None)
      as [pin|] eqn:Hin; [|done].
    rewrite result_bind_ok.
    destruct (wrapper_own_parameters _ _ _ _ _ _ Hact Hin)
      as (p & Hp & c & Hcons & Hpc).
    unfold first_consumer. rewrite Hcons, result_bind_ok, Hpc.
    rewrite materialize_op_tensors_mapM.
    destruct (mapM_result _ outs) as [pouts|] eqn:Hpouts; [|done].
    rewrite result_bind_ok.
    destruct (qsv !! tensor_name pin); [|done].
    intros [= <- _]. exists p. cbn [app]. constructor; [done|].
    apply mapM_result_ok_inv in Hpouts.
    clear -Hpouts. induction Hpouts as [|o e outs pouts He _ IH];
      constructor; [|done].
    by eapply wrapper_given_parameters.
  - destruct (decide (constraint = SAME_AS_OUTPUT_SCALE)) as [_|Hc2];
      [|by destruct constraint].
    intros Hres.
    apply same_as_output_scale_ok_inv in Hres
      as (t & pout & pr & pins & -> & Hout & Hpr & -> & -> & Hpins).
    destruct (wrapper_own_parameters _ _ _ _ _ _ Hact Hout)
      as (p & Hp & pr' & Hpr' & Hpp).
    assert (pr' = pr) as -> by congruence.
    exists p. apply Forall_app. split; [|by constructor].
    rewrite Hpp in Hpins.
    clear -Hpins. induction Hpins as [|o e ins pins He _ IH];
      constructor; [|done].
    by eapply wrapper_given_parameters.
Qed.

Lemma constrained_op_shares_parameters_witness :
  exists res qsv' p,
    @materialize_standard_op example_numpy example_uniform_quantize_tensor
      example_pool_op_info example_graph_info example_qsv_map
      SAME_AS_OUTPUT_SCALE [] [] = Ok (res, qsv')
    /\ Forall (fun e => entry_parameters e = Some p) res.
Proof.
  assert (is_ok (@materialize_standard_op example_numpy
                   example_uniform_quantize_tensor example_pool_op_info
                   example_graph_info example_qsv_map SAME_AS_OUTPUT_SCALE
                   [] []) = true) as Hok
    by (vm_compute; reflexivity).
  destruct (materialize_standard_op _ _ _ _ _ _) as [[res qsv']|] eqn:Hm;
    [|discriminate Hok].
  destruct (constrained_op_shares_parameters example_numpy
              example_uniform_quantize_tensor example_pool_op_info
              example_graph_info example_qsv_map qsv' SAME_AS_OUTPUT_SCALE
              [] [] res ltac:(by eexists) ltac:(by right) Hm) as [p Hp].
  exists res, qsv', p. split; [reflexivity|exact Hp].
Defined.

Section OutputActivationConstraintFacts.
Context `{UniformQuantizeTensor}.

Lemma py_index_last {A} (l : list A) (x : A) : py_index (l ++ [x]) (-1) = Ok x.
Proof using Type.
  drop_context.
  unfold py_index. rewrite length_app. cbn [length].
  replace (-1 <? 0) with true by done. cbv zeta.
  replace (-1 + Z.of_nat (length l + 1)) with (Z.of_nat (length l)) by lia.
  rewrite Nat2Z.id.
  replace (0 <=? Z.of_nat (length l)) with true
    by (symmetry; apply Z.leb_le; lia).
  replace (Z.of_nat (length l) <? Z.of_nat (length l + 1)) with true
    by (symmetry; apply Z.ltb_lt; lia).
  cbn [andb]. by rewrite lookup_app_r, Nat.sub_diag.
Qed.

Lemma py_index_nil {A} (i : Z) : py_index (@nil A) i = Err IndexError.
Proof using Type.
  drop_context. unfold py_index. cbn [length].
  change (Z.of_nat 0) with 0. cbv zeta.
  destruct (i <? 0) eqn:Hi.
  - destruct (0 <=? i + 0) eqn:Ha; [|done].
    apply Z.ltb_lt in Hi. apply Z.leb_le in Ha. lia.
  - destruct (0 <=? i) eqn:Ha; [|done]. by rewrite Hi.
Qed.

Lemma insert_last {A} (l : list A) (x y : A) :
  <[pred (length (l ++ [x])) := y]> (l ++ [x]) = l ++ [y].
Proof using Type.
  drop_context. rewrite length_app. cbn [length].
  replace (pred (length l + 1)) with (length l + 0)%nat by lia.
  by rewrite insert_app_r.
Qed.

(** The standard materialization of an operator whose only output is
    present ends with the entry of that output. *)
Lemma standard_op_single_output op_info graph_info qsv res qsv' o :
  Schema.outputs (op op_info) = [o] -> 0 <= o ->
  materialize_standard_op op_info graph_info qsv NO_CONSTRAIN [] []
  = Ok (res, qsv') ->
  exists std out pr t,
    res = std ++ [out] /\ qsv' = qsv
    /\ py_index (subgraph_tensors graph_info) o = Ok t
    /\ _get_tensor_transformation_params_wrapper t false op_info graph_info
         qsv None = Ok out
    /\ producer out = Some pr.
Proof.
  intros Houts Ho. unfold materialize_standard_op. rewrite Houts.
  destruct (select_tensors _ [] 0 (Schema.inputs _) []) as [ins|]; [|done].
  rewrite result_bind_ok. cbn [select_tensors].
  rewrite bool_decide_eq_true_2 by apply not_elem_of_nil.
  replace (0 <=? o) with true by (symmetry; by apply Z.leb_le).
  cbn [andb].
  destruct (py_index (subgraph_tensors graph_info) o) as [t|]; [|done].
  rewrite !result_bind_ok. cbn [app].
  destruct (decide (NO_CONSTRAIN = SAME_AS_INPUT_SCALE)); [done|].
  destruct (decide (NO_CONSTRAIN = SAME_AS_OUTPUT_SCALE)); [done|].
  intros Hres.
  apply no_constraint_ok_inv in Hres as (pins & pouts & -> & -> & _ & Hpouts).
  inversion Hpouts as [|? out ? pouts' Hout Hnil]; subst.
  inversion Hnil; subst.
  destruct (wrapper_outbound_entry _ _ _ _ _ _ Hout) as (_ & _ & pr & Hpr & _).
  exists pins, out, pr, t. done.
Qed.

(** What [materialize_op_with_output_activation_constraint] puts in the
    place of the output entry [out] with producer [pr]. *)
Lemma output_activation_constraint_unfold op_info graph_info qsv constraints
    std out pr o :
  Schema.outputs (op op_info) = [o] ->
  materialize_standard_op op_info graph_info qsv NO_CONSTRAIN [] []
  = Ok (std ++ [out], qsv) ->
  producer out = Some pr ->
  materialize_op_with_output_activation_constraint op_info graph_info qsv
    constraints
  = match activation_tensor_config (op_quant_config op_info) with
    | None => Ok (std ++ [out], qsv)
    | Some cfg =>
        match constraints !! num_bits cfg with
        | None =>
            Err (ValueError ("Output activation constraints dictionary does not contain entity for activation num bits "
                             +:+ pretty (num_bits cfg) +:+ "."))
        | Some c =>
            Ok (std ++ [constrained_output out pr c], qsv)
        end
    end.
Proof.
  intros Houts Hstd Hpr.
  unfold materialize_op_with_output_activation_constraint.
  rewrite Houts. cbn [length].
  rewrite bool_decide_eq_false_2 by (intros Hn; by apply Hn).
  rewrite Hstd, result_bind_ok. cbv beta iota.
  rewrite py_index_last, result_bind_ok, Hpr.
  destruct (activation_tensor_config _) as [cfg|]; [|done].
  destruct (constraints !! _) as [c|]; [|done].
  by rewrite insert_last.
Qed.

End OutputActivationConstraintFacts.

(** X14.  [materialize_op_with_output_activation_constraint] raises unless
    the operator lists exactly one output.  For an operator with one present
    output it returns the standard materialization with one change: when the
    operator has an activation configuration, the producer entry of the
    output, which stands last, carries the constraint registered for the
    activation bit-width, with operator id and transformations kept.  Without
    an activation configuration nothing changes; without a constraint for the
    bit-width the call raises. *)
Theorem output_activation_constraint_overrides_output :
  forall (NP : Numpy) (UQ : UniformQuantizeTensor) (op_info : OpInfo)
         (graph_info : GraphInfo) (qsv : QSVMap)
         (constraints : gmap Z UniformQuantParams) (o : Z),
    Schema.outputs (op op_info) = [o] ->
    0 <= o ->
    (forall op_info',
        length (Schema.outputs (op op_info')) <> 1%nat ->
        materialize_op_with_output_activation_constraint op_info' graph_info
          qsv constraints
        = Err (ValueError "Materialize op with output activation constraint only supports ops with a single output tensor."))
    /\ (forall res qsv',
        materialize_op_with_output_activation_constraint op_info graph_info
          qsv constraints = Ok (res, qsv') ->
        exists std out pr,
          materialize_standard_op op_info graph_info qsv NO_CONSTRAIN [] []
          = Ok (std ++ [out], qsv)
          /\ producer out = Some pr
          /\ qsv' = qsv
          /\ match activation_tensor_config (op_quant_config op_info) with
             | None => res = std ++ [out]
             | Some cfg =>
                 exists c,
                   constraints !! num_bits cfg = Some c
                   /\ res = std ++ [constrained_output out pr c]
             end)
    /\ (forall cfg,
          activation_tensor_config (op_quant_config op_info) = Some cfg ->
          constraints !! num_bits cfg = None ->
          is_ok (materialize_op_with_output_activation_constraint op_info
                   graph_info qsv constraints) = false)
    /\ (forall std qsv',
          activation_tensor_config (op_quant_config op_info) = None ->
          materialize_standard_op op_info graph_info qsv NO_CONSTRAIN [] []
          = Ok (std, qsv') ->
          materialize_op_with_output_activation_constraint op_info graph_info
            qsv constraints = Ok (std, qsv)).
Proof.
  intros NP UQ op_info graph_info qsv constraints o Houts Ho.
  split.
  { intros op_info' Hlen.
    unfold materialize_op_with_output_activation_constraint.
    by rewrite bool_decide_eq_true_2. }
  destruct (materialize_standard_op op_info graph_info qsv NO_CONSTRAIN [] [])
    as [[res0 qsv0]|e] eqn:Hstd.
  - destruct (standard_op_single_output _ _ _ _ _ _ Houts Ho Hstd)
      as (std & out & pr & t & -> & -> & _ & _ & Hpr).
    rewrite (output_activation_constraint_unfold _ _ _ constraints _ _ _ _
               Houts Hstd Hpr).
    split; [|split].
    + intros res qsv' Hres. exists std, out, pr.
      split; [done|]. split; [done|].
      destruct (activation_tensor_config _) as [cfg|].
      * destruct (constraints !! _) as [c|] eqn:Hc; [|done].
        injection Hres as <- <-. eauto.
      * by injection Hres as <- <-.
    + intros cfg -> Hc. by rewrite Hc.
    + intros std' qsv' -> [= <- <-]. done.
  - assert (materialize_op_with_output_activation_constraint op_info
              graph_info qsv constraints = Err e) as ->.
    { unfold materialize_op_with_output_activation_constraint.
      rewrite Houts. cbn [length].
      rewrite bool_decide_eq_false_2 by (intros Hn; by apply Hn).
      by rewrite Hstd. }
    split; [done|]. split; [done|]. done.
Qed.

Lemma output_activation_constraint_overrides_output_witness :
  exists res qsv' std out pr c,
    @materialize_op_with_output_activation_constraint example_numpy
      example_uniform_quantize_tensor example_pool_op_info example_graph_info
      example_qsv_map example_constraints = Ok (res, qsv')
    /\ example_constraints !! 8 = Some c
    /\ @producer example_numpy out = Some pr
    /\ res = std ++ [constrained_output out pr c].
Proof.
  assert (is_ok (@materialize_op_with_output_activation_constraint
                   example_numpy example_uniform_quantize_tensor
                   example_pool_op_info example_graph_info example_qsv_map
                   example_constraints) = true) as Hok
    by (vm_compute; reflexivity).
  destruct (materialize_op_with_output_activation_constraint _ _ _ _)
    as [[res qsv']|] eqn:Hm; [|discriminate Hok].
  destruct (output_activation_constraint_overrides_output example_numpy
              example_uniform_quantize_tensor example_pool_op_info
              example_graph_info example_qsv_map example_constraints 3
              eq_refl ltac:(lia)) as (_ & Hinv & _).
  destruct (Hinv res qsv' Hm) as (std & out & pr & _ & Hpr & _ & Hcase).
  change (activation_tensor_config (op_quant_config example_pool_op_info))
    with (activation_tensor_config example_srq_config) in Hcase.
  cbn [activation_tensor_config example_srq_config num_bits] in Hcase.
  destruct Hcase as (c & Hc & Hres).
  exists res, qsv', std, out, pr, c.
  split; [reflexivity|]. split; [exact Hc|].
  split; [exact Hpr|exact Hres].
Defined.

(* ===================================================================== *)
(** ** The materializers of naive_min_max_quantize *)
(* ===================================================================== *)

(** X15.  [materialize_reshape] never looks at the shape operand: replacing
    the tensor index in input slot 1 by any other index, valid or not,
    leaves the result unchanged, errors included. *)
Theorem materialize_reshape_ignores_shape_operand :
  forall (NP : Numpy) (UQ : UniformQuantizeTensor) (op_info : OpInfo)
         (graph_info : GraphInfo) (qsv : QSVMap) (i0 i1 j : Z)
         (rest : list Z),
    Schema.inputs (op op_info) = i0 :: i1 :: rest ->
    materialize_reshape (with_inputs op_info (i0 :: j :: rest)) graph_info qsv
    = materialize_reshape op_info graph_info qsv.
Proof.
  intros NP UQ [[ins outs adj] name idx cfg] graph_info qsv i0 i1 j rest Hin.
  cbn in Hin. subst ins.
  unfold materialize_reshape, materialize_standard_op, with_inputs.
  cbn [op Schema.inputs Schema.outputs Schema.adjY op_name subgraph_op_index
       op_quant_config select_tensors].
  rewrite (bool_decide_eq_false_2 (0 + 1 ∉ [1])).
  2:{ intros Hn. apply Hn. apply elem_of_cons. by left. }
  cbn [andb].
  destruct (bool_decide (0 ∉ [1]) && (0 <=? i0)).
  - destruct (py_index (subgraph_tensors graph_info) i0) as [t|]; [|done].
    rewrite !result_bind_ok.
    destruct (select_tensors _ [1] _ rest _) as [sel|]; [|done].
    rewrite !result_bind_ok.
    destruct (select_tensors _ [] _ outs _) as [osel|]; [|done].
    rewrite !result_bind_ok.
    reflexivity.
  - destruct (select_tensors _ [1] _ rest _) as [sel|]; [|done].
    rewrite !result_bind_ok.
    destruct (select_tensors _ [] _ outs _) as [osel|]; [|done].
    rewrite !result_bind_ok.
    reflexivity.
Qed.

Lemma materialize_reshape_ignores_shape_operand_witness :
  is_ok (@materialize_reshape example_numpy example_uniform_quantize_tensor
           (with_inputs example_reshape_op_info [0; 99]) example_graph_info
           example_qsv_map)
  = true.
Proof.
  rewrite (materialize_reshape_ignores_shape_operand example_numpy
             example_uniform_quantize_tensor example_reshape_op_info
             example_graph_info example_qsv_map 0 1 99 [] eq_refl).
  vm_compute. reflexivity.
Defined.

Section FcConvFacts.
Context `{UniformQuantizeTensor}.

Lemma tensor_at_ok_length (ts : list Tensor) idxs (n : nat) t :
  tensor_at ts idxs (Z.of_nat n) = Ok t -> (n < length idxs)%nat.
Proof using Type.
  drop_context. unfold tensor_at.
  destruct (py_index idxs (Z.of_nat n)) as [idx|] eqn:Hidx; [|done].
  intros _. apply py_index_nonneg in Hidx; [|lia].
  rewrite Nat2Z.id in Hidx. by eapply lookup_lt_Some.
Qed.

Lemma parse_fc_bmm_conv_tensors_ok_inv op ts tin tw bias tout :
  parse_fc_bmm_conv_tensors op ts = Ok (tin, tw, bias, tout) ->
  (2 <= length (Schema.inputs op))%nat
  /\ (1 <= length (Schema.outputs op))%nat
  /\ ((length (Schema.inputs op) <= 2)%nat
      \/ Schema.inputs op !! 2%nat = Some (-1) -> bias = None).
Proof using Type.
  drop_context. unfold parse_fc_bmm_conv_tensors. cbv zeta.
  destruct (tensor_at ts (Schema.inputs op) 0) as [t0|] eqn:H0; [|done].
  destruct (tensor_at ts (Schema.inputs op) 1) as [t1|] eqn:H1; [|done].
  rewrite !result_bind_ok.
  apply (tensor_at_ok_length ts _ 1) in H1.
  destruct (2 <? Z.of_nat (length (Schema.inputs op))) eqn:Hlen.
  - destruct (py_index (Schema.inputs op) 2) as [bidx|] eqn:Hb; [|done].
    rewrite result_bind_ok.
    apply py_index_nonneg in Hb; [|lia]. change (Z.to_nat 2) with 2%nat in Hb.
    destruct (bool_decide (bidx <> -1)) eqn:Hbidx.
    + destruct (py_index ts bidx) as [b|]; [|done]. rewrite !result_bind_ok.
      destruct (tensor_at ts (Schema.outputs op) 0) as [t3|] eqn:H3; [|done].
      rewrite result_bind_ok. intros [= <- <- <- <-].
      apply (tensor_at_ok_length ts _ 0) in H3.
      split; [lia|]. split; [lia|].
      apply Z.ltb_lt in Hlen. apply bool_decide_eq_true in Hbidx.
      intros [?|Hm]; [lia|]. congruence.
    + rewrite !result_bind_ok.
      destruct (tensor_at ts (Schema.outputs op) 0) as [t3|] eqn:H3; [|done].
      rewrite result_bind_ok. intros [= <- <- <- <-].
      apply (tensor_at_ok_length ts _ 0) in H3.
      split; [lia|]. split; [lia|]. done.
  - rewrite !result_bind_ok.
    destruct (tensor_at ts (Schema.outputs op) 0) as [t3|] eqn:H3; [|done].
    rewrite result_bind_ok. intros [= <- <- <- <-].
    apply (tensor_at_ok_length ts _ 0) in H3.
    split; [lia|]. split; [lia|]. done.
Qed.

End FcConvFacts.

(** X16.  [materialize_fc_conv] returns only for an operator with at least
    two inputs and one output.  When the operator has no bias (fewer than
    three inputs, or [-1] in input slot 2), the result is exactly the
    standard materialization with slot 2 ignored: nothing is appended. *)
Theorem materialize_fc_conv_without_bias :
  forall (NP : Numpy) (UQ : UniformQuantizeTensor) (op_info : OpInfo)
         (graph_info : GraphInfo) (qsv qsv' : QSVMap)
         (res : list TensorTransformationParams),
    materialize_fc_conv op_info graph_info qsv = Ok (res, qsv') ->
    (2 <= length (Schema.inputs (op op_info)))%nat
    /\ (1 <= length (Schema.outputs (op op_info)))%nat
    /\ ((length (Schema.inputs (op op_info)) <= 2)%nat
        \/ Schema.inputs (op op_info) !! 2%nat = Some (-1) ->
        materialize_standard_op op_info graph_info qsv NO_CONSTRAIN [2] []
        = Ok (res, qsv')).
Proof.
  intros NP UQ op_info graph_info qsv qsv' res.
  unfold materialize_fc_conv.
  destruct (materialize_standard_op _ _ _ _ _ _) as [[std qsv0]|]; [|done].
  rewrite result_bind_ok.
  destruct (parse_fc_bmm_conv_tensors _ _) as [[[[tin tw] bias] tout]|]
    eqn:Hparse; [|done].
  rewrite result_bind_ok.
  apply parse_fc_bmm_conv_tensors_ok_inv in Hparse as (Hin & Hout & Hbias).
  intros Hres. split; [done|]. split; [done|].
  intros Hnone. rewrite (Hbias Hnone) in Hres. done.
Qed.

Lemma materialize_fc_conv_without_bias_witness :
  exists res qsv',
    @materialize_fc_conv example_numpy example_uniform_quantize_tensor
      (with_inputs (example_fc_op_info example_srq_config) [0; 1; -1])
      example_graph_info example_qsv_map = Ok (res, qsv')
    /\ @materialize_standard_op example_numpy example_uniform_quantize_tensor
         (with_inputs (example_fc_op_info example_srq_config) [0; 1; -1])
         example_graph_info example_qsv_map NO_CONSTRAIN [2] []
       = Ok (res, qsv').
Proof.
  assert (is_ok (@materialize_fc_conv example_numpy
                   example_uniform_quantize_tensor
                   (with_inputs (example_fc_op_info example_srq_config)
                      [0; 1; -1])
                   example_graph_info example_qsv_map) = true) as Hok
    by (vm_compute; reflexivity).
  destruct (materialize_fc_conv _ _ _) as [[res qsv']|] eqn:Hm;
    [|discriminate Hok].
  exists res, qsv'. split; [reflexivity|].
  apply (materialize_fc_conv_without_bias example_numpy
           example_uniform_quantize_tensor
           (with_inputs (example_fc_op_info example_srq_config) [0; 1; -1])
           example_graph_info example_qsv_map qsv' res Hm).
  by right.
Defined.

(* ===================================================================== *)
(** ** Initial and calibrated statistics *)
(* ===================================================================== *)

Section CalibrationFacts.
Context `{UniformQuantizeTensor}.

(** On indices that are [-1] or non-negative, the loop of [init_qsvs] and
    [min_max_calibrate] visits the tensors [select_tensors] keeps. *)
Lemma for_each_tensor_idx_select {S : Type} (ts : list Tensor)
    (body : S -> Tensor -> result S) ign idxs :
  Forall (fun idx => -1 <= idx) idxs ->
  forall i s s',
    for_each_tensor_idx
      (fun s idx => t ← py_index ts idx; body s t) ign i idxs s = Ok s' ->
    exists sel,
      select_tensors ts ign i idxs [] = Ok sel
      /\ foldM body s sel = Ok s'.
Proof using Type.
  drop_context.
  induction 1 as [|idx idxs Hidx _ IH]; intros i s s';
    cbn [for_each_tensor_idx select_tensors].
  { intros [= <-]. by exists []. }
  assert ((0 <=? idx) = bool_decide (idx <> -1)) as ->.
  { destruct (bool_decide (idx <> -1)) eqn:Hd.
    - apply bool_decide_eq_true in Hd. apply Z.leb_le. lia.
    - apply bool_decide_eq_false, dec_stable in Hd. by subst. }
  rewrite (andb_comm (bool_decide (i ∉ ign))).
  destruct (bool_decide (idx <> -1) && bool_decide (i ∉ ign)); [|apply IH].
  destruct (py_index ts idx) as [t|]; [|done].
  rewrite !result_bind_ok.
  destruct (body s t) as [s1|] eqn:Hbody; [|done].
  rewrite result_bind_ok. intros Hrest.
  apply IH in Hrest as (sel & Hsel & Hfold).
  rewrite select_tensors_acc, Hsel, result_bind_ok.
  exists (t :: sel). split; [done|].
  cbn [foldM]. by rewrite Hbody.
Qed.

Lemma min_max_dict_has_min_max mn mx : has_min_max (min_max_dict mn mx).
Proof using Type.
  drop_context. unfold has_min_max, min_max_dict. split.
  - rewrite lookup_insert_ne by done. rewrite lookup_insert_eq. eauto.
  - rewrite lookup_insert_eq. eauto.
Qed.

Lemma init_tensor_min_max_has_min_max tensor graph_info op_info a b e :
  init_tensor_min_max tensor graph_info op_info a b = Ok e -> has_min_max e.
Proof.
  unfold init_tensor_min_max.
  destruct (get_tensor_data _ _) as [[data|]|]; [| |done];
    rewrite result_bind_ok.
  - destruct (if channel_wise _ then _ else _) as [qd|]; [|done].
    rewrite result_bind_ok.
    destruct (np_min _ _) as [mn|]; [|done]. rewrite result_bind_ok.
    destruct (np_max _ _) as [mx|]; [|done]. rewrite result_bind_ok.
    intros [= <-]. apply min_max_dict_has_min_max.
  - destruct (np_broadcast_to a _) as [mn|]; [|done]. rewrite result_bind_ok.
    destruct (np_broadcast_to b _) as [mx|]; [|done]. rewrite result_bind_ok.
    intros [= <-]. apply min_max_dict_has_min_max.
Qed.

(** The statistics [init_qsvs] leaves after visiting [sel]. *)
Lemma init_qsvs_fold op_info graph_info a b sel :
  forall s s',
    foldM (fun (op_qsvs : QSVMap) tensor =>
             qsv ← init_tensor_min_max tensor graph_info op_info a b;
             Ok (<[get_tensor_name tensor := qsv]> op_qsvs)) s sel = Ok s' ->
    (forall n, is_Some (s' !! n)
               <-> is_Some (s !! n) \/ n ∈ map get_tensor_name sel)
    /\ (forall n e, s' !! n = Some e -> s !! n = Some e \/ has_min_max e).
Proof.
  induction sel as [|t sel IH]; intros s s'; cbn [foldM map].
  { intros [= <-]. split; [|by left].
    intros n. rewrite elem_of_nil. tauto. }
  destruct (init_tensor_min_max t _ _ _ _) as [e0|] eqn:Hinit; [|done].
  rewrite !result_bind_ok. intros Hrest.
  apply IH in Hrest as [Hkeys Hvals]. split.
  - intros n. rewrite Hkeys, elem_of_cons.
    destruct (decide (get_tensor_name t = n)) as [<-|Hne].
    + rewrite lookup_insert_eq. split; [intros _; right; by left|].
      intros _. left. by eexists.
    + rewrite lookup_insert_ne by done. split; [tauto|].
      intros [?|[?|?]]; [tauto|congruence|tauto].
  - intros n e He. destruct (Hvals n e He) as [Hs|?]; [|by right].
    destruct (decide (get_tensor_name t = n)) as [<-|Hne].
    + rewrite lookup_insert_eq in Hs. injection Hs as <-. right.
      by eapply init_tensor_min_max_has_min_max.
    + rewrite lookup_insert_ne in Hs by done. by left.
Qed.

End CalibrationFacts.

(** X17.  On an operator whose tensor indices are [-1] or non-negative,
    [init_qsvs] produces statistics for exactly the tensors that
    [materialize_standard_op] keeps under the same ignore lists: the keys of
    the result are the names of the kept inputs and outputs, and every entry
    holds both a minimum and a maximum. *)
Theorem init_qsvs_covers_materialized_tensors :
  forall (NP : Numpy) (op_info : OpInfo) (graph_info : GraphInfo)
         (inputs_to_ignore outputs_to_ignore : list Z) (qsvs : QSVMap),
    Forall (fun idx => -1 <= idx)
      (Schema.inputs (op op_info) ++ Schema.outputs (op op_info)) ->
    init_qsvs op_info graph_info inputs_to_ignore outputs_to_ignore
    = Ok qsvs ->
    exists ins outs,
      select_tensors (subgraph_tensors graph_info) inputs_to_ignore 0
        (Schema.inputs (op op_info)) [] = Ok ins
      /\ select_tensors (subgraph_tensors graph_info) outputs_to_ignore 0
           (Schema.outputs (op op_info)) [] = Ok outs
      /\ (forall n, is_Some (qsvs !! n)
                    <-> n ∈ map get_tensor_name (ins ++ outs))
      /\ (forall n e, qsvs !! n = Some e ->
                      is_Some (e !! "min"%string)
                      /\ is_Some (e !! "max"%string)).
Proof.
  intros NP op_info graph_info ign_in ign_out qsvs.
  intros Hidx. apply Forall_app in Hidx as [Hin Hout].
  unfold init_qsvs. cbv zeta.
  destruct (for_each_tensor_idx _ ign_in 0 _ ∅) as [s1|] eqn:H1; [|done].
  rewrite result_bind_ok. intros H2.
  apply (for_each_tensor_idx_select (subgraph_tensors graph_info)
           (fun (op_qsvs : QSVMap) tensor =>
              qsv ← init_tensor_min_max tensor graph_info op_info 0 6;
              Ok (<[get_tensor_name tensor := qsv]> op_qsvs)))
    in H1 as (ins & Hins & Hf1); [|done].
  apply (for_each_tensor_idx_select (subgraph_tensors graph_info)
           (fun (op_qsvs : QSVMap) tensor =>
              qsv ← init_tensor_min_max tensor graph_info op_info 0 6;
              Ok (<[get_tensor_name tensor := qsv]> op_qsvs)))
    in H2 as (outs & Houts & Hf2); [|done].
  apply init_qsvs_fold in Hf1 as [Hk1 Hv1].
  apply init_qsvs_fold in Hf2 as [Hk2 Hv2].
  exists ins, outs. split; [done|]. split; [done|]. split.
  - intros n. rewrite Hk2, Hk1, map_app, elem_of_app, lookup_empty.
    split; [intros [[[? [=]]|?]|?]; tauto|tauto].
  - intros n e He. destruct (Hv2 n e He) as [Hs|?]; [|done].
    destruct (Hv1 n e Hs) as [Hs'|?]; [|done].
    by rewrite lookup_empty in Hs'.
Qed.

Lemma init_qsvs_covers_materialized_tensors_witness :
  exists qsvs,
    @init_qsvs example_numpy
      (example_fc_op_info example_srq_config) example_graph_info [] []
    = Ok qsvs
    /\ forall n e, qsvs !! n = Some e ->
                   is_Some (e !! "min"%string) /\ is_Some (e !! "max"%string).
Proof.
  assert (is_ok (@init_qsvs example_numpy
                   (example_fc_op_info example_srq_config) example_graph_info
                   [] []) = true) as Hok by (vm_compute; reflexivity).
  destruct (init_qsvs _ _ _ _) as [qsvs|] eqn:Hinit; [|discriminate Hok].
  exists qsvs. split; [reflexivity|].
  destruct (init_qsvs_covers_materialized_tensors example_numpy
              (example_fc_op_info example_srq_config) example_graph_info
              [] [] qsvs ltac:(repeat constructor; discriminate) Hinit)
    as (ins & outs & _ & _ & _ & Hmm).
  exact Hmm.
Defined.

Section MinMaxCalibrateFacts.
Context `{UniformQuantizeTensor}.

Lemma collect_tensor_ok_inv graph_info content s t s' :
  collect_tensor graph_info content s t = Ok s' ->
  (exists data,
      get_tensor_data_from_model t (buffers graph_info)
        (whole_model_buffer graph_info) = Ok (Some data) /\ s' = s)
  \/ (exists e,
        calibrated_entry graph_info content t e
        /\ s' = <[get_tensor_name t := e]> s).
Proof.
  unfold collect_tensor, calibrated_entry.
  destruct (get_tensor_data_from_model _ _ _) as [[data|]|]; [| |done];
    rewrite result_bind_ok.
  { intros [= <-]. left. eauto. }
  destruct (content !! _) as [c|] eqn:Hc; [|done].
  destruct (np_min c None) as [mn|] eqn:Hmn; [|done]. rewrite result_bind_ok.
  destruct (np_max c None) as [mx|] eqn:Hmx; [|done]. rewrite result_bind_ok.
  intros [= <-]. right. exists (min_max_dict mn mx).
  split; [|done]. split; [done|]. by exists c, mn, mx.
Qed.

Lemma collect_fold graph_info content sel :
  forall s s',
    foldM (collect_tensor graph_info content) s sel = Ok s' ->
    (forall n e, s' !! n = Some e ->
                 s !! n = Some e
                 \/ exists t, t ∈ sel /\ get_tensor_name t = n
                              /\ calibrated_entry graph_info content t e)
    /\ (forall n, is_Some (s !! n) -> is_Some (s' !! n))
    /\ (forall t, t ∈ sel ->
                  get_tensor_data_from_model t (buffers graph_info)
                    (whole_model_buffer graph_info) = Ok None ->
                  is_Some (s' !! get_tensor_name t)).
Proof.
  induction sel as [|t sel IH]; intros s s'; cbn [foldM].
  { intros [= <-]. split; [by left|]. split; [done|].
    intros t Ht. by apply elem_of_nil in Ht. }
  destruct (collect_tensor graph_info content s t) as [s1|] eqn:Hstep; [|done].
  rewrite result_bind_ok. intros Hrest.
  apply IH in Hrest as (Hvals & Hmono & Hall).
  apply collect_tensor_ok_inv in Hstep
    as [(data & Hdata & ->)|(e0 & He0 & ->)].
  - split; [|split].
    + intros n e He. destruct (Hvals n e He) as [?|(t' & Hin & Hn & Hc)];
        [by left|].
      right. exists t'. split; [apply elem_of_cons; auto|done].
    + done.
    + intros t' Ht' Hact. apply elem_of_cons in Ht' as [->|Ht'];
        [congruence|auto].
  - split; [|split].
    + intros n e He. destruct (Hvals n e He) as [Hs|(t' & Hin & Hn & Hc)].
      * destruct (decide (get_tensor_name t = n)) as [<-|Hne].
        -- rewrite lookup_insert_eq in Hs. injection Hs as <-. right.
           exists t. split; [apply elem_of_cons; auto|done].
        -- rewrite lookup_insert_ne in Hs by done. by left.
      * right. exists t'. split; [apply elem_of_cons; auto|done].
    + intros n Hn. apply Hmono.
      destruct (decide (get_tensor_name t = n)) as [<-|Hne].
      * rewrite lookup_insert_eq. by eexists.
      * by rewrite lookup_insert_ne.
    + intros t' Ht' Hact. apply elem_of_cons in Ht' as [->|Ht']; [|auto].
      apply Hmono. rewrite lookup_insert_eq. by eexists.
Qed.

End MinMaxCalibrateFacts.

(** X18.  On an operator whose tensor indices are [-1] or non-negative, a
    successful [min_max_calibrate] records statistics for the activations of
    the operator and for nothing else: every entry belongs to a kept tensor
    without constant data and holds the minimum and maximum over all axes of
    the content supplied under the tensor's name; every kept tensor without
    constant data has an entry. *)
Theorem min_max_calibrate_records_activations :
  forall (NP : Numpy) (tfl_op : Schema.OperatorT)
         (graph_info : GraphInfo) (tensor_content_map : gmap string ndarray)
         (inputs_to_ignore outputs_to_ignore : list Z) (qsvs : QSVMap),
    Forall (fun idx => -1 <= idx)
      (Schema.inputs tfl_op ++ Schema.outputs tfl_op) ->
    min_max_calibrate tfl_op graph_info tensor_content_map inputs_to_ignore
      outputs_to_ignore = Ok qsvs ->
    exists ins outs,
      select_tensors (subgraph_tensors graph_info) inputs_to_ignore 0
        (Schema.inputs tfl_op) [] = Ok ins
      /\ select_tensors (subgraph_tensors graph_info) outputs_to_ignore 0
           (Schema.outputs tfl_op) [] = Ok outs
      /\ (forall n e,
            qsvs !! n = Some e ->
            exists t, t ∈ ins ++ outs /\ get_tensor_name t = n
                      /\ calibrated_entry graph_info tensor_content_map t e)
      /\ (forall t,
            t ∈ ins ++ outs ->
            get_tensor_data_from_model t (buffers graph_info)
              (whole_model_buffer graph_info) = Ok None ->
            is_Some (qsvs !! get_tensor_name t)).
Proof.
  intros NP tfl_op graph_info content ign_in ign_out qsvs.
  intros Hidx. apply Forall_app in Hidx as [Hin Hout].
  unfold min_max_calibrate.
  destruct (for_each_tensor_idx _ ign_in 0 _ ∅) as [s1|] eqn:H1; [|done].
  rewrite result_bind_ok. intros H2.
  apply (for_each_tensor_idx_select (subgraph_tensors graph_info)
           (collect_tensor graph_info content))
    in H1 as (ins & Hins & Hf1); [|done].
  apply (for_each_tensor_idx_select (subgraph_tensors graph_info)
           (collect_tensor graph_info content))
    in H2 as (outs & Houts & Hf2); [|done].
  apply collect_fold in Hf1 as (Hv1 & Hm1 & Ha1).
  apply collect_fold in Hf2 as (Hv2 & Hm2 & Ha2).
  exists ins, outs. split; [done|]. split; [done|]. split.
  - intros n e He.
    destruct (Hv2 n e He) as [Hs|(t & Hin' & Hn & Hc)].
    + destruct (Hv1 n e Hs) as [Hs'|(t & Hin' & Hn & Hc)].
      * by rewrite lookup_empty in Hs'.
      * exists t. split; [apply elem_of_app; auto|done].
    + exists t. split; [apply elem_of_app; auto|done].
  - intros t Ht Hact. apply elem_of_app in Ht as [Ht|Ht]; [|auto].
    apply Hm2. auto.
Qed.

Lemma min_max_calibrate_records_activations_witness :
  exists qsvs,
    @min_max_calibrate example_numpy
      example_fc_op example_graph_info example_content_map [] [] = Ok qsvs
    /\ forall n e,
        qsvs !! n = Some e ->
        exists t,
          get_tensor_name t = n
          /\ calibrated_entry example_graph_info example_content_map t e.
Proof.
  assert (is_ok (@min_max_calibrate example_numpy example_fc_op
                   example_graph_info example_content_map [] []) = true)
    as Hok by (vm_compute; reflexivity).
  destruct (min_max_calibrate _ _ _ _ _) as [qsvs|] eqn:Hcal;
    [|discriminate Hok].
  exists qsvs. split; [reflexivity|].
  destruct (min_max_calibrate_records_activations example_numpy
              example_fc_op example_graph_info example_content_map [] [] qsvs
              ltac:(repeat constructor; discriminate) Hcal)
    as (ins & outs & _ & _ & Hsound & _).
  intros n e He. destruct (Hsound n e He) as (t & _ & Hn & Hc).
  exists t. split; [exact Hn|exact Hc].
Defined.

(* ===================================================================== *)
(** ** The QUANTIZE_TENSOR edit *)
(* ===================================================================== *)

(** X19.  The numpy type and the flatbuffer type chosen for a bit-width
    always correspond, and both functions accept the same bit-widths: every
    width up to 8 (zero and negative widths included) is stored as int8, the
    widths 16, 32 and 64 as the type of that size, and every other width is
    rejected by both. *)
Theorem quant_params_np_type_matches_tflite_type :
  forall bitwidth : Z,
    (forall ty,
        quant_params_to_tflite_type bitwidth = Ok ty
        <-> exists np_ty,
            quant_params_to_np_type bitwidth = Ok np_ty
            /\ ty = tflite_type_of_np np_ty)
    /\ (is_ok (quant_params_to_np_type bitwidth) = true
        <-> bitwidth <= 8 \/ bitwidth = 16 \/ bitwidth = 32 \/ bitwidth = 64)
    /\ (bitwidth <= 8 ->
        quant_params_to_np_type bitwidth = Ok np_int8
        /\ quant_params_to_tflite_type bitwidth = Ok Schema.INT8)
    /\ (bitwidth = 16 ->
        quant_params_to_np_type bitwidth = Ok np_int16
        /\ quant_params_to_tflite_type bitwidth = Ok Schema.INT16)
    /\ (bitwidth = 32 ->
        quant_params_to_np_type bitwidth = Ok np_int32
        /\ quant_params_to_tflite_type bitwidth = Ok Schema.INT32)
    /\ (bitwidth = 64 ->
        quant_params_to_np_type bitwidth = Ok np_int64
        /\ quant_params_to_tflite_type bitwidth = Ok Schema.INT64).
Proof.
  intros bitwidth.
  unfold quant_params_to_tflite_type, quant_params_to_np_type.
  destruct (Z.leb_spec bitwidth 8) as [H8|H8].
  { split; [|split; [|split; [done|split; [lia|split; lia]]]].
    - intros ty. split.
      + intros [= <-]. by exists np_int8.
      + by intros (np_ty & [= <-] & ->).
    - cbn. split; [auto|done]. }
  destruct (Z.eqb_spec bitwidth 16) as [H16|H16].
  { split; [|split; [|split; [lia|split; [done|split; lia]]]].
    - intros ty. split.
      + intros [= <-]. by exists np_int16.
      + by intros (np_ty & [= <-] & ->).
    - cbn. split; [auto|done]. }
  destruct (Z.eqb_spec bitwidth 32) as [H32|H32].
  { split; [|split; [|split; [lia|split; [lia|split; [done|lia]]]]].
    - intros ty. split.
      + intros [= <-]. by exists np_int32.
      + by intros (np_ty & [= <-] & ->).
    - cbn. split; [auto|done]. }
  destruct (Z.eqb_spec bitwidth 64) as [H64|H64].
  { split; [|split; [|split; [lia|split; [lia|split; [lia|done]]]]].
    - intros ty. split.
      + intros [= <-]. by exists np_int64.
      + by intros (np_ty & [= <-] & ->).
    - cbn. split; [auto|done]. }
  split; [|split; [|split; [lia|split; [lia|split; lia]]]].
  - intros ty. split; [done|]. by intros (np_ty & [=] & _).
  - cbn. split; [done|lia].
Qed.

(** X20.  [quantize_tensor] is idempotent: after a successful edit, the same
    edit on the resulting model returns the same result and leaves the model
    as it is. *)
Theorem quantize_tensor_idempotent :
  forall (NP : Numpy) (fresh : QuantizationParameters) (tensor_id : Z)
         (st st' : graph_state) (quant_params : UniformQuantParams)
         (info : TransformationInfo),
    quantize_tensor fresh tensor_id st quant_params = (Ok info, st') ->
    quantize_tensor fresh tensor_id st' quant_params = (Ok info, st').
Proof.
  intros NP fresh tensor_id st st' quant_params info.
  unfold quantize_tensor.
  destruct (py_position (length (Schema.tensors (gs_subgraph st))) tensor_id)
    as [pos|] eqn:Hpos; [|done].
  destruct (Schema.tensors (gs_subgraph st) !! pos) as [tensor|] eqn:Ht;
    [|done].
  destruct (quant_params_to_tflite_type (UQP.num_bits quant_params))
    as [ty|] eqn:Hty.
  2:{ destruct (if bool_decide _ then _ else _); done. }
  assert (pos < length (Schema.tensors (gs_subgraph st)))%nat as Hlt
    by (by eapply lookup_lt_Some).
  destruct (bool_decide (Schema.buffer tensor <> 0)) eqn:Hbuf.
  - destruct (UQP.quantized_data quant_params) as [qd|] eqn:Hqd.
    + destruct (py_position (length (gs_buffers st)) (Schema.buffer tensor))
        as [bpos|] eqn:Hbpos; [|done].
      destruct (gs_buffers st !! bpos) as [b|] eqn:Hb; [|done].
      intros [= <- <-].
      cbn [gs_buffers gs_subgraph set_tensors Schema.tensors
           Schema.operators].
      rewrite !length_insert, Hpos, list_lookup_insert_eq by done.
      cbn [Schema.buffer Schema.name Schema.shape Schema.type]. rewrite Hbuf, Hbpos.
      rewrite list_lookup_insert_eq by (by eapply lookup_lt_Some).
      cbn [Schema.offset Schema.size].
      by rewrite !list_insert_insert_eq.
    + intros [= <- <-].
      cbn [gs_buffers gs_subgraph set_tensors Schema.tensors
           Schema.operators].
      rewrite !length_insert, Hpos, list_lookup_insert_eq by done.
      cbn [Schema.buffer Schema.name Schema.shape Schema.type]. rewrite Hbuf.
      by rewrite !list_insert_insert_eq.
  - intros [= <- <-].
    cbn [gs_buffers gs_subgraph set_tensors Schema.tensors
         Schema.operators].
    rewrite !length_insert, Hpos, list_lookup_insert_eq by done.
    cbn [Schema.buffer Schema.name Schema.shape Schema.type]. rewrite Hbuf.
    by rewrite !list_insert_insert_eq.
Qed.

Lemma quantize_tensor_idempotent_witness :
  exists info st',
    @quantize_tensor example_numpy example_fresh_quantization 0
      example_graph_state example_quant_params = (Ok info, st')
    /\ @quantize_tensor example_numpy example_fresh_quantization 0
         st' example_quant_params = (Ok info, st').
Proof.
  assert (is_ok (@quantize_tensor example_numpy example_fresh_quantization 0
                   example_graph_state example_quant_params).1 = true)
    as Hok by (vm_compute; reflexivity).
  destruct (quantize_tensor _ _ _ _) as [[info|] st'] eqn:Hq;
    [|discriminate Hok].
  exists info, st'. split; [reflexivity|].
  exact (quantize_tensor_idempotent example_numpy example_fresh_quantization
           0 example_graph_state st' example_quant_params info Hq).
Defined.

(** X21.  [quantize_tensor] is not atomic.  An IndexError (tensor index or
    buffer index out of range) leaves the model untouched, but the error for
    an unsupported bit-width is raised after the edit has begun: the tensor
    already carries the new quantization metadata, with its old element type,
    and its buffer has already been overwritten where quantized data was
    given. *)
Theorem quantize_tensor_failure_modes :
  forall (NP : Numpy) (fresh : QuantizationParameters) (tensor_id : Z)
         (st st' : graph_state) (quant_params : UniformQuantParams)
         (e : exn),
    quantize_tensor fresh tensor_id st quant_params = (Err e, st') ->
    (e = IndexError /\ st' = st)
    \/ (exists pos tensor,
          quant_params_to_tflite_type (UQP.num_bits quant_params) = Err e
          /\ py_position (length (Schema.tensors (gs_subgraph st))) tensor_id
             = Some pos
          /\ Schema.tensors (gs_subgraph st) !! pos = Some tensor
          /\ Schema.tensors (gs_subgraph st')
             = <[pos := quantized_tensor fresh tensor (Schema.type tensor)
                          quant_params]> (Schema.tensors (gs_subgraph st))
          /\ buffers_after (gs_buffers st) (gs_buffers st') tensor
               quant_params).
Proof.
  intros NP fresh tensor_id st st' quant_params e.
  unfold quantize_tensor.
  destruct (py_position _ tensor_id) as [pos|] eqn:Hpos;
    [|intros [= <- <-]; by left].
  destruct (Schema.tensors (gs_subgraph st) !! pos) as [tensor|] eqn:Ht;
    [|intros [= <- <-]; by left].
  destruct (bool_decide (Schema.buffer tensor <> 0)) eqn:Hb.
  - apply bool_decide_eq_true in Hb.
    destruct (UQP.quantized_data quant_params) as [qd|] eqn:Hqd.
    + destruct (py_position _ (Schema.buffer tensor)) as [bpos|] eqn:Hbpos;
        [|intros [= <- <-]; by left].
      destruct (gs_buffers st !! bpos) as [b|] eqn:Hbuf;
        [|intros [= <- <-]; by left].
      destruct (quant_params_to_tflite_type _) as [ty|] eqn:Hty; [done|].
      intros [= <- <-]. right. exists pos, tensor.
      repeat split; try done. unfold buffers_after. rewrite Hqd.
      destruct (decide (Schema.buffer tensor = 0)); [done|]. cbn.
      exists bpos, b. repeat split; try done.
      * apply list_lookup_insert_eq. by apply py_position_lt in Hbpos.
      * apply length_insert.
      * intros j Hj. by apply list_lookup_insert_ne.
    + destruct (quant_params_to_tflite_type _) as [ty|] eqn:Hty; [done|].
      intros [= <- <-]. right. exists pos, tensor.
      repeat split; try done. unfold buffers_after. by rewrite Hqd.
  - apply bool_decide_eq_false in Hb.
    destruct (quant_params_to_tflite_type _) as [ty|] eqn:Hty; [done|].
    intros [= <- <-]. right. exists pos, tensor.
    repeat split; try done. unfold buffers_after.
    destruct (UQP.quantized_data quant_params); [|done].
    destruct (decide (Schema.buffer tensor = 0)); [done|]. tauto.
Qed.

Lemma quantize_tensor_failure_modes_witness :
  exists e st',
    @quantize_tensor example_numpy example_fresh_quantization 0
      example_graph_state example_unsupported_quant_params = (Err e, st')
    /\ ((e = IndexError /\ st' = example_graph_state)
        \/ @quant_params_to_tflite_type 12 = Err e).
Proof.
  assert (is_ok (@quantize_tensor example_numpy example_fresh_quantization 0
                   example_graph_state example_unsupported_quant_params).1
          = false) as Hok by (vm_compute; reflexivity).
  destruct (quantize_tensor _ _ _ _) as [[info|e] st'] eqn:Hq;
    [discriminate Hok|].
  exists e, st'. split; [reflexivity|].
  destruct (quantize_tensor_failure_modes example_numpy
              example_fresh_quantization 0 example_graph_state st'
              example_unsupported_quant_params e Hq)
    as [Hidx|(pos & tensor & Hty & _)].
  - left. exact Hidx.
  - right. exact Hty.
Defined.

(* ===================================================================== *)
(** ** Flatbuffer utilities *)
(* ===================================================================== *)

Section HasSameQuantizationFacts.
Context `{Numpy}.

Lemma tuple_eqb_sym {A} (eqb : A -> A -> bool) xs ys :
  (forall x y, eqb x y = eqb y x) ->
  tuple_eqb eqb xs ys = tuple_eqb eqb ys xs.
Proof using Type.
  drop_context. intros Hsym. revert ys.
  induction xs as [|x xs IH]; intros [|y ys]; cbn; try done.
  by rewrite Hsym, IH.
Qed.

End HasSameQuantizationFacts.

(** X22.  [has_same_quantization] does not depend on the order of its
    arguments, errors included, when the comparison of scale values is
    symmetric. *)
Theorem has_same_quantization_symmetric :
  forall (NP : Numpy) (tensor1 tensor2 : Tensor),
    (forall x y, float32_eqb x y = float32_eqb y x) ->
    has_same_quantization tensor1 tensor2
    = has_same_quantization tensor2 tensor1.
Proof.
  intros NP t1 t2.
  intros Hsym. unfold has_same_quantization.
  destruct (Schema.quantization t1) as [q1|], (Schema.quantization t2)
    as [q2|]; cbn; try done.
  - destruct (Schema.scale q1) as [s1|] eqn:Hs1,
      (Schema.scale q2) as [s2|] eqn:Hs2; cbn -[tuple_eqb]; try done.
    + rewrite (tuple_eqb_sym float32_eqb s1 s2 Hsym).
      rewrite (tuple_eqb_sym Z.eqb _ _ Z.eqb_sym).
      rewrite (Z.eqb_sym (Schema.quantizedDimension q1)).
      by rewrite (bool_decide_ext (Schema.type t1 = Schema.type t2)
                    (Schema.type t2 = Schema.type t1)).
    + rewrite (tuple_eqb_sym float32_eqb s1 [] Hsym).
      rewrite (tuple_eqb_sym Z.eqb _ _ Z.eqb_sym).
      rewrite (Z.eqb_sym (Schema.quantizedDimension q1)).
      by rewrite (bool_decide_ext (Schema.type t1 = Schema.type t2)
                    (Schema.type t2 = Schema.type t1)).
    + rewrite (tuple_eqb_sym float32_eqb [] s2 Hsym).
      rewrite (tuple_eqb_sym Z.eqb _ _ Z.eqb_sym).
      rewrite (Z.eqb_sym (Schema.quantizedDimension q1)).
      by rewrite (bool_decide_ext (Schema.type t1 = Schema.type t2)
                    (Schema.type t2 = Schema.type t1)).
  - by destruct (Schema.scale q1).
  - by destruct (Schema.scale q2).
Qed.

Lemma has_same_quantization_symmetric_witness :
  @has_same_quantization example_numpy example_int_tensor example_float_tensor
  = @has_same_quantization example_numpy example_float_tensor
      example_int_tensor.
Proof.
  apply (has_same_quantization_symmetric example_numpy).
  exact Z.eqb_sym.
Defined.

(** X23.  Absent quantization metadata.  Two tensors without metadata have
    the same quantization, but the toolkit version of the function raises on
    them; when exactly one tensor lacks metadata the comparison raises an
    AttributeError instead of answering no; and as soon as one tensor has
    metadata the two versions of the function agree. *)
Theorem has_same_quantization_absent_metadata :
  forall (NP : Numpy) (tensor1 tensor2 : Tensor),
    (Schema.quantization tensor1 = None ->
     Schema.quantization tensor2 = None ->
     has_same_quantization tensor1 tensor2 = Ok true
     /\ has_same_quantization_toolkit tensor1 tensor2
        = Err (AttributeError "scale"))
    /\ (Schema.quantization tensor1 = None ->
        is_Some (Schema.quantization tensor2) ->
        has_same_quantization tensor1 tensor2 = Err (AttributeError "scale"))
    /\ (is_Some (Schema.quantization tensor1) ->
        Schema.quantization tensor2 = None ->
        has_same_quantization tensor1 tensor2 = Err (AttributeError "scale"))
    /\ (is_Some (Schema.quantization tensor1)
        \/ is_Some (Schema.quantization tensor2) ->
        has_same_quantization_toolkit tensor1 tensor2
        = has_same_quantization tensor1 tensor2).
Proof.
  intros NP tensor1 tensor2.
  unfold has_same_quantization, has_same_quantization_toolkit.
  destruct (Schema.quantization tensor1) as [q1|],
    (Schema.quantization tensor2) as [q2|]; cbn -[tuple_eqb].
  - split; [done|]. split; [done|]. split; [by intros _ [=]|done].
  - split; [done|]. split; [done|]. split; [|done].
    intros _ _. by destruct (Schema.scale q1).
  - split; [done|]. split; [done|]. split; [by intros [? [=]]|done].
  - split; [done|]. split; [by intros _ [? [=]]|].
    split; [by intros [? [=]]|]. by intros [[? [=]]|[? [=]]].
Qed.

Section ParseOpTensorsFacts.
Context `{Numpy}.

Lemma parse_op_tensors_fold (ts : list Tensor) idxs :
  Forall (fun idx => -1 <= idx) idxs ->
  forall i acc,
    foldM
      (fun tensors tensor_idx =>
         if bool_decide (tensor_idx <> -1) then
           tensor ← py_index ts tensor_idx;
           Ok (tensors ++ [tensor])
         else Ok tensors)
      acc idxs
    = (r ← select_tensors ts [] i idxs []; Ok (acc ++ r)).
Proof using Type.
  induction 1 as [|idx idxs Hidx _ IH]; intros i acc;
    cbn [foldM select_tensors].
  { by rewrite result_bind_ok, app_nil_r. }
  rewrite (bool_decide_eq_true_2 (i ∉ [])) by apply not_elem_of_nil.
  cbn [andb].
  assert ((0 <=? idx) = bool_decide (idx <> -1)) as ->.
  { destruct (bool_decide (idx <> -1)) eqn:Hd.
    - apply bool_decide_eq_true in Hd. apply Z.leb_le. lia.
    - apply bool_decide_eq_false, dec_stable in Hd. by subst. }
  destruct (bool_decide (idx <> -1)).
  - destruct (py_index ts idx) as [t|]; [|done].
    rewrite !result_bind_ok, (IH (i + 1)).
    rewrite (select_tensors_acc _ _ _ _ ([] ++ [t])).
    destruct (select_tensors ts [] (i + 1) idxs []) as [r|]; [|done].
    rewrite !result_bind_ok. cbn [app]. by rewrite <- app_assoc.
  - rewrite result_bind_ok. apply IH.
Qed.

End ParseOpTensorsFacts.

(** X24.  On an operator whose tensor indices are [-1] or non-negative,
    [parse_op_tensors] returns the tensors [materialize_standard_op] works
    on when nothing is ignored, with the outputs before the inputs; the two
    fail together. *)
Theorem parse_op_tensors_outputs_then_inputs :
  forall (NP : Numpy) (op : Schema.OperatorT) (subgraph_tensors : list Tensor),
    Forall (fun idx => -1 <= idx) (Schema.outputs op ++ Schema.inputs op) ->
    parse_op_tensors op subgraph_tensors
    = (outs ← select_tensors subgraph_tensors [] 0 (Schema.outputs op) [];
       ins ← select_tensors subgraph_tensors [] 0 (Schema.inputs op) [];
       Ok (outs ++ ins)).
Proof.
  intros NP op ts.
  intros Hidx. apply Forall_app in Hidx as [Hout Hin].
  unfold parse_op_tensors.
  rewrite RecipeManagerFacts.foldM_app.
  rewrite (parse_op_tensors_fold ts _ Hout 0 []).
  destruct (select_tensors ts [] 0 (Schema.outputs op) []) as [outs|];
    [|done].
  rewrite !result_bind_ok. cbn [app].
  apply (parse_op_tensors_fold ts _ Hin 0 outs).
Qed.

Lemma parse_op_tensors_outputs_then_inputs_witness :
  @parse_op_tensors example_numpy
    {| Schema.inputs := [0; 1; -1]; Schema.outputs := [3];
       Schema.adjY := None |}
    (@subgraph_tensors example_numpy example_graph_info)
  = Ok [example_output_tensor; example_activation_tensor;
        example_weight_tensor].
Proof.
  rewrite (parse_op_tensors_outputs_then_inputs example_numpy).
  - reflexivity.
  - repeat constructor; discriminate.
Defined.

Section BufferToTensorsFacts.
Context `{Numpy}.

(** One list under each buffer index: what the innermost loop of
    [buffer_to_tensors] adds to a map. *)
Lemma buffer_to_tensors_step_fold (tensors : list Tensor) :
  forall (m : gmap Z (list Tensor)) b,
    fold_left buffer_to_tensors_step tensors m !! b
    = match m !! b with
      | Some l => Some (l ++ tensors_of_buffer b tensors)
      | None =>
          if decide (tensors_of_buffer b tensors = []) then None
          else Some (tensors_of_buffer b tensors)
      end.
Proof using Type.
  unfold tensors_of_buffer.
  induction tensors as [|t tensors IH]; intros m b; cbn [fold_left].
  { rewrite filter_nil. destruct (m !! b); [by rewrite app_nil_r|done]. }
  rewrite IH. unfold buffer_to_tensors_step.
  destruct (decide (Schema.buffer t = b)) as [<-|Hne].
  - rewrite lookup_alter_eq, filter_cons_True by done.
    destruct (decide (m !! Schema.buffer t = None)) as [Hm|Hm].
    + rewrite lookup_insert_eq, Hm. cbn. by rewrite decide_False.
    + destruct (m !! Schema.buffer t) as [l|]; [|done]. cbn.
      by rewrite <- app_assoc.
  - rewrite lookup_alter_ne, filter_cons_False by done.
    destruct (decide (m !! Schema.buffer t = None)) as [Hm|Hm]; [|done].
    by rewrite lookup_insert_ne.
Qed.

Lemma buffer_to_tensors_ops (subgraph_ts : list Tensor) ops :
  forall (m m' : gmap Z (list Tensor)) acc,
    foldM
      (fun buffer_to_tensor_map op =>
         tensors ← parse_op_tensors op subgraph_ts;
         Ok (fold_left buffer_to_tensors_step tensors buffer_to_tensor_map))
      m ops = Ok m' ->
    exists new,
      foldM
        (fun acc op =>
           tensors ← parse_op_tensors op subgraph_ts; Ok (acc ++ tensors))
        acc ops = Ok (acc ++ new)
      /\ m' = fold_left buffer_to_tensors_step new m.
Proof using Type.
  induction ops as [|op ops IH]; intros m m' acc; cbn [foldM].
  { intros [= <-]. exists []. by rewrite app_nil_r. }
  destruct (parse_op_tensors op subgraph_ts) as [ts|]; [|done].
  rewrite !result_bind_ok. intros Hrest.
  apply (IH _ _ (acc ++ ts)) in Hrest as (new & Hfold & ->).
  exists (ts ++ new). rewrite Hfold, app_assoc. split; [done|].
  by rewrite fold_left_app.
Qed.

Lemma buffer_to_tensors_subgraphs (sgs : list SubGraph) :
  forall (m m' : gmap Z (list Tensor)) acc,
    foldM
      (fun buffer_to_tensor_map subgraph =>
         foldM
           (fun buffer_to_tensor_map op =>
              tensors ← parse_op_tensors op (Schema.tensors subgraph);
              Ok (fold_left buffer_to_tensors_step tensors
                    buffer_to_tensor_map))
           buffer_to_tensor_map (Schema.operators subgraph))
      m sgs = Ok m' ->
    exists new,
      foldM
        (fun acc subgraph =>
           foldM
             (fun acc op =>
                tensors ← parse_op_tensors op (Schema.tensors subgraph);
                Ok (acc ++ tensors))
             acc (Schema.operators subgraph))
        acc sgs = Ok (acc ++ new)
      /\ m' = fold_left buffer_to_tensors_step new m.
Proof using Type.
  induction sgs as [|sg sgs IH]; intros m m' acc; cbn [foldM].
  { intros [= <-]. exists []. by rewrite app_nil_r. }
  destruct (foldM _ m (Schema.operators sg)) as [m1|] eqn:Hops; [|done].
  rewrite result_bind_ok. intros Hrest.
  apply (buffer_to_tensors_ops _ _ _ _ acc) in Hops as (new1 & Hf1 & ->).
  rewrite Hf1, result_bind_ok.
  apply (IH _ _ (acc ++ new1)) in Hrest as (new & Hfold & ->).
  exists (new1 ++ new). rewrite Hfold, app_assoc. split; [done|].
  by rewrite fold_left_app.
Qed.

End BufferToTensorsFacts.

(** X25.  [buffer_to_tensors] groups the tensors of all operators by buffer
    index: the list under an index holds the tensors that use that buffer, in
    the order the operators list them and once per listing (a tensor that two
    operators share appears twice), and an index that no operator tensor uses
    is not a key. *)
Theorem buffer_to_tensors_groups_by_buffer :
  forall (NP : Numpy) (flatbuffer_model : Schema.ModelT float32)
         (buffer_to_tensor_map : gmap Z (list Tensor)),
    buffer_to_tensors flatbuffer_model = Ok buffer_to_tensor_map ->
    exists all,
      model_op_tensors flatbuffer_model = Ok all
      /\ forall b,
          buffer_to_tensor_map !! b
          = if decide (tensors_of_buffer b all = []) then None
            else Some (tensors_of_buffer b all).
Proof.
  intros NP flatbuffer_model m.
  unfold buffer_to_tensors, model_op_tensors. intros Hm.
  apply (buffer_to_tensors_subgraphs _ _ _ []) in Hm as (all & Hall & ->).
  exists all. split; [done|]. intros b.
  by rewrite buffer_to_tensors_step_fold, lookup_empty.
Qed.

Lemma buffer_to_tensors_groups_by_buffer_witness :
  exists m,
    @buffer_to_tensors example_numpy example_model = Ok m
    /\ m !! 0
       = Some [example_output_tensor; example_activation_tensor;
               example_output_tensor]
    /\ m !! 5 = None.
Proof.
  assert (is_ok (@buffer_to_tensors example_numpy example_model) = true)
    as Hok by (vm_compute; reflexivity).
  destruct (buffer_to_tensors _) as [m|] eqn:Hm; [|discriminate Hok].
  exists m. split; [reflexivity|].
  destruct (buffer_to_tensors_groups_by_buffer example_numpy example_model m
              Hm) as (all & Hall & Hlook).
  assert (all = [example_output_tensor; example_activation_tensor;
                 example_weight_tensor; example_bias_tensor;
                 example_output_tensor]) as ->.
  { assert (@model_op_tensors example_numpy example_model
            = Ok [example_output_tensor; example_activation_tensor;
                  example_weight_tensor; example_bias_tensor;
                  example_output_tensor]) as Hall'
      by (vm_compute; reflexivity).
    rewrite Hall in Hall'. by injection Hall'. }
  split; [rewrite (Hlook 0)|rewrite (Hlook 5)]; vm_compute; reflexivity.
Defined.

Section ReadModelFacts.
Context `{Numpy}.

Lemma py_index_map {A B} (f : A -> B) (l : list A) i :
  py_index (map f l) i
  = match py_index l i with
    | Ok x => Ok (f x)
    | Err e => Err e
    end.
Proof using Type.
  drop_context. unfold py_index. rewrite length_map. cbv zeta.
  destruct (_ && _); [|done].
  rewrite list_lookup_fmap. by destruct (l !! _).
Qed.

End ReadModelFacts.

(** X26.  After the buffer loop of the toolkit's [read_model], the whole
    model buffer is no longer needed: on a model none of whose buffers has
    offset exactly 1, reading a tensor from the rewritten buffers, with any
    model buffer or with the two-argument [get_tensor_data], gives what the
    three-argument [get_tensor_data] reads from the original buffers and the
    model buffer. *)
Theorem read_model_inlines_buffer_contents :
  forall (NP : Numpy) (tensor : Tensor) (buffers : list Schema.BufferT)
         (model_buffer model_buffer' : list Byte.byte),
    Forall (fun b => Schema.offset b <> 1%nat) buffers ->
    get_tensor_data_from_model tensor
      (read_model_buffers model_buffer buffers) model_buffer'
    = get_tensor_data_from_model tensor buffers model_buffer
    /\ get_tensor_data tensor (read_model_buffers model_buffer buffers)
       = get_tensor_data_from_model tensor buffers model_buffer.
Proof.
  intros NP tensor buffers model_buffer model_buffer'.
  intros Hoff.
  unfold get_tensor_data_from_model, get_tensor_data, read_model_buffers.
  rewrite py_index_map.
  destruct (py_index buffers (Schema.buffer tensor)) as [b|] eqn:Hb;
    [|done].
  rewrite !result_bind_ok.
  assert (Schema.offset b <> 1%nat) as Hb1.
  { unfold py_index in Hb. cbv zeta in Hb.
    destruct (_ && _); [|done].
    destruct (buffers !! _) as [b'|] eqn:Hlook; [|done].
    injection Hb as <-.
    by apply (Forall_lookup_1 _ _ _ _ Hoff Hlook). }
  destruct (bool_decide (Schema.offset b <> 0%nat)) eqn:H0.
  - apply bool_decide_eq_true in H0. cbn [Schema.offset Schema.data].
    replace (1 <? Schema.offset b)%nat with true
      by (symmetry; apply Nat.ltb_lt; lia).
    done.
  - apply bool_decide_eq_false, dec_stable in H0. rewrite H0. done.
Qed.

Lemma read_model_inlines_buffer_contents_witness :
  @get_tensor_data example_numpy example_weight_tensor
    (read_model_buffers example_model_buffer example_offset_buffers)
  = Ok (Some [7; 9]).
Proof.
  rewrite (proj2 (read_model_inlines_buffer_contents example_numpy
                    example_weight_tensor example_offset_buffers
                    example_model_buffer []
                    ltac:(repeat constructor; discriminate))).
  vm_compute. reflexivity.
Defined.
